(** * Editor adapters of kie-tools and the Errai environment probe

    A shallow embedding of
    - [EnvUtil] (Errai, [org.jboss.errai.common.rebind.EnvUtil]): the three
      memoised environment predicates, the loading of the configured
      portable types and the queries on them;
    - [ServerlessWorkflowEditor] and [DashbuilderEditor]: the two React
      components that adapt a Monaco text widget to the host's editor
      contract (setContent / getContent / getPreview / undo / redo /
      validate / setTheme) and report back through the [props] callbacks.
    - [App]: the dev webapp of the text editor, with its handlers;
    - [VsCodeServerlessWorkflowEditorFactory]: the factory that installs the
      code-completion service on [window.envelope].

    React state ([useState]), refs ([useRef]) and the calls made on [props]
    are threaded explicitly: a component method is a function from the
    component's state to a completion (a value or a thrown error), the next
    state and the list of calls it made, in order. *)

From Stdlib Require Import String Ascii List Bool Arith Lia.
Import ListNotations.
Local Open Scope string_scope.
Local Open Scope list_scope.

(* ===================================================================== *)
(** * EnvUtil *)
(* ===================================================================== *)

Module EnvUtil.

(** [new Throwable().getStackTrace()]: the class names of the frames,
    innermost first. *)
Definition StackTrace := list string.

(** The three [private static volatile Boolean] fields; [None] is
    [null]. *)
Record Statics : Type := mkStatics {
  _isJUnitTest : option bool;
  _isDevMode : option bool;
  _isProdMode : option bool
}.

(** Class initialisation: every field is [null]. *)
Definition clinit : Statics := mkStatics None None None.

(** The frame a method of [EnvUtil] itself adds to the stack. *)
Definition SELF : string := "org.jboss.errai.common.rebind.EnvUtil".

(** [el.getClassName().startsWith(p)] *)
Definition startsWith (className p : string) : bool := String.prefix p className.

(** [for (StackTraceElement el : trace) if (test el) return TRUE; return FALSE] *)
Fixpoint anyFrame (test : string -> bool) (trace : StackTrace) : bool :=
  match trace with
  | [] => false
  | el :: rest => if test el then true else anyFrame test rest
  end.

Definition junitFrame (el : string) : bool :=
  startsWith el "com.google.gwt.junit.client." || startsWith el "org.junit".

Definition devModeFrame (el : string) : bool :=
  startsWith el "com.google.gwt.dev.shell.OophmSessionHandler".

(** A static method: the caller's stack and the statics in, the returned
    boolean and the statics out. *)
Definition isJUnitTest (caller : StackTrace) (s : Statics) : bool * Statics :=
  match _isJUnitTest s with
  | Some b => (b, s)
  | None =>
      let b := anyFrame junitFrame (SELF :: caller) in
      (b, mkStatics (Some b) (_isDevMode s) (_isProdMode s))
  end.

Definition isDevMode (caller : StackTrace) (s : Statics) : bool * Statics :=
  match _isDevMode s with
  | Some b => (b, s)
  | None =>
      let b := anyFrame devModeFrame (SELF :: caller) in
      (b, mkStatics (_isJUnitTest s) (Some b) (_isProdMode s))
  end.

(** [_isProdMode = Boolean.valueOf(!isDevMode() && !isJUnitTest())]:
    [&&] does not evaluate [isJUnitTest()] when [isDevMode()] is true. *)
Definition isProdMode (caller : StackTrace) (s : Statics) : bool * Statics :=
  match _isProdMode s with
  | Some b => (b, s)
  | None =>
      let (d, s1) := isDevMode (SELF :: caller) s in
      if negb d then
        let (j, s2) := isJUnitTest (SELF :: caller) s1 in
        (negb j, mkStatics (_isJUnitTest s2) (_isDevMode s2) (Some (negb j)))
      else
        (false, mkStatics (_isJUnitTest s1) (_isDevMode s1) (Some false))
  end.

Definition recordEnvironmentState (caller : StackTrace) (s : Statics) : Statics :=
  let s1 := snd (isJUnitTest (SELF :: caller) s) in
  let s2 := snd (isDevMode (SELF :: caller) s1) in
  snd (isProdMode (SELF :: caller) s2).

(** The public methods that touch the three fields. *)
Inductive Method : Type :=
| IsJUnitTest | IsDevMode | IsProdMode | RecordEnvironmentState.

Definition invoke (m : Method) (caller : StackTrace) (s : Statics) : Statics :=
  match m with
  | IsJUnitTest => snd (isJUnitTest caller s)
  | IsDevMode => snd (isDevMode caller s)
  | IsProdMode => snd (isProdMode caller s)
  | RecordEnvironmentState => recordEnvironmentState caller s
  end.

(** A run of the program: a sequence of calls, each from its own stack. *)
Fixpoint run (calls : list (Method * StackTrace)) (s : Statics) : Statics :=
  match calls with
  | [] => s
  | (m, caller) :: rest => run rest (invoke m caller s)
  end.

(** ** Portable types *)

(** A [MetaClass], as far as [EnvUtil] looks into it: its fully qualified
    name, [getInterfaces()], [getSuperClass()] ([None] is [null]),
    [getDeclaredClasses()] and [isSynthetic()]. Two meta classes are equal
    when their names are. *)
#[warnings="-register-all"]
Inductive MetaClass : Type :=
| metaClass (fullName : string) (interfaces : list MetaClass)
    (superClass : option MetaClass) (declaredClasses : list MetaClass)
    (synthetic : bool).

Definition getFullyQualifiedName (c : MetaClass) : string :=
  match c with metaClass fullName _ _ _ _ => fullName end.

Definition getInterfaces (c : MetaClass) : list MetaClass :=
  match c with metaClass _ interfaces _ _ _ => interfaces end.

Definition getSuperClass (c : MetaClass) : option MetaClass :=
  match c with metaClass _ _ superClass _ _ => superClass end.

Definition getDeclaredClasses (c : MetaClass) : list MetaClass :=
  match c with metaClass _ _ _ declaredClasses _ => declaredClasses end.

Definition isSynthetic (c : MetaClass) : bool :=
  match c with metaClass _ _ _ _ synthetic => synthetic end.

(** A [HashSet<MetaClass>]: no two elements of the same name. *)
Definition ClassSet : Type := list MetaClass.

Definition contains (set : ClassSet) (c : MetaClass) : bool :=
  existsb (fun x => String.eqb (getFullyQualifiedName x) (getFullyQualifiedName c)) set.

Definition add (set : ClassSet) (c : MetaClass) : ClassSet :=
  if contains set c then set else set ++ [c].

Definition addAll (set : ClassSet) (cs : list MetaClass) : ClassSet :=
  fold_left add cs set.

Definition removeAll (set other : ClassSet) : ClassSet :=
  filter (fun x => negb (contains other x)) set.

(** [fillInInterfacesAndSuperTypes(set, type)]: the set is mutated in
    place, so it is threaded through the two loops. *)
Fixpoint fillInInterfacesAndSuperTypes (set : ClassSet) (type : MetaClass) : ClassSet :=
  match type with
  | metaClass _ interfaces superClass _ _ =>
      let set1 :=
        (fix each (ifaces : list MetaClass) (set : ClassSet) : ClassSet :=
           match ifaces with
           | [] => set
           | iface :: rest =>
               each rest (fillInInterfacesAndSuperTypes (add set iface) iface)
           end) interfaces set in
      match superClass with
      | Some super => fillInInterfacesAndSuperTypes set1 super
      | None => set1
      end
  end.

(** ** [java.lang.String] *)

(** The pieces of [s] around the occurrences of a non-empty literal [sep],
    found from the left; [skip] counts the characters of an occurrence
    still to be dropped and [piece] is the piece being read. *)
Fixpoint pieces (skip : nat) (sep piece s : string) : list string :=
  match s with
  | EmptyString => [piece]
  | String c rest =>
      match skip with
      | S k => pieces k sep piece rest
      | O =>
          if String.prefix sep s
          then piece :: pieces (String.length sep - 1) sep EmptyString rest
          else pieces 0 sep (piece ++ String c EmptyString) rest
      end
  end.

Fixpoint dropTrailingEmpty (l : list string) : list string :=
  match l with
  | [] => []
  | x :: rest =>
      match dropTrailingEmpty rest with
      | [] => if String.eqb x EmptyString then [] else [x]
      | rest' => x :: rest'
      end
  end.

(** [s.split(sep)] for a non-empty [sep] without regex metacharacters:
    the string itself when [sep] does not occur, else the pieces without
    the trailing empty ones. *)
Definition split (s sep : string) : list string :=
  match pieces 0 sep EmptyString s with
  | [_] => [s]
  | ps => dropTrailingEmpty ps
  end.

Definition isWhitespace (c : ascii) : bool := Nat.leb (nat_of_ascii c) 32.

Fixpoint trimLeft (s : string) : string :=
  match s with
  | EmptyString => EmptyString
  | String c rest => if isWhitespace c then trimLeft rest else s
  end.

Fixpoint trimRight (s : string) : string :=
  match s with
  | EmptyString => EmptyString
  | String c rest =>
      match trimRight rest with
      | EmptyString => if isWhitespace c then EmptyString else String c EmptyString
      | rest' => String c rest'
      end
  end.

(** [s.trim()]: without the leading and trailing characters up to
    [' '] (U+0020). *)
Definition trim (s : string) : string := trimRight (trimLeft s).

(** ** The configured portable types *)

Definition CONFIG_ERRAI_SERIALIZABLE_TYPE : string :=
  "errai.marshalling.serializableTypes".
Definition CONFIG_ERRAI_NONSERIALIZABLE_TYPE : string :=
  "errai.marshalling.nonserializableTypes".
Definition CONFIG_ERRAI_MAPPING_ALIASES : string :=
  "errai.marshalling.mappingAliases".

(** A [HashMap<String, String>]: at most one entry per key. *)
Definition StringMap : Type := list (string * string).

Definition put (m : StringMap) (key value : string) : StringMap :=
  (key, value) :: filter (fun entry => negb (String.eqb (fst entry) key)) m.

Definition get (m : StringMap) (key : string) : option string :=
  match find (fun entry => String.eqb (fst entry) key) m with
  | Some entry => Some (snd entry)
  | None => None
  end.

(** What [loadConfiguredPortableTypes] reads from the outside.
    - [portableTypes], [nonPortableTypes]:
      [ClassScanner.getTypesAnnotatedWith] for [Portable] and [NonPortable];
    - [resources]: the [ErraiApp.properties] files of the class loader,
      [None] when [getResources] throws an [IOException]; each file is the
      keys of its bundle, in the order of [keySet()], with their values,
      [None] when opening or parsing it throws an [IOException];
    - [metaClassOf]: [MetaClassFactory.get(name)], [None] when it throws;
    - [classForName]: the name of [Class.forName(name)], [None] when it
      throws. *)
Record Environment : Type := mkEnvironment {
  portableTypes : list MetaClass;
  nonPortableTypes : list MetaClass;
  resources : option (list (option (list (string * string))));
  metaClassOf : string -> option MetaClass;
  classForName : string -> option string
}.

(** [new EnviromentConfig(mappingAliases, exposedClasses, portableNonExposed,
    frameworkProps)]: the four arguments, under the names of its getters. *)
Record EnviromentConfig : Type := mkEnviromentConfig {
  getMappingAliases : StringMap;
  getExposedClasses : ClassSet;
  getPortableSuperTypes : ClassSet;
  getFrameworkProperties : StringMap
}.

(** The four collections the method fills. *)
Record Loading : Type := mkLoading {
  frameworkProps : StringMap;
  mappingAliases : StringMap;
  exposedClasses : ClassSet;
  nonportableClasses : ClassSet
}.

(** A [RuntimeException], by its message, or a value. *)
Definition Thrown (A : Type) : Type := (string + A)%type.

(** [for (String s : names) { try { set.add(MetaClassFactory.get(s.trim())); }
    catch (Exception e) { throw new RuntimeException(message + s); } }] *)
Fixpoint addConfigured (env : Environment) (message : string)
    (names : list string) (set : ClassSet) : Thrown ClassSet :=
  match names with
  | [] => inr set
  | s :: rest =>
      match metaClassOf env (trim s) with
      | Some c => addConfigured env message rest (add set c)
      | None => inl (message ++ s)%string
      end
  end.

(** The body of the [try] for one alias [s]: the two class names, or the
    message of what it throws. *)
Definition aliasOf (env : Environment) (s : string) : Thrown (string * string) :=
  match split s "->" with
  | [from; to] =>
      match classForName env (trim from) with
      | Some fromMapping =>
          match classForName env (trim to) with
          | Some toMapping => inr (fromMapping, toMapping)
          | None => inl ("java.lang.ClassNotFoundException: " ++ trim to)%string
          end
      | None => inl ("java.lang.ClassNotFoundException: " ++ trim from)%string
      end
  | _ => inl ("syntax error: mapping for marshalling alias: " ++ s)%string
  end.

(** [for (String s : entries) { try { ... mappingAliases.put(...); }
    catch (Exception e) { throw new RuntimeException(... + s); } }] *)
Fixpoint addAliases (env : Environment) (entries : list string)
    (aliases : StringMap) : Thrown StringMap :=
  match entries with
  | [] => inr aliases
  | s :: rest =>
      match aliasOf env s with
      | inr (fromMapping, toMapping) =>
          addAliases env rest (put aliases fromMapping toMapping)
      | inl _ =>
          inl ("could not find class defined in ErraiApp.properties for mapping: "
                 ++ s)%string
      end
  end.

(** [for (Object o : props.keySet()) { ... }]: each key is recorded in
    [frameworkProps]; the first of the three configuration keys is handled
    and ends the loop ([break]). *)
Fixpoint readKeys (env : Environment) (entries : list (string * string))
    (st : Loading) : Thrown Loading :=
  match entries with
  | [] => inr st
  | (key, value) :: rest =>
      let props := put (frameworkProps st) key value in
      if String.eqb key CONFIG_ERRAI_SERIALIZABLE_TYPE then
        match addConfigured env
                "could not find class defined in ErraiApp.properties for serialization: "
                (split value " ") (exposedClasses st) with
        | inr exposed =>
            inr (mkLoading props (mappingAliases st) exposed (nonportableClasses st))
        | inl message => inl message
        end
      else if String.eqb key CONFIG_ERRAI_NONSERIALIZABLE_TYPE then
        match addConfigured env
                "could not find class defined in ErraiApp.properties as nonserializable: "
                (split value " ") (nonportableClasses st) with
        | inr nonportable =>
            inr (mkLoading props (mappingAliases st) (exposedClasses st) nonportable)
        | inl message => inl message
        end
      else if String.eqb key CONFIG_ERRAI_MAPPING_ALIASES then
        match addAliases env (split value " ") (mappingAliases st) with
        | inr aliases =>
            inr (mkLoading props aliases (exposedClasses st) (nonportableClasses st))
        | inl message => inl message
        end
      else
        readKeys env rest
          (mkLoading props (mappingAliases st) (exposedClasses st)
                     (nonportableClasses st))
  end.

(** [while (erraiAppProperties.hasMoreElements()) { ... }] *)
Fixpoint readBundles (env : Environment)
    (bundles : list (option (list (string * string)))) (st : Loading)
    : Thrown Loading :=
  match bundles with
  | [] => inr st
  | None :: _ => inl "error reading ErraiApp.properties"
  | Some entries :: rest =>
      match readKeys env entries st with
      | inr st1 => readBundles env rest st1
      | inl message => inl message
      end
  end.

(** [for (MetaClass cls : exposedFromScanner) for (MetaClass decl :
    cls.getDeclaredClasses()) { if (decl.isSynthetic()) continue;
    exposedClasses.add(decl); }] *)
Definition addDeclared (set : ClassSet) (cls : MetaClass) : ClassSet :=
  fold_left (fun acc decl => if isSynthetic decl then acc else add acc decl)
            (getDeclaredClasses cls) set.

Definition loadConfiguredPortableTypes (env : Environment) : Thrown EnviromentConfig :=
  let exposedFromScanner := addAll [] (portableTypes env) in
  let nonportable := addAll [] (nonPortableTypes env) in
  let exposed := addAll (fold_left addDeclared exposedFromScanner []) exposedFromScanner in
  match resources env with
  | None => inl "failed to load ErraiApp.properties from classloader"
  | Some bundles =>
      match readBundles env bundles (mkLoading [] [] exposed nonportable) with
      | inl message => inl message
      | inr st =>
          let exposedLeft := removeAll (exposedClasses st) (nonportableClasses st) in
          let portableNonExposed :=
            fold_left fillInInterfacesAndSuperTypes exposedLeft [] in
          inr (mkEnviromentConfig (mappingAliases st) exposedLeft portableNonExposed
                                  (frameworkProps st))
      end
  end.

(** [getEnvironmentConfig()]: the statics hold [_environmentConfigCache]
    besides the three booleans; [cache] is that field. *)
Definition getEnvironmentConfig (env : Environment) (cache : option EnviromentConfig)
    : Thrown EnviromentConfig * option EnviromentConfig :=
  match cache with
  | Some config => (inr config, cache)
  | None =>
      match loadConfiguredPortableTypes env with
      | inr config => (inr config, Some config)
      | inl message => (inl message, None)
      end
  end.

(** A [Class<?>], as far as [EnvUtil] looks into it: its name,
    [isInterface()], [isAnnotationPresent(Portable.class)], whether
    [TypeHandlerFactory.getHandler(cls)] is not null, and
    [MetaClassFactory.get(cls)]. *)
Record JavaClass : Type := mkJavaClass {
  getName : string;
  isInterface : bool;
  isPortableAnnotated : bool;
  hasTypeHandler : bool;
  toMetaClass : MetaClass
}.

(** [String.class.equals(cls)] *)
Definition isStringClass (cls : JavaClass) : bool :=
  String.eqb (getName cls) "java.lang.String".

(** [isPortableType(cls)]: [||] asks for the configuration only when the
    annotation is absent, and a second time only when the class is not
    exposed. *)
Definition isPortableType (env : Environment) (cls : JavaClass)
    (cache : option EnviromentConfig) : Thrown bool * option EnviromentConfig :=
  let mc := toMetaClass cls in
  if isPortableAnnotated cls then (inr true, cache)
  else
    match getEnvironmentConfig env cache with
    | (inl message, cache1) => (inl message, cache1)
    | (inr config1, cache1) =>
        if contains (getExposedClasses config1) mc then (inr true, cache1)
        else
          match getEnvironmentConfig env cache1 with
          | (inl message, cache2) => (inl message, cache2)
          | (inr config2, cache2) =>
              if contains (getPortableSuperTypes config2) mc then (inr true, cache2)
              else if isStringClass cls || hasTypeHandler cls then (inr true, cache2)
              else (inr false, cache2)
          end
    end.

(** A [HashSet<Class<?>>]. *)
Definition addClass (set : list JavaClass) (cls : JavaClass) : list JavaClass :=
  if existsb (fun x => String.eqb (getName x) (getName cls)) set
  then set else set ++ [cls].

Section Scanner.
(** [ScannerSingleton.getOrCreateInstance().getSubTypesOf(clazz)] *)
Variable getSubTypesOf : JavaClass -> list JavaClass.

(** [for (Class<?> subType : subTypes) if (isPortableType(subType))
    portableSubtypes.add(subType);] *)
Fixpoint addPortable (env : Environment) (subTypes : list JavaClass)
    (portableSubtypes : list JavaClass) (cache : option EnviromentConfig)
    : Thrown (list JavaClass) * option EnviromentConfig :=
  match subTypes with
  | [] => (inr portableSubtypes, cache)
  | subType :: rest =>
      match isPortableType env subType cache with
      | (inl message, cache1) => (inl message, cache1)
      | (inr true, cache1) =>
          addPortable env rest (addClass portableSubtypes subType) cache1
      | (inr false, cache1) => addPortable env rest portableSubtypes cache1
      end
  end.

Definition getAllPortableConcreteSubtypes (env : Environment) (clazz : JavaClass)
    (cache : option EnviromentConfig)
    : Thrown (list JavaClass) * option EnviromentConfig :=
  match isPortableType env clazz cache with
  | (inl message, cache1) => (inl message, cache1)
  | (inr true, cache1) => addPortable env (getSubTypesOf clazz) [clazz] cache1
  | (inr false, cache1) => addPortable env (getSubTypesOf clazz) [] cache1
  end.

(** [for (Class<?> subType : subTypes) if (clazz.isInterface() ||
    isPortableType(subType)) portableSubtypes.add(subType);] *)
Fixpoint addPortableOrAll (env : Environment) (clazz : JavaClass)
    (subTypes : list JavaClass) (portableSubtypes : list JavaClass)
    (cache : option EnviromentConfig)
    : Thrown (list JavaClass) * option EnviromentConfig :=
  match subTypes with
  | [] => (inr portableSubtypes, cache)
  | subType :: rest =>
      if isInterface clazz
      then addPortableOrAll env clazz rest (addClass portableSubtypes subType) cache
      else
        match isPortableType env subType cache with
        | (inl message, cache1) => (inl message, cache1)
        | (inr true, cache1) =>
            addPortableOrAll env clazz rest (addClass portableSubtypes subType) cache1
        | (inr false, cache1) =>
            addPortableOrAll env clazz rest portableSubtypes cache1
        end
  end.

Definition getAllPortableSubtypes (env : Environment) (clazz : JavaClass)
    (cache : option EnviromentConfig)
    : Thrown (list JavaClass) * option EnviromentConfig :=
  if isInterface clazz
  then addPortableOrAll env clazz (getSubTypesOf clazz) [clazz] cache
  else
    match isPortableType env clazz cache with
    | (inl message, cache1) => (inl message, cache1)
    | (inr true, cache1) =>
        addPortableOrAll env clazz (getSubTypesOf clazz) [clazz] cache1
    | (inr false, cache1) =>
        addPortableOrAll env clazz (getSubTypesOf clazz) [] cache1
    end.

End Scanner.

End EnvUtil.

(* ===================================================================== *)
(** * The host's editor contract *)
(* ===================================================================== *)

(** [@kie-tools-core/editor/dist/api] *)
Inductive EditorTheme : Type := LIGHT | DARK.

Module StateControlCommand.
Inductive t : Type := REDO | UNDO.
End StateControlCommand.

(** [../monaco/SwfMonacoEditorApi], [../monaco/DashbuilderMonacoEditorApi] *)
Module MonacoEditorOperation.
Inductive t : Type := UNDO | REDO | EDIT.
End MonacoEditorOperation.

(** [new KogitoEdit(newContent)] *)
Record KogitoEdit : Type := mkKogitoEdit { id : string }.

Record Notification : Type := mkNotification {
  notification_path : string;
  notification_message : string
}.

Inductive JsError : Type :=
| TypeError (message : string)
| Error (message : string).

(** An already settled promise, as [Promise.resolve(v)] and
    [Promise.reject()] build it. *)
Module Promise.
Inductive t (A : Type) : Type :=
| resolve (value : A)
| reject.
Arguments resolve {A} value.
Arguments reject {A}.
End Promise.

(** What a component does to the outside: the calls on [props], and
    [console.error]. *)
Inductive Call : Type :=
| onReady
| onStateControlCommandUpdate (command : StateControlCommand.t)
| onNewEdit (edit : KogitoEdit)
| setNotifications (path : string) (notifications : list Notification)
| onShowPreviewChange (v : bool)
| console_error (e : JsError).

(** The new-edit notifications of a log, in order. *)
Fixpoint newEdits (log : list Call) : list KogitoEdit :=
  match log with
  | [] => []
  | onNewEdit edit :: rest => edit :: newEdits rest
  | _ :: rest => newEdits rest
  end.

(** The state-control commands of a log, in order. *)
Fixpoint stateControlCommands (log : list Call) : list StateControlCommand.t :=
  match log with
  | [] => []
  | onStateControlCommandUpdate command :: rest => command :: stateControlCommands rest
  | _ :: rest => stateControlCommands rest
  end.

(** The ready signals of a log. *)
Fixpoint readySignals (log : list Call) : nat :=
  match log with
  | [] => 0
  | onReady :: rest => S (readySignals rest)
  | _ :: rest => readySignals rest
  end.

(* ===================================================================== *)
(** * Component code: state, thrown errors and the log of calls *)
(* ===================================================================== *)

Inductive Completion (A : Type) : Type :=
| Normal (value : A)
| Throw (e : JsError).
Arguments Normal {A} value.
Arguments Throw {A} e.

Definition M (S A : Type) : Type := S -> Completion A * S * list Call.

Section ComponentMonad.
Context {S : Type}.

Definition ret {A : Type} (a : A) : M S A :=
  fun s => (Normal a, s, []).

Definition bind {A B : Type} (m : M S A) (k : A -> M S B) : M S B :=
  fun s =>
    match m s with
    | (Normal a, s1, l1) =>
        match k a s1 with
        | (r, s2, l2) => (r, s2, l1 ++ l2)
        end
    | (Throw e, s1, l1) => (Throw e, s1, l1)
    end.

Definition throw {A : Type} (e : JsError) : M S A :=
  fun s => (Throw e, s, []).

(** [try { m } catch (e) { handler e }] *)
Definition try_catch {A : Type} (m : M S A) (handler : JsError -> M S A) : M S A :=
  fun s =>
    match m s with
    | (Normal a, s1, l1) => (Normal a, s1, l1)
    | (Throw e, s1, l1) =>
        match handler e s1 with
        | (r, s2, l2) => (r, s2, l1 ++ l2)
        end
    end.

Definition gets {A : Type} (f : S -> A) : M S A :=
  fun s => (Normal (f s), s, []).

Definition modify (f : S -> S) : M S unit :=
  fun s => (Normal tt, f s, []).

Definition call (c : Call) : M S unit :=
  fun s => (Normal tt, s, [c]).

(** [r.current!]: the non-null assertion is erased by the compiler, so the
    property access that follows throws on [null]. *)
Definition deref {A : Type} (current : S -> option A) : M S A :=
  fun s =>
    match current s with
    | Some a => (Normal a, s, [])
    | None => (Throw (TypeError "Cannot read properties of null"), s, [])
    end.

End ComponentMonad.

Notation "x <- m ;; k" := (bind m (fun x => k))
  (at level 61, m at next level, right associativity).
Notation "m ;; k" := (bind m (fun _ => k))
  (at level 61, right associativity).

(** The three projections of a run. *)
Definition completion {S A : Type} (r : Completion A * S * list Call) : Completion A :=
  fst (fst r).
Definition after {S A : Type} (r : Completion A * S * list Call) : S :=
  snd (fst r).
Definition calls {S A : Type} (r : Completion A * S * list Call) : list Call :=
  snd r.

(** A call of an adapter method fails its caller when it throws or hands
    back a rejected promise. *)
Definition fails {A : Type} (c : Completion (Promise.t A)) : bool :=
  match c with
  | Normal (Promise.resolve _) => false
  | Normal Promise.reject => true
  | Throw _ => true
  end.

(** [a || b] on strings-or-undefined: the empty string and [undefined] are
    both falsy. *)
Definition or_else (a : option string) (b : string) : string :=
  match a with
  | Some EmptyString => b
  | Some s => s
  | None => b
  end.

(** [s.replaceAll(pat, rep)] for a non-empty [pat]: [skip] counts the
    characters of a match still to be dropped. *)
Fixpoint replaceAll_from (skip : nat) (pat rep s : string) : string :=
  match s with
  | EmptyString => EmptyString
  | String c rest =>
      match skip with
      | Datatypes.S k => replaceAll_from k pat rep rest
      | O =>
          if String.prefix pat s
          then (rep ++ replaceAll_from (String.length pat - 1) pat rep rest)%string
          else String c (replaceAll_from 0 pat rep rest)
      end
  end.

Definition replaceAll (s pat rep : string) : string := replaceAll_from 0 pat rep s.

(* ===================================================================== *)
(** * The Monaco text widget *)
(* ===================================================================== *)

Module Monaco.

(** Modelled from the spec: the widget components [SwfMonacoEditor] and
    [DashbuilderMonacoEditor] (and their [...Api] handles) are imported by
    the two editors but their code is not among the sources. The
    specification gives the widget a text buffer and a native undo/redo
    history: undo and redo are no-ops when the history is empty, an applied
    undo or redo is reported exactly once and a no-op is not reported,
    content handed over by [setContent] is pushed into the widget, and
    [setTheme] applies a light or dark theme. A report is the pair the
    widget passes to its [onContentChange] prop. *)
Record t : Type := mk {
  fileName : string;
  buffer : string;
  undoStack : list string;
  redoStack : list string;
  theme : EditorTheme
}.

Definition Report : Type := option (string * MonacoEditorOperation.t).

(** Modelled from the spec: the element [<...MonacoEditor content=..
    fileName=.. />] committed after the content state changed; the content
    is pushed into the widget and the history starts afresh. An instance
    already on screen keeps its theme. *)
Definition render (previous : option t) (content name : string) : t :=
  mk name content [] []
     match previous with
     | Some w => theme w
     | None => LIGHT
     end.

(** Modelled from the spec: [getContent()] is the current buffer. *)
Definition getContent (w : t) : string := buffer w.

(** Modelled from the spec: the user changes the text in the widget. *)
Definition type (w : t) (newContent : string) : t * Report :=
  (mk (fileName w) newContent (buffer w :: undoStack w) [] (theme w),
   Some (newContent, MonacoEditorOperation.EDIT)).

(** Modelled from the spec: native undo; a no-op on an empty history. *)
Definition undo (w : t) : t * Report :=
  match undoStack w with
  | [] => (w, None)
  | previous :: older =>
      (mk (fileName w) previous older (buffer w :: redoStack w) (theme w),
       Some (previous, MonacoEditorOperation.UNDO))
  end.

(** Modelled from the spec: native redo; a no-op on an empty history. *)
Definition redo (w : t) : t * Report :=
  match redoStack w with
  | [] => (w, None)
  | next :: newer =>
      (mk (fileName w) next (buffer w :: undoStack w) newer (theme w),
       Some (next, MonacoEditorOperation.REDO))
  end.

(** Modelled from the spec: applies a light or dark theme. *)
Definition setTheme (w : t) (th : EditorTheme) : t :=
  mk (fileName w) (buffer w) (undoStack w) (redoStack w) th.

End Monaco.

(* ===================================================================== *)
(** * ServerlessWorkflowEditor.tsx *)
(* ===================================================================== *)

(** The libraries behind the diagram preview:
    [@severlessworkflow/sdk-typescript], [../diagram] and [mermaid]. *)
Class DiagramLibs : Type := {
  Workflow : Type;
  (** [Specification.Workflow.fromSource(source)]; [inl e] when it throws *)
  fromSource : string -> JsError + Workflow;
  (** the truthiness of [workflow.states] *)
  states : Workflow -> bool;
  (** [new MermaidDiagram(workflow).sourceCode()]; [inl e] when it throws *)
  sourceCode : Workflow -> JsError + string;
  (** the markup the container holds after [mermaid.init], [svgPanZoom] and
      the two style assignments; [inl e] when one of them throws *)
  mermaid_init : string -> JsError + string
}.

Module ServerlessWorkflowEditor.

Record InitialContent : Type := mkInitialContent {
  originalContent : string;
  path : string
}.

(** The part of the [<div>] the component reads and writes. *)
Record HTMLDivElement : Type := mkDiv {
  innerHTML : string;
  data_processed : bool
}.

(** [useState] and [useRef] cells of one mounted component. *)
Record State : Type := mkState {
  initialContent : InitialContent;
  diagramOutOfSync : bool;
  svgContainer : option HTMLDivElement;
  swfMonacoEditorRef : option Monaco.t
}.

Definition setInitialContent (v : InitialContent) : M State unit :=
  modify (fun s => mkState v (diagramOutOfSync s) (svgContainer s) (swfMonacoEditorRef s)).

Definition setDiagramOutOfSync (v : bool) : M State unit :=
  modify (fun s => mkState (initialContent s) v (svgContainer s) (swfMonacoEditorRef s)).

Definition set_svgContainer (v : option HTMLDivElement) : M State unit :=
  modify (fun s => mkState (initialContent s) (diagramOutOfSync s) v (swfMonacoEditorRef s)).

Definition set_swfMonacoEditorRef (v : option Monaco.t) : M State unit :=
  modify (fun s => mkState (initialContent s) (diagramOutOfSync s) (svgContainer s) v).

(** The values of the first render: [useState({originalContent: "", path:
    ""})], [useState(false)], [useRef(null)], [useRef(null)]. *)
Definition initial : State :=
  mkState (mkInitialContent "" "") false None None.

Section Component.
Context {libs : DiagramLibs}.

(** [onContentChanged(newContent, operation?)] *)
Definition onContentChanged (newContent : string)
    (operation : option MonacoEditorOperation.t) : M State unit :=
  match operation with
  | Some MonacoEditorOperation.EDIT =>
      call (onNewEdit (mkKogitoEdit newContent))
  | Some MonacoEditorOperation.UNDO =>
      call (onStateControlCommandUpdate StateControlCommand.UNDO)
  | Some MonacoEditorOperation.REDO =>
      call (onStateControlCommandUpdate StateControlCommand.REDO)
  | None => ret tt
  end ;;
  try_catch
    (workflow <- match fromSource newContent with
                 | inr w => ret w
                 | inl e => throw e
                 end ;;
     mermaidSourceCode <- (if states workflow
                           then match sourceCode workflow with
                                | inr code => ret code
                                | inl e => throw e
                                end
                           else ret "") ;;
     if Nat.ltb 0 (String.length mermaidSourceCode) then
       _ <- deref svgContainer ;;
       set_svgContainer (Some (mkDiv mermaidSourceCode false)) ;;
       rendered <- match mermaid_init mermaidSourceCode with
                   | inr svg => ret svg
                   | inl e => throw e
                   end ;;
       set_svgContainer (Some (mkDiv rendered true)) ;;
       setDiagramOutOfSync false
     else
       div <- deref svgContainer ;;
       set_svgContainer
         (Some (mkDiv "Create a workflow to see its preview here." (data_processed div))) ;;
       setDiagramOutOfSync true)
    (fun e =>
       call (console_error e) ;;
       setDiagramOutOfSync true).

(** The element tree the component returns. [svgContainer] is handed to no
    element of it, so React never assigns [svgContainer.current]; the
    Monaco widget is there, and [swfMonacoEditorRef.current] is set, exactly
    when [initialContent.path !== ""]. *)
Definition render : M State unit :=
  ic <- gets initialContent ;;
  previous <- gets swfMonacoEditorRef ;;
  if String.eqb (path ic) ""
  then set_swfMonacoEditorRef None
  else set_swfMonacoEditorRef
         (Some (Monaco.render previous (originalContent ic) (path ic))).

(** [useEffect(() => { props.onReady.call(null);
    onContentChanged(initialContent.originalContent); }, [initialContent,
    onContentChanged, props.onReady])] *)
Definition effect : M State unit :=
  call onReady ;;
  ic <- gets initialContent ;;
  onContentChanged (originalContent ic) None.

(** React commits a change of [initialContent]: the tree is rendered again
    and the effect, which depends on [initialContent], runs. *)
Definition commit : M State unit :=
  render ;; effect.

(** ** The imperative handle *)

Definition setContent (path newContent : string) : M State (Promise.t unit) :=
  try_catch
    (setInitialContent (mkInitialContent newContent path) ;;
     ret (Promise.resolve tt))
    (fun e =>
       call (console_error e) ;;
       ret Promise.reject).

Definition getContent : M State (Promise.t string) :=
  current <- gets swfMonacoEditorRef ;;
  ret (Promise.resolve (or_else (option_map Monaco.getContent current) "")).

Definition getPreview : M State (Promise.t string) :=
  div <- deref svgContainer ;;
  let svgContent := replaceAll (innerHTML div) "<br>" "<br/>" in
  ret (Promise.resolve svgContent).

(** The widget hands its report, if any, to [onContentChange], which is
    [onContentChanged]. *)
Definition deliver (report : Monaco.Report) : M State unit :=
  match report with
  | Some (newContent, operation) => onContentChanged newContent (Some operation)
  | None => ret tt
  end.

Definition undo : M State (Promise.t unit) :=
  current <- gets swfMonacoEditorRef ;;
  match current with
  | Some w =>
      set_swfMonacoEditorRef (Some (fst (Monaco.undo w))) ;;
      deliver (snd (Monaco.undo w)) ;;
      ret (Promise.resolve tt)
  | None => ret (Promise.resolve tt)
  end.

Definition redo : M State (Promise.t unit) :=
  current <- gets swfMonacoEditorRef ;;
  match current with
  | Some w =>
      set_swfMonacoEditorRef (Some (fst (Monaco.redo w))) ;;
      deliver (snd (Monaco.redo w)) ;;
      ret (Promise.resolve tt)
  | None => ret (Promise.resolve tt)
  end.

Definition validate : M State (list Notification) :=
  ret [].

Definition setTheme (theme : EditorTheme) : M State (Promise.t unit) :=
  current <- gets swfMonacoEditorRef ;;
  match current with
  | Some w =>
      set_swfMonacoEditorRef (Some (Monaco.setTheme w theme)) ;;
      ret (Promise.resolve tt)
  | None => ret (Promise.resolve tt)
  end.

(** ** The life of one component *)

(** The user changes the text in the widget, when there is one. *)
Definition typing (newContent : string) : M State unit :=
  current <- gets swfMonacoEditorRef ;;
  match current with
  | Some w =>
      set_swfMonacoEditorRef (Some (fst (Monaco.type w newContent))) ;;
      deliver (snd (Monaco.type w newContent))
  | None => ret tt
  end.

(** What can happen to a mounted component: the host calls a method of the
    handle, the user types, or the parent passes new [props] (the effect
    depends on them through [onContentChanged] and runs again). *)
Inductive Event : Type :=
| SetContent (path content : string)
| GetContent
| GetPreview
| Undo
| Redo
| Validate
| SetTheme (theme : EditorTheme)
| Typing (newContent : string)
| NewProps.

(** An error thrown to the host ends the call, not the component. *)
Definition settled {A : Type} (m : M State A) : M State unit :=
  fun s => match m s with (_, s1, l1) => (Normal tt, s1, l1) end.

Definition handle (ev : Event) : M State unit :=
  match ev with
  | SetContent path content => settled (setContent path content ;; commit)
  | GetContent => settled getContent
  | GetPreview => settled getPreview
  | Undo => settled undo
  | Redo => settled redo
  | Validate => settled validate
  | SetTheme theme => settled (setTheme theme)
  | Typing newContent => settled (typing newContent)
  | NewProps => settled effect
  end.

Fixpoint handleAll (evs : list Event) : M State unit :=
  match evs with
  | [] => ret tt
  | ev :: rest => handle ev ;; handleAll rest
  end.

(** The first render and its effect. *)
Definition mount : M State unit := commit.

(** The state of a component that was mounted and then saw [evs]. *)
Definition stateAfter (evs : list Event) : State :=
  after ((mount ;; handleAll evs) initial).

End Component.

End ServerlessWorkflowEditor.

(* ===================================================================== *)
(** * DashbuilderEditor.tsx *)
(* ===================================================================== *)

Module DashbuilderEditor.

Definition dq : string := String (ascii_of_nat 34) EmptyString.
Definition nl : string := String (ascii_of_nat 10) EmptyString.

(** The template literal [INITIAL_CONTENT], line by line. *)
Definition INITIAL_CONTENT : string :=
  String.concat nl [
    "datasets:";
    "- uuid: products";
    "  content: >-";
    "            [";
    ("              [" ++ dq ++ "Computers" ++ dq ++ ", " ++ dq ++ "Scanner" ++ dq ++ ", 5, 3],")%string;
    ("              [" ++ dq ++ "Computers" ++ dq ++ ", " ++ dq ++ "Printer" ++ dq ++ ", 7, 4],")%string;
    ("              [" ++ dq ++ "Computers" ++ dq ++ ", " ++ dq ++ "Laptop" ++ dq ++ ", 3, 2],")%string;
    ("              [" ++ dq ++ "Electronics" ++ dq ++ ", " ++ dq ++ "Camera" ++ dq ++ ", 10, 7],")%string;
    ("              [" ++ dq ++ "Electronics" ++ dq ++ ", " ++ dq ++ "Headphones" ++ dq ++ ", 5, 9]")%string;
    "            ]";
    "  columns:";
    "    - id: Section";
    "      type: LABEL";
    "    - id: Product";
    "      type: LABEL";
    "    - id: Quantity";
    "      type: NUMBER";
    "    - id: Quantity2";
    "      type: NUMBER";
    "pages:";
    "- components:";
    "    - html: Welcome to Dashbuilder!";
    "      properties:";
    "        font-size: xx-large";
    "        margin-bottom: 30px";
    "    - settings:";
    "        type: BARCHART";
    "        dataSetLookup:";
    "            uuid: products";
    "            group:";
    "                - columnGroup:";
    "                    source: Product";
    "                  groupFunctions:";
    "                    - source: Product";
    "                    - source: Quantity";
    "                      function: SUM";
    "                    - source: Quantity2";
    "                      function: SUM";
    "    - settings:";
    "        type: TABLE";
    "        dataSetLookup:";
    "            uuid: products"
  ].

Definition UPDATE_TIME : nat := 1000.

Record InitialContent : Type := mkInitialContent {
  originalContent : string;
  path : string
}.

(** [useState] and [useRef] cells of one mounted component. *)
Record State : Type := mkState {
  initialContent : InitialContent;
  content : string;
  showPreview : bool;
  newContentRef : string;
  oldContentRef : string;
  dashbuilderMonacoEditorRef : option Monaco.t
}.

Definition setInitialContent (v : InitialContent) : M State unit :=
  modify (fun s => mkState v (content s) (showPreview s) (newContentRef s)
                           (oldContentRef s) (dashbuilderMonacoEditorRef s)).

(** The state setter of [const [content, setContent] = useState("")]; the
    method [setContent] of the handle is a different function. *)
Definition setContent_state (v : string) : M State unit :=
  modify (fun s => mkState (initialContent s) v (showPreview s) (newContentRef s)
                           (oldContentRef s) (dashbuilderMonacoEditorRef s)).

Definition setShowPreview (v : bool) : M State unit :=
  modify (fun s => mkState (initialContent s) (content s) v (newContentRef s)
                           (oldContentRef s) (dashbuilderMonacoEditorRef s)).

Definition set_newContentRef (v : string) : M State unit :=
  modify (fun s => mkState (initialContent s) (content s) (showPreview s) v
                           (oldContentRef s) (dashbuilderMonacoEditorRef s)).

Definition set_oldContentRef (v : string) : M State unit :=
  modify (fun s => mkState (initialContent s) (content s) (showPreview s)
                           (newContentRef s) v (dashbuilderMonacoEditorRef s)).

Definition set_dashbuilderMonacoEditorRef (v : option Monaco.t) : M State unit :=
  modify (fun s => mkState (initialContent s) (content s) (showPreview s)
                           (newContentRef s) (oldContentRef s) v).

(** The values of the first render, for [props.showEditor]. *)
Definition initial (showEditor : bool) : State :=
  mkState (mkInitialContent INITIAL_CONTENT "") "" showEditor "" "" None.

(** [onContentChanged(newContent, operation?)] *)
Definition onContentChanged (newContent : string)
    (operation : option MonacoEditorOperation.t) : M State unit :=
  match operation with
  | Some MonacoEditorOperation.EDIT =>
      call (onNewEdit (mkKogitoEdit newContent))
  | Some MonacoEditorOperation.UNDO =>
      call (onStateControlCommandUpdate StateControlCommand.UNDO)
  | Some MonacoEditorOperation.REDO =>
      call (onStateControlCommandUpdate StateControlCommand.REDO)
  | None => ret tt
  end ;;
  set_newContentRef newContent.

(** The element tree: the Monaco widget is there, and
    [dashbuilderMonacoEditorRef.current] is set, exactly when
    [initialContent.path !== ""]. *)
Definition render : M State unit :=
  ic <- gets initialContent ;;
  previous <- gets dashbuilderMonacoEditorRef ;;
  if String.eqb (path ic) ""
  then set_dashbuilderMonacoEditorRef None
  else set_dashbuilderMonacoEditorRef
         (Some (Monaco.render previous (originalContent ic) (path ic))).

(** [useEffect(() => props.onShowPreviewChange!(showPreview), [props,
    showPreview])] *)
Definition effect_showPreview : M State unit :=
  v <- gets showPreview ;;
  call (onShowPreviewChange v).

(** The body of the [setInterval] callback. *)
Definition interval : M State unit :=
  new <- gets newContentRef ;;
  old <- gets oldContentRef ;;
  shown <- gets content ;;
  if negb (String.eqb new old) then
    set_oldContentRef new ;;
    setContent_state new
  else if negb (String.eqb shown old) then
    setContent_state old
  else ret tt.

(** [useEffect(() => { props.onReady.call(null);
    onContentChanged(initialContent.originalContent); }, [initialContent,
    onContentChanged, props.onReady])] *)
Definition effect : M State unit :=
  call onReady ;;
  ic <- gets initialContent ;;
  onContentChanged (originalContent ic) None.

(** React commits a change of [initialContent]. *)
Definition commit : M State unit :=
  render ;; effect.

(** ** The imperative handle *)

Definition setContent (path newContent : string) : M State (Promise.t unit) :=
  try_catch
    (setInitialContent (mkInitialContent INITIAL_CONTENT path) ;;
     ret (Promise.resolve tt))
    (fun e =>
       call (console_error e) ;;
       ret Promise.reject).

(** The promise built inside the [if] is an expression statement: nothing
    receives it. *)
Definition getContent : M State (Promise.t string) :=
  current <- gets dashbuilderMonacoEditorRef ;;
  match current with
  | Some w =>
      let _ := Promise.resolve (Monaco.getContent w) in
      ret (Promise.resolve "")
  | None => ret (Promise.resolve "")
  end.

Definition getPreview : M State (Promise.t string) :=
  ret (Promise.resolve "").

Definition deliver (report : Monaco.Report) : M State unit :=
  match report with
  | Some (newContent, operation) => onContentChanged newContent (Some operation)
  | None => ret tt
  end.

Definition undo : M State (Promise.t unit) :=
  current <- gets dashbuilderMonacoEditorRef ;;
  match current with
  | Some w =>
      set_dashbuilderMonacoEditorRef (Some (fst (Monaco.undo w))) ;;
      deliver (snd (Monaco.undo w)) ;;
      set_newContentRef (Monaco.getContent (fst (Monaco.undo w))) ;;
      ret (Promise.resolve tt)
  | None => ret (Promise.resolve tt)
  end.

Definition redo : M State (Promise.t unit) :=
  current <- gets dashbuilderMonacoEditorRef ;;
  match current with
  | Some w =>
      set_dashbuilderMonacoEditorRef (Some (fst (Monaco.redo w))) ;;
      deliver (snd (Monaco.redo w)) ;;
      set_newContentRef (Monaco.getContent (fst (Monaco.redo w))) ;;
      ret (Promise.resolve tt)
  | None => ret (Promise.resolve tt)
  end.

Definition validate : M State (list Notification) :=
  ret [].

Definition setTheme (theme : EditorTheme) : M State (Promise.t unit) :=
  current <- gets dashbuilderMonacoEditorRef ;;
  match current with
  | Some w =>
      set_dashbuilderMonacoEditorRef (Some (Monaco.setTheme w theme)) ;;
      ret (Promise.resolve tt)
  | None => ret (Promise.resolve tt)
  end.

(** ** The life of one component *)

Definition typing (newContent : string) : M State unit :=
  current <- gets dashbuilderMonacoEditorRef ;;
  match current with
  | Some w =>
      set_dashbuilderMonacoEditorRef (Some (fst (Monaco.type w newContent))) ;;
      deliver (snd (Monaco.type w newContent))
  | None => ret tt
  end.

(** [<Toolbar onPreviewChange={(v) => setShowPreview(v)} />]: a state that
    does not change schedules nothing. *)
Definition onPreviewChange (v : bool) : M State unit :=
  old <- gets showPreview ;;
  if Bool.eqb old v then ret tt
  else setShowPreview v ;; effect_showPreview.

Inductive Event : Type :=
| SetContent (path content : string)
| GetContent
| GetPreview
| Undo
| Redo
| Validate
| SetTheme (theme : EditorTheme)
| Typing (newContent : string)
| Interval
| PreviewChange (v : bool)
| NewProps.

Definition settled {A : Type} (m : M State A) : M State unit :=
  fun s => match m s with (_, s1, l1) => (Normal tt, s1, l1) end.

Definition handle (ev : Event) : M State unit :=
  match ev with
  | SetContent path content => settled (setContent path content ;; commit)
  | GetContent => settled getContent
  | GetPreview => settled getPreview
  | Undo => settled undo
  | Redo => settled redo
  | Validate => settled validate
  | SetTheme theme => settled (setTheme theme)
  | Typing newContent => settled (typing newContent)
  | Interval => settled interval
  | PreviewChange v => settled (onPreviewChange v)
  | NewProps => settled (effect_showPreview ;; effect)
  end.

Fixpoint handleAll (evs : list Event) : M State unit :=
  match evs with
  | [] => ret tt
  | ev :: rest => handle ev ;; handleAll rest
  end.

(** The first render and its effects, in the order they are declared. *)
Definition mount : M State unit :=
  render ;; effect_showPreview ;; effect.

Definition stateAfter (showEditor : bool) (evs : list Event) : State :=
  after ((mount ;; handleAll evs) (initial showEditor)).

End DashbuilderEditor.

(* ===================================================================== *)
(** * dev-webapp/App.tsx *)
(* ===================================================================== *)

Module App.

(** The methods [App] calls on [editor.current], an [EditorApi]. *)
Inductive EditorCall : Type :=
| editor_setContent (path content : string)
| editor_getContent
| editor_undo
| editor_redo
| editor_validate.

(** What [App] does to the outside, in order. *)
Inductive Effect : Type :=
| onEditor (c : EditorCall)
| textEditor_undo
| textEditor_redo
| console_log (message : string)
| window_alert (message : string).

(** An [EditorApi] object, as far as [App] looks into it: what its
    [validate()] resolves to. *)
Record EditorApi : Type := mkEditorApi {
  notifications : list Notification
}.

(** A [SwfTextEditorController]: [App] only calls it. *)
Inductive SwfTextEditorController : Type := controller.

(** [SwfTextEditorOperation], of [../src]. *)
Inductive SwfTextEditorOperation : Type := EDIT | UNDO | REDO.

(** [Theme], of [./HistoryButtons]. *)
Inductive Theme : Type := LIGHT | DARK.

(** [Property.Display], as far as [App] uses it. *)
Inductive Display : Type := none | block.

Record FileContent : Type := mkFileContent {
  fileContent_content : string;
  fileContent_path : string
}.

(** [useState] and [useRef] cells of the mounted [App]; [classList] is the
    class list of the [<div>] that [container] points to, [None] while
    [container.current] is null. *)
Record State : Type := mkState {
  fileContent : option FileContent;
  content : option string;
  editor : option EditorApi;
  swfTextEditorRef : option SwfTextEditorController;
  container : option (list string)
}.

Definition Run : Type := Completion unit * State * list Effect.

Definition setContent_state (v : option string) (s : State) : State :=
  mkState (fileContent s) v (editor s) (swfTextEditorRef s) (container s).

Definition set_container (v : option (list string)) (s : State) : State :=
  mkState (fileContent s) (content s) (editor s) (swfTextEditorRef s) v.

Definition undefined_error : JsError :=
  TypeError "Cannot read properties of undefined".

(** The values of the first render: [useState(undefined)] twice,
    [useRef()], [useRef(null)], [useRef(null)]. *)
Definition initial : State := mkState None None None None None.

(** The element tree: nothing carries [ref={editor}]; the text editor, with
    [ref={swfTextEditorRef}], is there exactly when [fileContent] is
    defined; the [<div className="editor-container">] with
    [ref={container}] is always there and keeps its classes once it
    exists. *)
Definition render (s : State) : State :=
  mkState (fileContent s) (content s) (editor s)
          match fileContent s with
          | Some _ => Some controller
          | None => None
          end
          match container s with
          | Some classes => Some classes
          | None => Some ["editor-container"]
          end.

Definition displayServerlessWorkflowEditor (s : State) : Display :=
  match content s with
  | None => none
  | Some _ => block
  end.

(** [editor.current!.undo().finally()] *)
Definition undo (s : State) : Run :=
  match editor s with
  | Some _ => (Normal tt, s, [onEditor editor_undo])
  | None => (Throw undefined_error, s, [])
  end.

Definition redo (s : State) : Run :=
  match editor s with
  | Some _ => (Normal tt, s, [onEditor editor_redo])
  | None => (Throw undefined_error, s, [])
  end.

Section Stringify.
(** [JSON.stringify(notifications, undefined, 2)] *)
Variable stringify : list Notification -> string.

Definition validate (s : State) : Run :=
  match editor s with
  | Some e =>
      (Normal tt, s,
       [onEditor editor_validate; window_alert (stringify (notifications e))])
  | None => (Throw undefined_error, s, [])
  end.

End Stringify.

(** [get={() => editor.current!.getContent()}] *)
Definition get (s : State) : Run :=
  match editor s with
  | Some _ => (Normal tt, s, [onEditor editor_getContent])
  | None => (Throw undefined_error, s, [])
  end.

(** [classList.add(token)] and [classList.remove(token)] *)
Definition classList_add (token : string) (classes : list string) : list string :=
  if existsb (String.eqb token) classes then classes else classes ++ [token].

Definition classList_remove (token : string) (classes : list string) : list string :=
  filter (fun c => negb (String.eqb token c)) classes.

(** The [setTheme] handed to [HistoryButtons]. *)
Definition setTheme (theme : Theme) (s : State) : Run :=
  match container s with
  | Some classes =>
      match theme with
      | DARK => (Normal tt, set_container (Some (classList_add "vscode-dark" classes)) s, [])
      | _ => (Normal tt, set_container (Some (classList_remove "vscode-dark" classes)) s, [])
      end
  | None => (Normal tt, s, [])
  end.

(** [onSwfTextEditorContentChanged(newContent, operation, versionId?)] *)
Definition onSwfTextEditorContentChanged (newContent : string)
    (operation : SwfTextEditorOperation) (versionId : option nat) (s : State) : Run :=
  (Normal tt, s,
   match operation with
   | EDIT => []
   | UNDO =>
       match swfTextEditorRef s with Some _ => [textEditor_undo] | None => [] end
       ++ match editor s with Some _ => [onEditor editor_undo] | None => [] end
   | REDO =>
       match swfTextEditorRef s with Some _ => [textEditor_redo] | None => [] end
       ++ match editor s with Some _ => [onEditor editor_redo] | None => [] end
   end ++ [console_log "No diagram update needed"]).

(** ["editor.current:" + editor.current] *)
Definition show_current (current : option EditorApi) : string :=
  match current with
  | Some _ => "[object Object]"
  | None => "undefined"
  end.

(** The [newContent] prop of the empty state: the state update is queued
    before the call on [editor.current] throws, and React applies it. *)
Definition newContent (type : string) (s : State) : Run :=
  let s1 := setContent_state (Some "") s in
  let logs :=
    [console_log ("Attempting to create new document:" ++ "new-document.sw." ++ type)%string;
     console_log "editor:[object Object]";
     console_log ("editor.current:" ++ show_current (editor s))%string] in
  match editor s with
  | Some _ =>
      (Normal tt, s1,
       logs ++ [onEditor (editor_setContent ("new-document.sw." ++ type)%string "")])
  | None => (Throw undefined_error, s1, logs)
  end.

(** The [setContent] prop of the empty state. *)
Definition setContent (path newText : string) (s : State) : Run :=
  let s1 := setContent_state (Some newText) s in
  match editor s with
  | Some _ => (Normal tt, s1, [onEditor (editor_setContent path newText)])
  | None => (Throw undefined_error, s1, [])
  end.

(** What can happen to the mounted [App]. The empty state, with its two
    props, is on screen only while [content] is undefined; the text editor,
    which calls [onContentChange], only while [fileContent] is defined. *)
Inductive Event : Type :=
| NewDocument (type : string)
| OpenDocument (path content : string)
| ClickUndo
| ClickRedo
| ClickValidate
| ClickGet
| PickTheme (theme : Theme)
| TextEditorChanged (newContent : string) (operation : SwfTextEditorOperation).

Section Life.
Variable stringify : list Notification -> string.

Definition handle (ev : Event) (s : State) : Run :=
  match ev with
  | NewDocument type =>
      match content s with
      | None => newContent type s
      | Some _ => (Normal tt, s, [])
      end
  | OpenDocument path text =>
      match content s with
      | None => setContent path text s
      | Some _ => (Normal tt, s, [])
      end
  | ClickUndo => undo s
  | ClickRedo => redo s
  | ClickValidate => validate stringify s
  | ClickGet => get s
  | PickTheme theme => setTheme theme s
  | TextEditorChanged text operation =>
      match swfTextEditorRef s with
      | Some _ => onSwfTextEditorContentChanged text operation None s
      | None => (Normal tt, s, [])
      end
  end.

(** An event and the render that follows it; a handler that throws leaves
    the component mounted. *)
Definition step (ev : Event) (s : State) : State * list Effect :=
  match handle ev s with
  | (_, s1, log) => (render s1, log)
  end.

Fixpoint stepAll (evs : list Event) (s : State) : State * list Effect :=
  match evs with
  | [] => (s, [])
  | ev :: rest =>
      match step ev s with
      | (s1, log1) =>
          match stepAll rest s1 with
          | (s2, log2) => (s2, log1 ++ log2)
          end
      end
  end.

(** The state of an [App] that was mounted and then saw [evs]. *)
Definition stateAfter (evs : list Event) : State :=
  fst (stepAll evs (render initial)).

End Life.

End App.

(* ===================================================================== *)
(** * VsCodeServerlessWorkflowEditorFactory.ts *)
(* ===================================================================== *)

Module VsCodeServerlessWorkflowEditorFactory.

(** A [KogitoEditorEnvelopeContextType], told apart by a name. *)
Definition Context : Type := string.

(** The requests of [channelApi.requests] the service sends. *)
Inductive Request : Type :=
| kogitoJavaCodeCompletion__getAccessors (fqcn query : string)
| kogitoJavaCodeCompletion__getClasses (query : string)
| kogitoJavaCodeCompletion__isLanguageServerAvailable.

(** [class JavaCodeCompletionService]: its one field. *)
Record JavaCodeCompletionService : Type := mkService {
  envelopeContext : Context
}.

(** A method of the service: the context whose channel gets the request,
    and the request. *)
Definition getAccessors (this : JavaCodeCompletionService) (fqcn query : string)
    : Context * Request :=
  (envelopeContext this, kogitoJavaCodeCompletion__getAccessors fqcn query).

Definition getClasses (this : JavaCodeCompletionService) (query : string)
    : Context * Request :=
  (envelopeContext this, kogitoJavaCodeCompletion__getClasses query).

Definition isLanguageServerAvailable (this : JavaCodeCompletionService)
    : Context * Request :=
  (envelopeContext this, kogitoJavaCodeCompletion__isLanguageServerAvailable).

(** What a property of [window.envelope] can hold. *)
Inductive Value : Type :=
| service (s : JavaCodeCompletionService)
| other (payload : string).

(** An object: its own properties, in order, one entry per key. *)
Definition JsObject : Type := list (string * Value).

(** [obj[key]] *)
Fixpoint lookup (key : string) (obj : JsObject) : option Value :=
  match obj with
  | [] => None
  | (k, v) :: rest => if String.eqb k key then Some v else lookup key rest
  end.

(** [obj[key] = value]: in place when the key is there, else at the end. *)
Fixpoint define (key : string) (value : Value) (obj : JsObject) : JsObject :=
  match obj with
  | [] => [(key, value)]
  | (k, v) :: rest =>
      if String.eqb k key then (k, value) :: rest
      else (k, v) :: define key value rest
  end.

(** [{ ...a, ...b }] *)
Definition spread (a b : JsObject) : JsObject :=
  fold_left (fun obj entry => define (fst entry) (snd entry) obj) b a.

(** [a ?? {}] *)
Definition orEmpty (a : option JsObject) : JsObject :=
  match a with
  | Some obj => obj
  | None => []
  end.

Record GwtEditorEnvelopeConfig : Type := mkConfig {
  shouldLoadResourcesDynamically : bool
}.

(** [EditorInitArgs], as far as the factories look into it. *)
Record EditorInitArgs : Type := mkInitArgs {
  resourcesPathPrefix : string
}.

(** [new ServerlessWorkflowEditorFactory(config).createEditor(ctx, initArgs)]:
    what the call is made with. *)
Record Delegated : Type := mkDelegated {
  delegatedConfig : GwtEditorEnvelopeConfig;
  delegatedContext : Context;
  delegatedInitArgs : EditorInitArgs
}.

(** [createEditor(ctx, initArgs)], on [window.envelope]. *)
Definition createEditor (gwtEditorEnvelopeConfig : GwtEditorEnvelopeConfig)
    (ctx : Context) (initArgs : EditorInitArgs) (envelope : option JsObject)
    : option JsObject * Delegated :=
  (Some (spread (orEmpty envelope)
                [("javaCodeCompletionService", service (mkService ctx))]),
   mkDelegated gwtEditorEnvelopeConfig ctx initArgs).

End VsCodeServerlessWorkflowEditorFactory.


(* ===================================================================== *)
(** * Vocabulary of the properties *)
(* ===================================================================== *)

(** What a cached [_isProdMode] says about the other two caches. *)
Definition prodModeAgrees (s : EnvUtil.Statics) : Prop :=
  match EnvUtil._isProdMode s with
  | Some true =>
      EnvUtil._isDevMode s = Some false /\ EnvUtil._isJUnitTest s = Some false
  | Some false =>
      EnvUtil._isDevMode s = Some true \/ EnvUtil._isJUnitTest s = Some true
  | None => True
  end.

(** A step keeps a cache when a value that is there stays there. *)
Definition keeps (f : EnvUtil.Statics -> option bool)
    (step : EnvUtil.Statics -> EnvUtil.Statics) : Prop :=
  forall s b, f s = Some b -> f (step s) = Some b.

(** What [onContentChanged] tells the host for an operation: the first
    statement of both editors. *)
Definition reported (newContent : string)
    (operation : option MonacoEditorOperation.t) : list Call :=
  match operation with
  | Some MonacoEditorOperation.EDIT => [onNewEdit (mkKogitoEdit newContent)]
  | Some MonacoEditorOperation.UNDO =>
      [onStateControlCommandUpdate StateControlCommand.UNDO]
  | Some MonacoEditorOperation.REDO =>
      [onStateControlCommandUpdate StateControlCommand.REDO]
  | None => []
  end.

(** A log that carries no notification for the host's history: no new edit,
    no state-control command, no ready signal. *)
Definition silent (log : list Call) : Prop :=
  newEdits log = [] /\ stateControlCommands log = [] /\ readySignals log = 0.

(** What reaches the host when the widget hands over a report. *)
Definition delivered (report : Monaco.Report) : list Call :=
  match report with
  | Some (newContent, operation) => reported newContent (Some operation)
  | None => []
  end.

(** Whether the widget is on screen. *)
Definition mounted (current : option Monaco.t) : bool :=
  match current with
  | Some _ => true
  | None => false
  end.

(** An undo is applied when there is a widget and its history is not
    empty; otherwise the operation is a no-op. Likewise for redo. *)
Definition undoApplies (current : option Monaco.t) : bool :=
  match current with
  | Some w => match Monaco.undoStack w with [] => false | _ :: _ => true end
  | None => false
  end.

Definition redoApplies (current : option Monaco.t) : bool :=
  match current with
  | Some w => match Monaco.redoStack w with [] => false | _ :: _ => true end
  | None => false
  end.

(** The text the widget holds, the empty string when there is no widget. *)
Definition currentBuffer (current : option Monaco.t) : string :=
  match current with
  | Some w => Monaco.buffer w
  | None => ""
  end.

(** [setContent(path, content)] with the commit that follows, then
    [getContent()]: what the host gets back. *)
Definition swfRoundTrip {libs : DiagramLibs} (s : ServerlessWorkflowEditor.State)
    (path content : string) : Completion (Promise.t string) :=
  completion
    (ServerlessWorkflowEditor.getContent
       (after ((ServerlessWorkflowEditor.setContent path content ;;
                ServerlessWorkflowEditor.commit) s))).

Definition dashbuilderRoundTrip (s : DashbuilderEditor.State)
    (path content : string) : Completion (Promise.t string) :=
  completion
    (DashbuilderEditor.getContent
       (after ((DashbuilderEditor.setContent path content ;;
                DashbuilderEditor.commit) s))).

(** A small stand-in for the diagram libraries, to run the
    ServerlessWorkflow editor on concrete inputs: a source is a workflow
    when it opens with a brace, and every workflow has states. *)
Definition braceLibs : DiagramLibs := {|
  Workflow := string;
  fromSource := fun source =>
    if String.prefix "{" source then inr source
    else inl (Error "Unexpected token");
  states := fun _ => true;
  sourceCode := fun w => inr ("graph TD; " ++ w)%string;
  mermaid_init := fun code => inr ("<svg>" ++ code ++ "</svg>")%string
|}.

(** What a mounted ServerlessWorkflow editor keeps true: there is no
    preview container, the diagram is marked out of sync, and the widget is
    on screen exactly when the stored path is not empty. *)
Definition swfKept (s : ServerlessWorkflowEditor.State) : Prop :=
  ServerlessWorkflowEditor.svgContainer s = None
  /\ ServerlessWorkflowEditor.diagramOutOfSync s = true
  /\ mounted (ServerlessWorkflowEditor.swfMonacoEditorRef s) =
     negb (String.eqb (ServerlessWorkflowEditor.path
                         (ServerlessWorkflowEditor.initialContent s)) "").

(** The events after which the effect of the ServerlessWorkflow editor
    runs. *)
Definition swfEffectRuns (ev : ServerlessWorkflowEditor.Event) : nat :=
  match ev with
  | ServerlessWorkflowEditor.SetContent _ _ => 1
  | ServerlessWorkflowEditor.NewProps => 1
  | _ => 0
  end.

Fixpoint swfEffectRunsIn (evs : list ServerlessWorkflowEditor.Event) : nat :=
  match evs with
  | [] => 0
  | ev :: rest => swfEffectRuns ev + swfEffectRunsIn rest
  end.

(** The texts the user typed while the widget was on screen, in order;
    [onScreen] says whether it is at the start. *)
Fixpoint swfTyped (onScreen : bool) (evs : list ServerlessWorkflowEditor.Event)
    : list KogitoEdit :=
  match evs with
  | [] => []
  | ServerlessWorkflowEditor.SetContent p _ :: rest =>
      swfTyped (negb (String.eqb p "")) rest
  | ServerlessWorkflowEditor.Typing newContent :: rest =>
      (if onScreen then [mkKogitoEdit newContent] else []) ++ swfTyped onScreen rest
  | _ :: rest => swfTyped onScreen rest
  end.

(** The log of a ServerlessWorkflow editor that was mounted and then saw
    [evs]. *)
Definition swfLog {libs : DiagramLibs} (evs : list ServerlessWorkflowEditor.Event)
    : list Call :=
  calls ((ServerlessWorkflowEditor.mount ;; ServerlessWorkflowEditor.handleAll evs)
           ServerlessWorkflowEditor.initial).

(** A computation preserves [inv] when it leaves it true, however it
    completes. *)
Definition preserves {S A : Type} (inv : S -> Prop) (m : M S A) : Prop :=
  forall s, inv s -> inv (after (m s)).

(** No preview container and the diagram marked out of sync. *)
Definition swfDegraded (s : ServerlessWorkflowEditor.State) : Prop :=
  ServerlessWorkflowEditor.svgContainer s = None
  /\ ServerlessWorkflowEditor.diagramOutOfSync s = true.

(** Whether the widget of the ServerlessWorkflow editor is on screen after
    an event, given whether it was before. *)
Definition swfOnScreenAfter (onScreen : bool) (ev : ServerlessWorkflowEditor.Event)
    : bool :=
  match ev with
  | ServerlessWorkflowEditor.SetContent p _ => negb (String.eqb p "")
  | _ => onScreen
  end.

(** The widget is on screen exactly when the stored path is not empty. *)
Definition swfWidgetFollowsPath (s : ServerlessWorkflowEditor.State) : Prop :=
  mounted (ServerlessWorkflowEditor.swfMonacoEditorRef s) =
    negb (String.eqb (ServerlessWorkflowEditor.path
                        (ServerlessWorkflowEditor.initialContent s)) "").

(** The same vocabulary for the Dashbuilder editor. *)
Definition dashbuilderEffectRuns (ev : DashbuilderEditor.Event) : nat :=
  match ev with
  | DashbuilderEditor.SetContent _ _ => 1
  | DashbuilderEditor.NewProps => 1
  | _ => 0
  end.

Fixpoint dashbuilderEffectRunsIn (evs : list DashbuilderEditor.Event) : nat :=
  match evs with
  | [] => 0
  | ev :: rest => dashbuilderEffectRuns ev + dashbuilderEffectRunsIn rest
  end.

Definition dashbuilderOnScreenAfter (onScreen : bool) (ev : DashbuilderEditor.Event)
    : bool :=
  match ev with
  | DashbuilderEditor.SetContent p _ => negb (String.eqb p "")
  | _ => onScreen
  end.

Fixpoint dashbuilderTyped (onScreen : bool) (evs : list DashbuilderEditor.Event)
    : list KogitoEdit :=
  match evs with
  | [] => []
  | DashbuilderEditor.SetContent p _ :: rest =>
      dashbuilderTyped (negb (String.eqb p "")) rest
  | DashbuilderEditor.Typing newContent :: rest =>
      (if onScreen then [mkKogitoEdit newContent] else [])
        ++ dashbuilderTyped onScreen rest
  | _ :: rest => dashbuilderTyped onScreen rest
  end.

Definition dashbuilderLog (showEditor : bool) (evs : list DashbuilderEditor.Event)
    : list Call :=
  calls ((DashbuilderEditor.mount ;; DashbuilderEditor.handleAll evs)
           (DashbuilderEditor.initial showEditor)).

(** The widget is on screen exactly when the stored path is not empty, and
    the stored content is the built-in sample. *)
Definition dashbuilderKept (s : DashbuilderEditor.State) : Prop :=
  mounted (DashbuilderEditor.dashbuilderMonacoEditorRef s) =
    negb (String.eqb (DashbuilderEditor.path
                        (DashbuilderEditor.initialContent s)) "")
  /\ DashbuilderEditor.originalContent (DashbuilderEditor.initialContent s) =
       DashbuilderEditor.INITIAL_CONTENT.

(** The events of [App] that set [content]: the two props of the empty
    state. *)
Definition opensDocument (ev : App.Event) : bool :=
  match ev with
  | App.NewDocument _ => true
  | App.OpenDocument _ _ => true
  | _ => false
  end.

(** What a mounted [App] keeps true: no file content, no editor behind
    [editor.current], no text editor behind [swfTextEditorRef.current], and
    a container that carries the class it was written with. *)
Definition appKept (s : App.State) : Prop :=
  App.fileContent s = None
  /\ App.editor s = None
  /\ App.swfTextEditorRef s = None
  /\ exists classes, App.container s = Some classes
                     /\ existsb (String.eqb "editor-container") classes = true.

Definition hasClass (token : string) (s : App.State) : bool :=
  match App.container s with
  | Some classes => existsb (String.eqb token) classes
  | None => false
  end.

(** [i] is an interface of [t], of one of its interfaces, or of one of its
    superclasses. *)
Inductive SuperInterface : EnvUtil.MetaClass -> EnvUtil.MetaClass -> Prop :=
| own_interface t i :
    In i (EnvUtil.getInterfaces t) -> SuperInterface t i
| inherited_interface t j i :
    In j (EnvUtil.getInterfaces t) -> SuperInterface j i -> SuperInterface t i
| superclass_interface t super i :
    EnvUtil.getSuperClass t = Some super -> SuperInterface super i ->
    SuperInterface t i.

(** Equality of meta classes: by name. *)
Definition sameClass (a b : EnvUtil.MetaClass) : Prop :=
  EnvUtil.getFullyQualifiedName a = EnvUtil.getFullyQualifiedName b.

(** The three keys of [ErraiApp.properties] that [EnvUtil] acts on. *)
Definition isConfigKey (key : string) : bool :=
  String.eqb key EnvUtil.CONFIG_ERRAI_SERIALIZABLE_TYPE
  || String.eqb key EnvUtil.CONFIG_ERRAI_NONSERIALIZABLE_TYPE
  || String.eqb key EnvUtil.CONFIG_ERRAI_MAPPING_ALIASES.

(** The entries of a bundle up to its first configuration key, that key
    included. *)
Fixpoint upToConfigKey (entries : list (string * string)) : list (string * string) :=
  match entries with
  | [] => []
  | (key, value) :: rest =>
      if isConfigKey key then [(key, value)] else (key, value) :: upToConfigKey rest
  end.

(** An environment whose bundles are cut after their first configuration
    key. *)
Definition cutBundles (env : EnvUtil.Environment) : EnvUtil.Environment :=
  EnvUtil.mkEnvironment
    (EnvUtil.portableTypes env) (EnvUtil.nonPortableTypes env)
    (option_map (map (option_map upToConfigKey)) (EnvUtil.resources env))
    (EnvUtil.metaClassOf env) (EnvUtil.classForName env).

(* ===================================================================== *)
(** * EnvUtil: the caches *)
(* ===================================================================== *)

Section EnvUtilFacts.
Import EnvUtil.

Lemma isJUnitTest_caches caller s :
  _isJUnitTest (snd (isJUnitTest caller s)) = Some (fst (isJUnitTest caller s)).
Proof. unfold isJUnitTest. destruct (_isJUnitTest s) eqn:E; simpl; auto. Qed.

Lemma isDevMode_caches caller s :
  _isDevMode (snd (isDevMode caller s)) = Some (fst (isDevMode caller s)).
Proof. unfold isDevMode. destruct (_isDevMode s) eqn:E; simpl; auto. Qed.

Lemma isProdMode_caches caller s :
  _isProdMode (snd (isProdMode caller s)) = Some (fst (isProdMode caller s)).
Proof.
  unfold isProdMode. destruct (_isProdMode s) eqn:E; simpl; auto.
  destruct (isDevMode (SELF :: caller) s) as [d s1].
  destruct d; simpl; auto.
  destruct (isJUnitTest (SELF :: caller) s1) as [j s2]. reflexivity.
Qed.

Lemma isJUnitTest_cached caller s b :
  _isJUnitTest s = Some b -> isJUnitTest caller s = (b, s).
Proof. unfold isJUnitTest. intros ->. reflexivity. Qed.

Lemma isDevMode_cached caller s b :
  _isDevMode s = Some b -> isDevMode caller s = (b, s).
Proof. unfold isDevMode. intros ->. reflexivity. Qed.

Lemma isProdMode_cached caller s b :
  _isProdMode s = Some b -> isProdMode caller s = (b, s).
Proof. unfold isProdMode. intros ->. reflexivity. Qed.

Lemma isJUnitTest_keeps caller :
  keeps _isJUnitTest (fun s => snd (isJUnitTest caller s)) /\
  keeps _isDevMode (fun s => snd (isJUnitTest caller s)) /\
  keeps _isProdMode (fun s => snd (isJUnitTest caller s)).
Proof.
  unfold keeps, isJUnitTest. repeat split; intros s b H;
    destruct (_isJUnitTest s) eqn:E; simpl; congruence.
Qed.

Lemma isDevMode_keeps caller :
  keeps _isJUnitTest (fun s => snd (isDevMode caller s)) /\
  keeps _isDevMode (fun s => snd (isDevMode caller s)) /\
  keeps _isProdMode (fun s => snd (isDevMode caller s)).
Proof.
  unfold keeps, isDevMode. repeat split; intros s b H;
    destruct (_isDevMode s) eqn:E; simpl; congruence.
Qed.

Lemma isProdMode_keeps caller :
  keeps _isJUnitTest (fun s => snd (isProdMode caller s)) /\
  keeps _isDevMode (fun s => snd (isProdMode caller s)) /\
  keeps _isProdMode (fun s => snd (isProdMode caller s)).
Proof.
  destruct (isDevMode_keeps (SELF :: caller)) as (DJ & DD & DP).
  destruct (isJUnitTest_keeps (SELF :: caller)) as (JJ & JD & JP).
  unfold keeps in *.
  repeat split; intros s b H; unfold isProdMode;
    destruct (_isProdMode s) eqn:E; simpl; try congruence;
    specialize (DJ s); specialize (DD s); specialize (DP s);
    destruct (isDevMode (SELF :: caller) s) as [d s1]; simpl in *;
    destruct d; simpl; auto;
    specialize (JJ s1); specialize (JD s1); specialize (JP s1);
    destruct (isJUnitTest (SELF :: caller) s1) as [j s2]; simpl in *; auto.
Qed.

Lemma invoke_keeps m caller :
  keeps _isJUnitTest (invoke m caller) /\
  keeps _isDevMode (invoke m caller) /\
  keeps _isProdMode (invoke m caller).
Proof.
  destruct m; simpl.
  - apply isJUnitTest_keeps.
  - apply isDevMode_keeps.
  - apply isProdMode_keeps.
  - unfold recordEnvironmentState.
    destruct (isJUnitTest_keeps (SELF :: caller)) as (JJ & JD & JP).
    destruct (isDevMode_keeps (SELF :: caller)) as (DJ & DD & DP).
    destruct (isProdMode_keeps (SELF :: caller)) as (PJ & PD & PP).
    unfold keeps in *. repeat split; intros s b H.
    + apply PJ, DJ, JJ, H.
    + apply PD, DD, JD, H.
    + apply PP, DP, JP, H.
Qed.

Lemma run_keeps later :
  keeps _isJUnitTest (run later) /\
  keeps _isDevMode (run later) /\
  keeps _isProdMode (run later).
Proof.
  induction later as [|[m caller] rest IH]; simpl.
  - unfold keeps. auto.
  - destruct IH as (RJ & RD & RP).
    destruct (invoke_keeps m caller) as (IJ & ID & IP).
    unfold keeps in *. repeat split; intros s b H; auto.
Qed.

(** The three caches agree in every state the program can reach. *)
Lemma isProdMode_agrees caller s :
  prodModeAgrees s -> prodModeAgrees (snd (isProdMode caller s)).
Proof.
  unfold prodModeAgrees, isProdMode. intros H.
  destruct (_isProdMode s) as [p|] eqn:E; simpl.
  - rewrite E. exact H.
  - pose proof (isDevMode_caches (SELF :: caller) s) as CD.
    destruct (isDevMode (SELF :: caller) s) as [d s1]; simpl in *.
    destruct d; simpl.
    + left. exact CD.
    + pose proof (isJUnitTest_caches (SELF :: caller) s1) as CJ.
      destruct (isJUnitTest_keeps (SELF :: caller)) as (_ & KD & _).
      specialize (KD s1 false CD). cbv beta in KD.
      destruct (isJUnitTest (SELF :: caller) s1) as [j s2]; simpl in *.
      destruct j; simpl.
      * right. exact CJ.
      * split; [exact KD | exact CJ].
Qed.

Lemma keeps_agrees (step : Statics -> Statics) s :
  keeps _isJUnitTest step -> keeps _isDevMode step ->
  _isProdMode (step s) = _isProdMode s ->
  prodModeAgrees s -> prodModeAgrees (step s).
Proof.
  unfold prodModeAgrees. intros KJ KD EP H. rewrite EP.
  destruct (_isProdMode s) as [[|]|]; auto.
  - destruct H; split; auto.
  - destruct H; [left | right]; auto.
Qed.

Lemma isJUnitTest_agrees caller s :
  prodModeAgrees s -> prodModeAgrees (snd (isJUnitTest caller s)).
Proof.
  destruct (isJUnitTest_keeps caller) as (KJ & KD & _).
  apply (keeps_agrees (fun s => snd (isJUnitTest caller s))); auto.
  unfold isJUnitTest. destruct (_isJUnitTest s); reflexivity.
Qed.

Lemma isDevMode_agrees caller s :
  prodModeAgrees s -> prodModeAgrees (snd (isDevMode caller s)).
Proof.
  destruct (isDevMode_keeps caller) as (KJ & KD & _).
  apply (keeps_agrees (fun s => snd (isDevMode caller s))); auto.
  unfold isDevMode. destruct (_isDevMode s); reflexivity.
Qed.

Lemma invoke_agrees m caller s :
  prodModeAgrees s -> prodModeAgrees (invoke m caller s).
Proof.
  destruct m; simpl; intros H.
  - now apply isJUnitTest_agrees.
  - now apply isDevMode_agrees.
  - now apply isProdMode_agrees.
  - unfold recordEnvironmentState.
    now apply isProdMode_agrees, isDevMode_agrees, isJUnitTest_agrees.
Qed.

Lemma run_agrees calls s :
  prodModeAgrees s -> prodModeAgrees (run calls s).
Proof.
  revert s. induction calls as [|[m caller] rest IH]; simpl; intros s H; auto.
  apply IH, invoke_agrees, H.
Qed.

Lemma clinit_agrees : prodModeAgrees clinit.
Proof. exact I. Qed.

End EnvUtilFacts.

Section EnvUtilMemo.
Import EnvUtil.

Lemma later_isJUnitTest later caller s b :
  _isJUnitTest s = Some b -> fst (isJUnitTest caller (run later s)) = b.
Proof.
  intros H. destruct (run_keeps later) as (K & _ & _).
  now rewrite (isJUnitTest_cached caller _ b (K s b H)).
Qed.

Lemma later_isDevMode later caller s b :
  _isDevMode s = Some b -> fst (isDevMode caller (run later s)) = b.
Proof.
  intros H. destruct (run_keeps later) as (_ & K & _).
  now rewrite (isDevMode_cached caller _ b (K s b H)).
Qed.

Lemma later_isProdMode later caller s b :
  _isProdMode s = Some b -> fst (isProdMode caller (run later s)) = b.
Proof.
  intros H. destruct (run_keeps later) as (_ & _ & K).
  now rewrite (isProdMode_cached caller _ b (K s b H)).
Qed.

(** C10: after any run of the program, [isProdMode()] answers true exactly
    when [isDevMode()] and [isJUnitTest()] both answer false, whenever and
    from whatever stack these are called afterwards; and each of the three
    predicates is memoised: once it has answered, every later call, from any
    stack and after any further calls, gives the same answer. *)
Theorem C10_isProdMode_iff_and_memoised :
  forall (history later later' : list (Method * StackTrace))
         (e e' e'' : StackTrace),
    let s := run history clinit in
    (fst (isProdMode e s) = true <->
       fst (isDevMode e' (run later (snd (isProdMode e s)))) = false /\
       fst (isJUnitTest e'' (run later' (snd (isProdMode e s)))) = false)
    /\ fst (isProdMode e' (run later (snd (isProdMode e s)))) = fst (isProdMode e s)
    /\ fst (isDevMode e' (run later (snd (isDevMode e s)))) = fst (isDevMode e s)
    /\ fst (isJUnitTest e' (run later (snd (isJUnitTest e s)))) = fst (isJUnitTest e s).
Proof.
  intros history later later' e e' e'' s.
  assert (A : prodModeAgrees (snd (isProdMode e s))).
  { apply isProdMode_agrees, run_agrees, clinit_agrees. }
  pose proof (isProdMode_caches e s) as C.
  split; [split | split; [| split]].
  - intros P. unfold prodModeAgrees in A. rewrite C, P in A.
    destruct A as [D J]. split.
    + now apply later_isDevMode.
    + now apply later_isJUnitTest.
  - intros [D J]. unfold prodModeAgrees in A. rewrite C in A.
    destruct (fst (isProdMode e s)); [reflexivity|].
    destruct A as [A | A].
    + rewrite (later_isDevMode later e' _ true A) in D. discriminate.
    + rewrite (later_isJUnitTest later' e'' _ true A) in J. discriminate.
  - now apply later_isProdMode.
  - apply later_isDevMode, isDevMode_caches.
  - apply later_isJUnitTest, isJUnitTest_caches.
Qed.

End EnvUtilMemo.

(* ===================================================================== *)
(** * Logs *)
(* ===================================================================== *)

Lemma newEdits_app l1 l2 : newEdits (l1 ++ l2) = newEdits l1 ++ newEdits l2.
Proof.
  induction l1 as [|c l1 IH]; simpl; auto.
  destruct c; simpl; now rewrite ?IH.
Qed.

Lemma stateControlCommands_app l1 l2 :
  stateControlCommands (l1 ++ l2) = stateControlCommands l1 ++ stateControlCommands l2.
Proof.
  induction l1 as [|c l1 IH]; simpl; auto.
  destruct c; simpl; now rewrite ?IH.
Qed.

Lemma readySignals_app l1 l2 :
  readySignals (l1 ++ l2) = readySignals l1 + readySignals l2.
Proof.
  induction l1 as [|c l1 IH]; simpl; auto.
  destruct c; simpl; now rewrite ?IH.
Qed.

Lemma silent_nil : silent [].
Proof. repeat split. Qed.

Lemma silent_console e : silent [console_error e].
Proof. repeat split. Qed.

Lemma silent_app l1 l2 : silent l1 -> silent l2 -> silent (l1 ++ l2).
Proof.
  intros (E1 & C1 & R1) (E2 & C2 & R2). unfold silent.
  rewrite newEdits_app, stateControlCommands_app, readySignals_app.
  rewrite E1, E2, C1, C2, R1, R2. repeat split.
Qed.

Lemma or_else_empty (a : string) : or_else (Some a) "" = a.
Proof. destruct a; reflexivity. Qed.

Create HintDb logs.
#[local] Hint Resolve silent_nil silent_console silent_app : logs.

(** Unfolds the plumbing of a component method. *)
Ltac step_through :=
  unfold bind, ret, throw, try_catch, gets, modify, call, deref,
    completion, after, calls;
  simpl.

(* ===================================================================== *)
(** * ServerlessWorkflowEditor: the change handler *)
(* ===================================================================== *)

Section SwfFacts.
Context {libs : DiagramLibs}.
Import ServerlessWorkflowEditor.

(** [onContentChanged] never throws; it leaves [initialContent] and the
    widget alone; besides what it reports for the operation it only writes
    to the console; and it cannot create the preview container. *)
Lemma onContentChanged_spec newContent operation s :
  exists outOfSync container log,
    onContentChanged newContent operation s =
      (Normal tt,
       mkState (initialContent s) outOfSync container (swfMonacoEditorRef s),
       reported newContent operation ++ log)
    /\ silent log
    /\ (svgContainer s = None -> container = None).
Proof.
  unfold onContentChanged, setInitialContent, setDiagramOutOfSync, set_svgContainer.
  destruct operation as [[| |]|]; step_through;
    repeat match goal with
      | |- context [fromSource ?x] => destruct (fromSource x); simpl
      | |- context [states ?w] => destruct (states w); simpl
      | |- context [sourceCode ?w] => destruct (sourceCode w); simpl
      | |- context [Nat.ltb 0 ?n] => destruct (Nat.ltb 0 n); simpl
      | |- context [svgContainer s] => destruct (svgContainer s) eqn:?; simpl
      | |- context [mermaid_init ?c] => destruct (mermaid_init c); simpl
      end;
    eexists _, _, _; (split; [reflexivity|]); split; auto with logs;
    intros; congruence.
Qed.

Lemma deliver_spec report s :
  exists outOfSync container log,
    deliver report s =
      (Normal tt,
       mkState (initialContent s) outOfSync container (swfMonacoEditorRef s),
       delivered report ++ log)
    /\ silent log
    /\ (svgContainer s = None -> container = None).
Proof.
  destruct report as [[newContent operation]|]; simpl.
  - apply onContentChanged_spec.
  - exists (diagramOutOfSync s), (svgContainer s), []. destruct s.
    repeat split; auto with logs.
Qed.

Lemma effect_spec s :
  exists outOfSync container log,
    effect s =
      (Normal tt,
       mkState (initialContent s) outOfSync container (swfMonacoEditorRef s),
       onReady :: log)
    /\ silent log
    /\ (svgContainer s = None -> container = None).
Proof.
  destruct (onContentChanged_spec (originalContent (initialContent s)) None s)
    as (d & sv & log & E & Sil & SV).
  exists d, sv, log. unfold effect. step_through. rewrite E. auto.
Qed.

(** A method that moves the widget and hands its report over. *)
Lemma through_widget (move : Monaco.t -> Monaco.t * Monaco.Report) s w :
  swfMonacoEditorRef s = Some w ->
  exists outOfSync container log,
    (set_swfMonacoEditorRef (Some (fst (move w))) ;; deliver (snd (move w))) s =
      (Normal tt,
       mkState (initialContent s) outOfSync container (Some (fst (move w))),
       delivered (snd (move w)) ++ log)
    /\ silent log
    /\ (svgContainer s = None -> container = None).
Proof.
  intros W.
  destruct (deliver_spec (snd (move w))
              (mkState (initialContent s) (diagramOutOfSync s) (svgContainer s)
                       (Some (fst (move w)))))
    as (d & sv & log & E & Sil & SV).
  exists d, sv, log. unfold set_swfMonacoEditorRef, bind, modify.
  rewrite E. auto.
Qed.

(** The shape of [undo], [redo] and of the user's typing: nothing without a
    widget; with one, the widget moves and its report is handed over. *)
Lemma widget_method_spec {A : Type}
    (move : Monaco.t -> Monaco.t * Monaco.Report) (v : A) s :
  exists outOfSync container log,
    (current <- gets swfMonacoEditorRef ;;
     match current with
     | Some w =>
         set_swfMonacoEditorRef (Some (fst (move w))) ;;
         deliver (snd (move w)) ;;
         ret v
     | None => ret v
     end) s =
      (Normal v,
       mkState (initialContent s) outOfSync container
               (option_map (fun w => fst (move w)) (swfMonacoEditorRef s)),
       match swfMonacoEditorRef s with
       | Some w => delivered (snd (move w))
       | None => []
       end ++ log)
    /\ silent log
    /\ (svgContainer s = None -> container = None).
Proof.
  unfold bind at 1. unfold gets.
  destruct (swfMonacoEditorRef s) as [w|] eqn:W.
  - destruct (through_widget move s w W) as (d & sv & log & E & Sil & SV).
    exists d, sv, log. split; [|auto].
    unfold bind in *. unfold set_swfMonacoEditorRef, modify in *.
    destruct (deliver (snd (move w)) _) as [[r s1] l1].
    inversion E; subst. unfold ret. simpl. now rewrite !app_nil_r.
  - exists (diagramOutOfSync s), (svgContainer s), [].
    unfold ret. simpl. rewrite <- W. destruct s. repeat split; auto with logs.
Qed.

Lemma undo_spec s :
  exists outOfSync container log,
    undo s =
      (Normal (Promise.resolve tt),
       mkState (initialContent s) outOfSync container
               (option_map (fun w => fst (Monaco.undo w)) (swfMonacoEditorRef s)),
       match swfMonacoEditorRef s with
       | Some w => delivered (snd (Monaco.undo w))
       | None => []
       end ++ log)
    /\ silent log
    /\ (svgContainer s = None -> container = None).
Proof. exact (widget_method_spec Monaco.undo (Promise.resolve tt) s). Qed.

Lemma redo_spec s :
  exists outOfSync container log,
    redo s =
      (Normal (Promise.resolve tt),
       mkState (initialContent s) outOfSync container
               (option_map (fun w => fst (Monaco.redo w)) (swfMonacoEditorRef s)),
       match swfMonacoEditorRef s with
       | Some w => delivered (snd (Monaco.redo w))
       | None => []
       end ++ log)
    /\ silent log
    /\ (svgContainer s = None -> container = None).
Proof. exact (widget_method_spec Monaco.redo (Promise.resolve tt) s). Qed.

Lemma typing_spec newContent s :
  exists outOfSync container log,
    typing newContent s =
      (Normal tt,
       mkState (initialContent s) outOfSync container
               (option_map (fun w => fst (Monaco.type w newContent))
                           (swfMonacoEditorRef s)),
       (if mounted (swfMonacoEditorRef s)
        then [onNewEdit (mkKogitoEdit newContent)] else []) ++ log)
    /\ silent log
    /\ (svgContainer s = None -> container = None).
Proof.
  unfold typing. unfold bind at 1. unfold gets.
  destruct (swfMonacoEditorRef s) as [w|] eqn:W.
  - destruct (through_widget (fun w => Monaco.type w newContent) s w W)
      as (d & sv & log & E & Sil & SV).
    exists d, sv, log. split; [| auto].
    cbv beta iota. rewrite E. reflexivity.
  - exists (diagramOutOfSync s), (svgContainer s), [].
    unfold ret. simpl. rewrite <- W. destruct s. repeat split; auto with logs.
Qed.

(** [setContent] and the commit React makes of it. *)
Lemma setContent_commit_spec path newContent s :
  exists outOfSync container log,
    (setContent path newContent ;; commit) s =
      (Normal tt,
       mkState (mkInitialContent newContent path) outOfSync container
               (if String.eqb path ""
                then None
                else Some (Monaco.render (swfMonacoEditorRef s) newContent path)),
       onReady :: log)
    /\ silent log
    /\ (svgContainer s = None -> container = None).
Proof.
  unfold setContent, commit, render, setInitialContent, set_swfMonacoEditorRef.
  unfold bind, try_catch, modify, gets, ret. simpl.
  destruct (String.eqb path "") eqn:P; simpl.
  - destruct (effect_spec (mkState (mkInitialContent newContent path)
                (diagramOutOfSync s) (svgContainer s) None))
      as (d & sv & log & E & Sil & SV).
    unfold bind, modify, gets, ret in E. rewrite E. simpl.
    exists d, sv, log. auto.
  - destruct (effect_spec (mkState (mkInitialContent newContent path)
                (diagramOutOfSync s) (svgContainer s)
                (Some (Monaco.render (swfMonacoEditorRef s) newContent path))))
      as (d & sv & log & E & Sil & SV).
    unfold bind, modify, gets, ret in E. rewrite E. simpl.
    exists d, sv, log. auto.
Qed.

Lemma getContent_spec s :
  getContent s =
    (Normal (Promise.resolve (currentBuffer (swfMonacoEditorRef s))), s, []).
Proof.
  unfold getContent, bind, gets, ret.
  destruct (swfMonacoEditorRef s) as [w|]; cbn [option_map currentBuffer app].
  - unfold Monaco.getContent. now rewrite or_else_empty.
  - reflexivity.
Qed.

Lemma setTheme_spec theme s :
  setTheme theme s =
    (Normal (Promise.resolve tt),
     mkState (initialContent s) (diagramOutOfSync s) (svgContainer s)
             (option_map (fun w => Monaco.setTheme w theme) (swfMonacoEditorRef s)),
     []).
Proof.
  unfold setTheme, set_swfMonacoEditorRef. step_through.
  destruct (swfMonacoEditorRef s) as [w|] eqn:W; simpl.
  - reflexivity.
  - rewrite <- W. destruct s. reflexivity.
Qed.

(** Without a preview container [getPreview] throws, whatever else the
    state holds. *)
Lemma getPreview_without_container s :
  svgContainer s = None ->
  getPreview s = (Throw (TypeError "Cannot read properties of null"), s, []).
Proof.
  intros SV. unfold getPreview. step_through. now rewrite SV.
Qed.

(** ** No event gives the component a preview container *)

Lemma settled_after {A : Type} (m : M State A) s :
  after (settled m s) = after (m s).
Proof. unfold settled, after. now destruct (m s) as [[r s1] l1]. Qed.

Lemma handle_normal ev s : completion (handle ev s) = Normal tt.
Proof.
  destruct ev; unfold handle, settled, completion;
    match goal with |- context [match ?m s with _ => _ end] =>
      now destruct (m s) as [[r s1] l1] end.
Qed.

Lemma handle_container ev s :
  svgContainer s = None -> svgContainer (after (handle ev s)) = None.
Proof.
  intros SV.
  destruct ev as [p c| | | | | |theme|newContent|]; unfold handle;
    rewrite settled_after.
  - destruct (setContent_commit_spec p c s) as (d & sv & log & E & _ & K).
    rewrite E. exact (K SV).
  - now rewrite getContent_spec.
  - now rewrite (getPreview_without_container s SV).
  - destruct (undo_spec s) as (d & sv & log & E & _ & K). rewrite E. exact (K SV).
  - destruct (redo_spec s) as (d & sv & log & E & _ & K). rewrite E. exact (K SV).
  - exact SV.
  - now rewrite setTheme_spec.
  - destruct (typing_spec newContent s) as (d & sv & log & E & _ & K).
    rewrite E. exact (K SV).
  - destruct (effect_spec s) as (d & sv & log & E & _ & K). rewrite E. exact (K SV).
Qed.

Lemma handleAll_after evs : forall s,
  svgContainer s = None -> svgContainer (after (handleAll evs s)) = None.
Proof.
  induction evs as [|ev rest IH]; intros s SV.
  - exact SV.
  - pose proof (handle_normal ev s) as N.
    pose proof (handle_container ev s SV) as C.
    specialize (IH (after (handle ev s)) C).
    simpl. unfold bind, completion, after in *.
    destruct (handle ev s) as [[r s1] l1]. simpl in *. subst r.
    destruct (handleAll rest s1) as [[r2 s2] l2]. exact IH.
Qed.

Lemma commit_spec s :
  exists outOfSync container log,
    commit s =
      (Normal tt,
       mkState (initialContent s) outOfSync container
               (if String.eqb (path (initialContent s)) ""
                then None
                else Some (Monaco.render (swfMonacoEditorRef s)
                             (originalContent (initialContent s))
                             (path (initialContent s)))),
       onReady :: log)
    /\ silent log
    /\ (svgContainer s = None -> container = None).
Proof.
  unfold commit, render, set_swfMonacoEditorRef.
  unfold bind, modify, gets, ret. simpl.
  destruct (String.eqb (path (initialContent s)) "") eqn:P; simpl.
  - destruct (effect_spec (mkState (initialContent s)
                (diagramOutOfSync s) (svgContainer s) None))
      as (d & sv & log & E & Sil & SV).
    unfold bind, modify, gets, ret in E. rewrite E. simpl.
    exists d, sv, log. auto.
  - destruct (effect_spec (mkState (initialContent s)
                (diagramOutOfSync s) (svgContainer s)
                (Some (Monaco.render (swfMonacoEditorRef s)
                         (originalContent (initialContent s))
                         (path (initialContent s))))))
      as (d & sv & log & E & Sil & SV).
    unfold bind, modify, gets, ret in E. rewrite E. simpl.
    exists d, sv, log. auto.
Qed.

(** In every state a mounted component can be in, [svgContainer.current]
    is still [null]. *)
Lemma stateAfter_container evs : svgContainer (stateAfter evs) = None.
Proof.
  unfold stateAfter, mount.
  destruct (commit_spec initial) as (d & sv & log & E & _ & K).
  specialize (K eq_refl).
  unfold bind, after. rewrite E.
  pose proof (handleAll_after evs
                (mkState (initialContent initial) d sv
                   (if String.eqb (path (initialContent initial)) ""
                    then None
                    else Some (Monaco.render (swfMonacoEditorRef initial)
                                 (originalContent (initialContent initial))
                                 (path (initialContent initial))))) K) as H.
  unfold after in H.
  destruct (handleAll evs _) as [[r2 s2] l2]. exact H.
Qed.

End SwfFacts.

(* ===================================================================== *)
(** * DashbuilderEditor: the methods *)
(* ===================================================================== *)

Section DashbuilderFacts.
Import DashbuilderEditor.

Lemma dashbuilder_onContentChanged_spec newContent operation s :
  onContentChanged newContent operation s =
    (Normal tt,
     mkState (initialContent s) (content s) (showPreview s) newContent
             (oldContentRef s) (dashbuilderMonacoEditorRef s),
     reported newContent operation).
Proof. destruct operation as [[| |]|]; reflexivity. Qed.

Lemma dashbuilder_getContent_spec s :
  getContent s = (Normal (Promise.resolve ""), s, []).
Proof.
  unfold getContent. step_through.
  destruct (dashbuilderMonacoEditorRef s); reflexivity.
Qed.

Lemma dashbuilder_setContent_spec path newContent s :
  setContent path newContent s =
    (Normal (Promise.resolve tt),
     mkState (mkInitialContent INITIAL_CONTENT path) (content s) (showPreview s)
             (newContentRef s) (oldContentRef s) (dashbuilderMonacoEditorRef s),
     []).
Proof. reflexivity. Qed.

Lemma dashbuilder_setContent_commit_spec p newContent s :
  (setContent p newContent ;; commit) s =
    (Normal tt,
     mkState (mkInitialContent INITIAL_CONTENT p) (content s) (showPreview s)
             INITIAL_CONTENT (oldContentRef s)
             (if String.eqb p ""
              then None
              else Some (Monaco.render (dashbuilderMonacoEditorRef s)
                           INITIAL_CONTENT p)),
     [onReady]).
Proof.
  unfold setContent, commit, render, effect, onContentChanged,
    setInitialContent, set_dashbuilderMonacoEditorRef, set_newContentRef.
  unfold bind, try_catch, modify, gets, ret, call.
  cbn [initialContent dashbuilderMonacoEditorRef path originalContent].
  destruct (String.eqb p ""); reflexivity.
Qed.

Lemma dashbuilder_undo_commands s :
  stateControlCommands (calls (undo s)) =
    if undoApplies (dashbuilderMonacoEditorRef s)
    then [StateControlCommand.UNDO] else [].
Proof.
  unfold undo, calls, bind, gets.
  destruct (dashbuilderMonacoEditorRef s) as [[name buffer [|previous older] redos th]|];
    reflexivity.
Qed.

Lemma dashbuilder_redo_commands s :
  stateControlCommands (calls (redo s)) =
    if redoApplies (dashbuilderMonacoEditorRef s)
    then [StateControlCommand.REDO] else [].
Proof.
  unfold redo, calls, bind, gets.
  destruct (dashbuilderMonacoEditorRef s) as [[name buffer undos [|next newer] th]|];
    reflexivity.
Qed.

Lemma dashbuilder_undo_succeeds s : completion (undo s) = Normal (Promise.resolve tt).
Proof.
  unfold undo, completion, bind, gets.
  destruct (dashbuilderMonacoEditorRef s) as [[name buffer [|previous older] redos th]|];
    reflexivity.
Qed.

Lemma dashbuilder_redo_succeeds s : completion (redo s) = Normal (Promise.resolve tt).
Proof.
  unfold redo, completion, bind, gets.
  destruct (dashbuilderMonacoEditorRef s) as [[name buffer undos [|next newer] th]|];
    reflexivity.
Qed.

Lemma dashbuilder_setTheme_spec theme s :
  setTheme theme s =
    (Normal (Promise.resolve tt),
     mkState (initialContent s) (content s) (showPreview s) (newContentRef s)
             (oldContentRef s)
             (option_map (fun w => Monaco.setTheme w theme)
                         (dashbuilderMonacoEditorRef s)),
     []).
Proof.
  unfold setTheme, set_dashbuilderMonacoEditorRef. step_through.
  destruct (dashbuilderMonacoEditorRef s) as [w|] eqn:W; simpl.
  - reflexivity.
  - rewrite <- W. destruct s. reflexivity.
Qed.

Lemma dashbuilder_typing_edits newContent s :
  newEdits (calls (typing newContent s)) =
    if mounted (dashbuilderMonacoEditorRef s)
    then [mkKogitoEdit newContent] else [].
Proof.
  unfold typing, calls, bind, gets.
  destruct (dashbuilderMonacoEditorRef s) as [w|]; reflexivity.
Qed.

End DashbuilderFacts.

Lemma setTheme_twice (current : option Monaco.t) theme :
  option_map (fun w => Monaco.setTheme w theme)
    (option_map (fun w => Monaco.setTheme w theme) current) =
  option_map (fun w => Monaco.setTheme w theme) current.
Proof. destruct current as [w|]; reflexivity. Qed.

(* ===================================================================== *)
(** * The properties of the editor contract *)
(* ===================================================================== *)

(** The ServerlessWorkflow editor does return what was set, for a path
    that is not empty (with an empty path no widget is rendered). *)
Lemma swf_round_trip {libs : DiagramLibs} s p newContent :
  swfRoundTrip s p newContent =
    Normal (Promise.resolve (if String.eqb p "" then "" else newContent)).
Proof.
  unfold swfRoundTrip.
  destruct (setContent_commit_spec p newContent s)
    as (d & sv & log & E & _ & _).
  rewrite E. unfold after. cbn [fst snd].
  rewrite getContent_spec. unfold completion. cbn [fst snd].
  now destruct (String.eqb p "").
Qed.

(** C1: the round trip of [setContent] and [getContent] does not hold for
    each adapter. The Dashbuilder editor answers the empty string to
    [getContent] after every [setContent], so the content
    ["pages: []"] set under ["dashboard.dash.yml"] on a freshly mounted
    editor does not come back. *)
Theorem C1_round_trip_lost_in_dashbuilder :
  (forall d p newContent,
      dashbuilderRoundTrip d p newContent = Normal (Promise.resolve ""))
  /\ dashbuilderRoundTrip (DashbuilderEditor.stateAfter true [])
       "dashboard.dash.yml" "pages: []"
     <> Normal (Promise.resolve "pages: []").
Proof.
  assert (A : forall d p newContent,
             dashbuilderRoundTrip d p newContent = Normal (Promise.resolve "")).
  { intros d p newContent. unfold dashbuilderRoundTrip.
    now rewrite dashbuilder_getContent_spec. }
  split; [exact A|]. rewrite A. discriminate.
Qed.

(** C2: [setContent] of the Dashbuilder editor does not store the content
    it is given: it stores the fixed [INITIAL_CONTENT] (and that is what
    reaches the widget), so two calls that differ only in their content
    cannot be told apart, and ["pages: []"] is not what is stored. The
    ServerlessWorkflow editor stores both arguments. *)
Theorem C2_dashbuilder_setContent_drops_content :
  (forall s p newContent,
      DashbuilderEditor.initialContent
        (after (DashbuilderEditor.setContent p newContent s)) =
      DashbuilderEditor.mkInitialContent DashbuilderEditor.INITIAL_CONTENT p)
  /\ (forall s p content1 content2,
         (DashbuilderEditor.setContent p content1 ;; DashbuilderEditor.commit) s =
         (DashbuilderEditor.setContent p content2 ;; DashbuilderEditor.commit) s)
  /\ DashbuilderEditor.originalContent
       (DashbuilderEditor.initialContent
          (after (DashbuilderEditor.setContent "dashboard.dash.yml" "pages: []"
                    (DashbuilderEditor.stateAfter true []))))
     <> "pages: []"
  /\ currentBuffer
       (DashbuilderEditor.dashbuilderMonacoEditorRef
          (after ((DashbuilderEditor.setContent "dashboard.dash.yml" "pages: []" ;;
                   DashbuilderEditor.commit)
                    (DashbuilderEditor.stateAfter true []))))
     = DashbuilderEditor.INITIAL_CONTENT
  /\ (forall s p newContent,
         ServerlessWorkflowEditor.initialContent
           (after (ServerlessWorkflowEditor.setContent p newContent s)) =
         ServerlessWorkflowEditor.mkInitialContent newContent p).
Proof.
  split; [reflexivity|].
  split.
  { intros s p content1 content2.
    now rewrite !dashbuilder_setContent_commit_spec. }
  split.
  { rewrite dashbuilder_setContent_spec. unfold after.
    cbn [fst snd DashbuilderEditor.initialContent DashbuilderEditor.originalContent].
    intros H. apply (f_equal String.length) in H. vm_compute in H. discriminate. }
  split.
  { rewrite dashbuilder_setContent_commit_spec. reflexivity. }
  reflexivity.
Qed.

(** C3, counterexample: a successful [setContent] emits no new-edit
    notification at all: here on a freshly mounted ServerlessWorkflow
    editor and on a freshly mounted Dashbuilder editor, the number of
    new-edit notifications is not one. *)
Lemma C3_setContent_emits_no_edit :
  List.length
    (newEdits
       (calls ((ServerlessWorkflowEditor.setContent "hello.sw.json" "{}" ;;
                ServerlessWorkflowEditor.commit (libs := braceLibs))
                 (ServerlessWorkflowEditor.stateAfter (libs := braceLibs) [])))) <> 1
  /\ List.length
       (newEdits
          (calls ((DashbuilderEditor.setContent "dashboard.dash.yml" "pages: []" ;;
                   DashbuilderEditor.commit)
                    (DashbuilderEditor.stateAfter true [])))) <> 1.
Proof. split; vm_compute; discriminate. Qed.

(** C3, amended: every widget-driven edit (the widget calling
    [onContentChange] with the operation EDIT, as it does when the user
    types) emits exactly one new-edit notification, carrying the new
    content; a [setContent] call with its commit emits one ready signal and
    no new-edit notification. *)
Theorem C3_one_edit_per_widget_edit_none_per_setContent :
  forall (libs : DiagramLibs)
         (s : ServerlessWorkflowEditor.State) (d : DashbuilderEditor.State)
         (p newContent : string),
    newEdits (calls (ServerlessWorkflowEditor.onContentChanged newContent
                       (Some MonacoEditorOperation.EDIT) s))
      = [mkKogitoEdit newContent]
    /\ newEdits (calls (DashbuilderEditor.onContentChanged newContent
                          (Some MonacoEditorOperation.EDIT) d))
      = [mkKogitoEdit newContent]
    /\ newEdits (calls (ServerlessWorkflowEditor.typing newContent s))
      = (if mounted (ServerlessWorkflowEditor.swfMonacoEditorRef s)
         then [mkKogitoEdit newContent] else [])
    /\ newEdits (calls (DashbuilderEditor.typing newContent d))
      = (if mounted (DashbuilderEditor.dashbuilderMonacoEditorRef d)
         then [mkKogitoEdit newContent] else [])
    /\ newEdits (calls ((ServerlessWorkflowEditor.setContent p newContent ;;
                         ServerlessWorkflowEditor.commit) s)) = []
    /\ readySignals (calls ((ServerlessWorkflowEditor.setContent p newContent ;;
                             ServerlessWorkflowEditor.commit) s)) = 1
    /\ newEdits (calls ((DashbuilderEditor.setContent p newContent ;;
                         DashbuilderEditor.commit) d)) = []
    /\ readySignals (calls ((DashbuilderEditor.setContent p newContent ;;
                             DashbuilderEditor.commit) d)) = 1.
Proof.
  intros libs s d p newContent.
  split.
  { destruct (onContentChanged_spec newContent
                (Some MonacoEditorOperation.EDIT) s) as (o & sv & log & E & (N & _) & _).
    rewrite E. unfold calls. cbn [snd]. rewrite newEdits_app, N. reflexivity. }
  split.
  { now rewrite dashbuilder_onContentChanged_spec. }
  split.
  { destruct (typing_spec newContent s)
      as (o & sv & log & E & (N & _) & _).
    rewrite E. unfold calls. cbn [snd]. rewrite newEdits_app, N, app_nil_r.
    now destruct (mounted _). }
  split.
  { apply dashbuilder_typing_edits. }
  destruct (setContent_commit_spec p newContent s)
    as (o & sv & log & E & (N & _ & R) & _).
  rewrite E, dashbuilder_setContent_commit_spec. unfold calls. cbn [snd].
  cbn [newEdits readySignals]. rewrite N, R. repeat split.
Qed.

(** C4, counterexample: on a freshly mounted editor, before any content
    is set and with no widget on screen, [getContent] does not fail: the
    promise it returns is resolved. *)
Lemma C4_getContent_resolves_while_uninitialized :
  ServerlessWorkflowEditor.swfMonacoEditorRef
    (ServerlessWorkflowEditor.stateAfter (libs := braceLibs) []) = None
  /\ fails (completion (ServerlessWorkflowEditor.getContent
                          (ServerlessWorkflowEditor.stateAfter (libs := braceLibs) [])))
     = false
  /\ DashbuilderEditor.dashbuilderMonacoEditorRef
       (DashbuilderEditor.stateAfter true []) = None
  /\ fails (completion (DashbuilderEditor.getContent
                          (DashbuilderEditor.stateAfter true [])))
     = false.
Proof. repeat split. Qed.

(** C4, amended: [getContent] never fails its caller. In the
    ServerlessWorkflow editor it resolves to the widget's current buffer
    when the widget is on screen and to the empty string before that; in
    the Dashbuilder editor it resolves as well. *)
Theorem C4_getContent_never_fails :
  forall (s : ServerlessWorkflowEditor.State) (d : DashbuilderEditor.State),
    completion (ServerlessWorkflowEditor.getContent s) =
      Normal (Promise.resolve
                (currentBuffer (ServerlessWorkflowEditor.swfMonacoEditorRef s)))
    /\ fails (completion (ServerlessWorkflowEditor.getContent s)) = false
    /\ fails (completion (DashbuilderEditor.getContent d)) = false.
Proof.
  intros s d. rewrite getContent_spec, dashbuilder_getContent_spec.
  repeat split.
Qed.

(** C5: [getPreview] of the ServerlessWorkflow editor does throw. The
    element tree hands [svgContainer] to no element, so after any sequence
    of events, whatever content was set or typed, [svgContainer.current]
    is [null] and [getPreview] throws a TypeError instead of returning a
    placeholder. *)
Theorem C5_getPreview_throws_in_every_state :
  forall (libs : DiagramLibs) (evs : list ServerlessWorkflowEditor.Event),
    completion (ServerlessWorkflowEditor.getPreview
                  (ServerlessWorkflowEditor.stateAfter evs))
      = Throw (TypeError "Cannot read properties of null")
    /\ completion (ServerlessWorkflowEditor.getPreview
                     (ServerlessWorkflowEditor.stateAfter
                        (ServerlessWorkflowEditor.SetContent "hello.sw.json"
                           "not a workflow" :: evs)))
      = Throw (TypeError "Cannot read properties of null").
Proof.
  intros libs evs.
  split; rewrite getPreview_without_container;
    auto using stateAfter_container.
Qed.

(** An undo or redo that does not apply leaves the widget as it was. *)
Lemma undo_redo_noop {libs : DiagramLibs} (s : ServerlessWorkflowEditor.State) :
  (undoApplies (ServerlessWorkflowEditor.swfMonacoEditorRef s) = false ->
   ServerlessWorkflowEditor.swfMonacoEditorRef
     (after (ServerlessWorkflowEditor.undo s)) =
   ServerlessWorkflowEditor.swfMonacoEditorRef s)
  /\ (redoApplies (ServerlessWorkflowEditor.swfMonacoEditorRef s) = false ->
      ServerlessWorkflowEditor.swfMonacoEditorRef
        (after (ServerlessWorkflowEditor.redo s)) =
      ServerlessWorkflowEditor.swfMonacoEditorRef s).
Proof.
  destruct (undo_spec s) as (o & sv & log & E & _).
  destruct (redo_spec s) as (o' & sv' & log' & E' & _).
  rewrite E, E'. unfold after. cbn [fst snd ServerlessWorkflowEditor.swfMonacoEditorRef].
  split; intros H;
    destruct (ServerlessWorkflowEditor.swfMonacoEditorRef s)
      as [[name buffer [|previous older] [|next newer] th]|];
    try discriminate H; reflexivity.
Qed.

(** C6: an applied undo (redo) signals exactly one state-control command,
    UNDO (REDO), and an undo (redo) that is a no-op, for want of a widget
    or of history, signals none; the change handler turns each UNDO or
    REDO report of the widget into exactly that one command. *)
Theorem C6_one_command_per_applied_undo_redo :
  forall (libs : DiagramLibs)
         (s : ServerlessWorkflowEditor.State) (d : DashbuilderEditor.State)
         (newContent : string),
    stateControlCommands (calls (ServerlessWorkflowEditor.undo s))
      = (if undoApplies (ServerlessWorkflowEditor.swfMonacoEditorRef s)
         then [StateControlCommand.UNDO] else [])
    /\ stateControlCommands (calls (ServerlessWorkflowEditor.redo s))
      = (if redoApplies (ServerlessWorkflowEditor.swfMonacoEditorRef s)
         then [StateControlCommand.REDO] else [])
    /\ stateControlCommands (calls (DashbuilderEditor.undo d))
      = (if undoApplies (DashbuilderEditor.dashbuilderMonacoEditorRef d)
         then [StateControlCommand.UNDO] else [])
    /\ stateControlCommands (calls (DashbuilderEditor.redo d))
      = (if redoApplies (DashbuilderEditor.dashbuilderMonacoEditorRef d)
         then [StateControlCommand.REDO] else [])
    /\ stateControlCommands
         (calls (ServerlessWorkflowEditor.onContentChanged newContent
                   (Some MonacoEditorOperation.UNDO) s))
      = [StateControlCommand.UNDO]
    /\ stateControlCommands
         (calls (ServerlessWorkflowEditor.onContentChanged newContent
                   (Some MonacoEditorOperation.REDO) s))
      = [StateControlCommand.REDO]
    /\ stateControlCommands
         (calls (DashbuilderEditor.onContentChanged newContent
                   (Some MonacoEditorOperation.UNDO) d))
      = [StateControlCommand.UNDO]
    /\ stateControlCommands
         (calls (DashbuilderEditor.onContentChanged newContent
                   (Some MonacoEditorOperation.REDO) d))
      = [StateControlCommand.REDO].
Proof.
  intros libs s d newContent.
  split.
  { destruct (undo_spec s) as (o & sv & log & E & (_ & C & _) & _).
    rewrite E. unfold calls. cbn [snd].
    rewrite stateControlCommands_app, C, app_nil_r.
    destruct (ServerlessWorkflowEditor.swfMonacoEditorRef s)
      as [[name buffer [|previous older] redos th]|]; reflexivity. }
  split.
  { destruct (redo_spec s) as (o & sv & log & E & (_ & C & _) & _).
    rewrite E. unfold calls. cbn [snd].
    rewrite stateControlCommands_app, C, app_nil_r.
    destruct (ServerlessWorkflowEditor.swfMonacoEditorRef s)
      as [[name buffer undos [|next newer] th]|]; reflexivity. }
  split; [apply dashbuilder_undo_commands|].
  split; [apply dashbuilder_redo_commands|].
  split.
  { destruct (onContentChanged_spec newContent (Some MonacoEditorOperation.UNDO) s)
      as (o & sv & log & E & (_ & C & _) & _).
    rewrite E. unfold calls. cbn [snd].
    rewrite stateControlCommands_app, C. reflexivity. }
  split.
  { destruct (onContentChanged_spec newContent (Some MonacoEditorOperation.REDO) s)
      as (o & sv & log & E & (_ & C & _) & _).
    rewrite E. unfold calls. cbn [snd].
    rewrite stateControlCommands_app, C. reflexivity. }
  now rewrite !dashbuilder_onContentChanged_spec.
Qed.

(** C7: [undo], [redo], [validate] and [setTheme] succeed in every state of
    both editors, but they are not the only operations besides
    [setContent] and [getContent] that must: [getPreview] of the
    ServerlessWorkflow editor fails its caller in every state a mounted
    component can be in. *)
Theorem C7_getPreview_fails_beside_setContent_and_getContent :
  forall (libs : DiagramLibs)
         (s : ServerlessWorkflowEditor.State) (d : DashbuilderEditor.State)
         (theme : EditorTheme) (evs : list ServerlessWorkflowEditor.Event),
    (fails (completion (ServerlessWorkflowEditor.undo s)) = false
     /\ fails (completion (ServerlessWorkflowEditor.redo s)) = false
     /\ completion (ServerlessWorkflowEditor.validate s) = Normal []
     /\ fails (completion (ServerlessWorkflowEditor.setTheme theme s)) = false)
    /\ (fails (completion (DashbuilderEditor.undo d)) = false
        /\ fails (completion (DashbuilderEditor.redo d)) = false
        /\ completion (DashbuilderEditor.validate d) = Normal []
        /\ fails (completion (DashbuilderEditor.setTheme theme d)) = false)
    /\ fails (completion (ServerlessWorkflowEditor.getPreview
                            (ServerlessWorkflowEditor.stateAfter evs))) = true.
Proof.
  intros libs s d theme evs.
  split; [|split].
  - destruct (undo_spec s) as (o & sv & log & E & _).
    destruct (redo_spec s) as (o' & sv' & log' & E' & _).
    rewrite E, E', setTheme_spec. repeat split.
  - rewrite dashbuilder_undo_succeeds, dashbuilder_redo_succeeds,
      dashbuilder_setTheme_spec. repeat split.
  - now rewrite getPreview_without_container by apply stateAfter_container.
Qed.

(** C8: [setTheme] is idempotent: applied a second time with the same
    theme it changes nothing, calls nothing and resolves again. *)
Theorem C8_setTheme_idempotent :
  forall (s : ServerlessWorkflowEditor.State) (d : DashbuilderEditor.State)
         (theme : EditorTheme),
    ServerlessWorkflowEditor.setTheme theme
      (after (ServerlessWorkflowEditor.setTheme theme s)) =
      (Normal (Promise.resolve tt),
       after (ServerlessWorkflowEditor.setTheme theme s), [])
    /\ DashbuilderEditor.setTheme theme
         (after (DashbuilderEditor.setTheme theme d)) =
         (Normal (Promise.resolve tt),
          after (DashbuilderEditor.setTheme theme d), []).
Proof.
  intros s d theme. split.
  - rewrite !setTheme_spec. unfold after.
    cbn [fst snd ServerlessWorkflowEditor.initialContent
         ServerlessWorkflowEditor.diagramOutOfSync
         ServerlessWorkflowEditor.svgContainer
         ServerlessWorkflowEditor.swfMonacoEditorRef].
    now rewrite setTheme_twice.
  - rewrite !dashbuilder_setTheme_spec. unfold after.
    cbn [fst snd DashbuilderEditor.initialContent DashbuilderEditor.content
         DashbuilderEditor.showPreview DashbuilderEditor.newContentRef
         DashbuilderEditor.oldContentRef
         DashbuilderEditor.dashbuilderMonacoEditorRef].
    now rewrite setTheme_twice.
Qed.

(** C9: in the Dashbuilder editor [getContent] resolves to the empty string
    in every state, and leaves the state alone; so it does after content
    was set and the user typed, when the widget is on screen and its buffer
    is not empty. *)
Theorem C9_dashbuilder_getContent_always_empty :
  (forall d : DashbuilderEditor.State,
      DashbuilderEditor.getContent d = (Normal (Promise.resolve ""), d, []))
  /\ mounted (DashbuilderEditor.dashbuilderMonacoEditorRef
                (DashbuilderEditor.stateAfter true
                   [DashbuilderEditor.SetContent "dashboard.dash.yml" "pages: []";
                    DashbuilderEditor.Typing "pages: [x]"])) = true
  /\ currentBuffer (DashbuilderEditor.dashbuilderMonacoEditorRef
                      (DashbuilderEditor.stateAfter true
                         [DashbuilderEditor.SetContent "dashboard.dash.yml" "pages: []";
                          DashbuilderEditor.Typing "pages: [x]"])) = "pages: [x]"
  /\ completion
       (DashbuilderEditor.getContent
          (DashbuilderEditor.stateAfter true
             [DashbuilderEditor.SetContent "dashboard.dash.yml" "pages: []";
              DashbuilderEditor.Typing "pages: [x]"]))
     = Normal (Promise.resolve "").
Proof.
  split; [exact dashbuilder_getContent_spec|].
  repeat split.
Qed.

(* ===================================================================== *)
(** * EnvUtil: first use and recording *)
(* ===================================================================== *)

Section EnvUtilFirstUse.
Import EnvUtil.

Lemma anyFrame_self_junit caller :
  anyFrame junitFrame (SELF :: caller) = anyFrame junitFrame caller.
Proof. reflexivity. Qed.

Lemma anyFrame_self_devMode caller :
  anyFrame devModeFrame (SELF :: caller) = anyFrame devModeFrame caller.
Proof. reflexivity. Qed.

(** X1: on first use, with every cache still null, [isProdMode()] answers
    true exactly when no frame of the caller's stack is a dev-mode frame and
    none is a JUnit frame; the frames [EnvUtil] itself adds do not count. *)
Theorem X1_isProdMode_first_use :
  forall caller : StackTrace,
    fst (isProdMode caller clinit) =
      negb (anyFrame devModeFrame caller) && negb (anyFrame junitFrame caller).
Proof.
  intros caller. unfold isProdMode, isDevMode, isJUnitTest, clinit.
  cbn [_isProdMode _isDevMode _isJUnitTest].
  rewrite !anyFrame_self_devMode.
  destruct (anyFrame devModeFrame caller); cbn [negb fst snd andb].
  - reflexivity.
  - now rewrite !anyFrame_self_junit.
Qed.

(** X2: after [recordEnvironmentState()], whatever ran before, the three
    caches are filled, the recorded prod mode is the conjunction of the
    negated other two, and every later call of the three predicates, from
    any stack and after any further calls, returns the recorded values. *)
Theorem X2_recordEnvironmentState_fixes_all :
  forall (history : list (Method * StackTrace)) (caller : StackTrace),
    let s := recordEnvironmentState caller (run history clinit) in
    exists j d : bool,
      _isJUnitTest s = Some j
      /\ _isDevMode s = Some d
      /\ _isProdMode s = Some (negb d && negb j)
      /\ forall (later : list (Method * StackTrace)) (e : StackTrace),
           fst (isJUnitTest e (run later s)) = j
           /\ fst (isDevMode e (run later s)) = d
           /\ fst (isProdMode e (run later s)) = negb d && negb j.
Proof.
  intros history caller s.
  set (s0 := run history clinit) in *.
  set (s1 := snd (isJUnitTest (SELF :: caller) s0)).
  set (s2 := snd (isDevMode (SELF :: caller) s1)).
  assert (S : s = snd (isProdMode (SELF :: caller) s2)) by reflexivity.
  pose proof (isJUnitTest_caches (SELF :: caller) s0) as CJ. fold s1 in CJ.
  pose proof (isDevMode_caches (SELF :: caller) s1) as CD. fold s2 in CD.
  pose proof (isProdMode_caches (SELF :: caller) s2) as CP. rewrite <- S in CP.
  destruct (isDevMode_keeps (SELF :: caller)) as (DJ & _ & _).
  destruct (isProdMode_keeps (SELF :: caller)) as (PJ & PD & _).
  pose proof (PJ _ _ (DJ _ _ CJ)) as J. pose proof (PD _ _ CD) as D.
  cbv beta in J, D. fold s2 in J. rewrite <- S in J, D.
  assert (A : prodModeAgrees s).
  { rewrite S. apply isProdMode_agrees, isDevMode_agrees, isJUnitTest_agrees,
      run_agrees, clinit_agrees. }
  assert (P : _isProdMode s =
              Some (negb (fst (isDevMode (SELF :: caller) s1))
                    && negb (fst (isJUnitTest (SELF :: caller) s0)))).
  { unfold prodModeAgrees in A. rewrite CP in *. rewrite J, D in A.
    destruct (fst (isProdMode (SELF :: caller) s2)).
    - destruct A as [E1 E2]. injection E1 as ->. injection E2 as ->. reflexivity.
    - destruct A as [E | E]; injection E as ->; [reflexivity|].
      now rewrite andb_false_r. }
  exists (fst (isJUnitTest (SELF :: caller) s0)),
         (fst (isDevMode (SELF :: caller) s1)).
  repeat split; auto.
  - now apply later_isJUnitTest.
  - now apply later_isDevMode.
  - now apply later_isProdMode.
Qed.

(** X3: [isProdMode()] called first, from inside the dev-mode shell, answers
    false without asking [isJUnitTest()]: the JUnit cache stays null, and
    the next [isJUnitTest()] decides from its own stack. *)
Theorem X3_isProdMode_in_dev_mode_skips_junit :
  forall caller : StackTrace,
    anyFrame devModeFrame caller = true ->
    fst (isProdMode caller clinit) = false
    /\ _isDevMode (snd (isProdMode caller clinit)) = Some true
    /\ _isJUnitTest (snd (isProdMode caller clinit)) = None
    /\ forall e : StackTrace,
         fst (isJUnitTest e (snd (isProdMode caller clinit))) =
           anyFrame junitFrame e.
Proof.
  intros caller H. unfold isProdMode, isDevMode, clinit.
  cbn [_isProdMode _isDevMode _isJUnitTest].
  rewrite anyFrame_self_devMode, anyFrame_self_devMode, H.
  cbn [negb fst snd _isDevMode _isJUnitTest].
  split; [reflexivity|]. split; [reflexivity|]. split; [reflexivity|].
  intros e. unfold isJUnitTest. cbn [_isJUnitTest fst].
  apply anyFrame_self_junit.
Qed.

Lemma X3_witness :
  fst (isProdMode ["com.google.gwt.dev.shell.OophmSessionHandler"] clinit) = false
  /\ fst (isJUnitTest ["org.junit.runners.ParentRunner"]
            (snd (isProdMode ["com.google.gwt.dev.shell.OophmSessionHandler"] clinit)))
     = true.
Proof.
  destruct (X3_isProdMode_in_dev_mode_skips_junit
              ["com.google.gwt.dev.shell.OophmSessionHandler"] eq_refl)
    as (P & _ & _ & J).
  split; [exact P|]. rewrite J. reflexivity.
Defined.

End EnvUtilFirstUse.

(* ===================================================================== *)
(** * Invariants of computations *)
(* ===================================================================== *)

Section Preserves.
Context {S : Type} (inv : S -> Prop).

Lemma preserves_ret {A : Type} (a : A) : preserves inv (ret a).
Proof. intros s H. exact H. Qed.

Lemma preserves_throw {A : Type} (e : JsError) : preserves inv (throw (A := A) e).
Proof. intros s H. exact H. Qed.

Lemma preserves_gets {A : Type} (f : S -> A) : preserves inv (gets f).
Proof. intros s H. exact H. Qed.

Lemma preserves_call (c : Call) : preserves inv (call c).
Proof. intros s H. exact H. Qed.

Lemma preserves_deref {A : Type} (current : S -> option A) :
  preserves inv (deref current).
Proof. intros s H. unfold deref, after. now destruct (current s). Qed.

Lemma preserves_modify (f : S -> S) :
  (forall s, inv s -> inv (f s)) -> preserves inv (modify f).
Proof. intros F s H. apply F, H. Qed.

Lemma preserves_bind {A B : Type} (m : M S A) (k : A -> M S B) :
  preserves inv m -> (forall a, preserves inv (k a)) -> preserves inv (bind m k).
Proof.
  intros Hm Hk s H. specialize (Hm s H). unfold bind, after in *.
  destruct (m s) as [[[a|e] s1] l1]; cbn [fst snd] in *.
  - specialize (Hk a s1 Hm). unfold after in Hk.
    destruct (k a s1) as [[r s2] l2]. exact Hk.
  - exact Hm.
Qed.

Lemma preserves_try_catch {A : Type} (m : M S A) (handler : JsError -> M S A) :
  preserves inv m -> (forall e, preserves inv (handler e)) ->
  preserves inv (try_catch m handler).
Proof.
  intros Hm Hh s H. specialize (Hm s H). unfold try_catch, after in *.
  destruct (m s) as [[[a|e] s1] l1]; cbn [fst snd] in *.
  - exact Hm.
  - specialize (Hh e s1 Hm). unfold after in Hh.
    destruct (handler e s1) as [[r s2] l2]. exact Hh.
Qed.

(** Behind a [current!] that is null under the invariant nothing runs. *)
Lemma preserves_behind_null {A B : Type} (current : S -> option A)
    (k : A -> M S B) :
  (forall s, inv s -> current s = None) ->
  preserves inv (bind (deref current) k).
Proof.
  intros N s H. unfold bind, deref, after. now rewrite (N s H).
Qed.

End Preserves.

(* ===================================================================== *)
(** * ServerlessWorkflowEditor: what a mounted component keeps *)
(* ===================================================================== *)

Section SwfKept.
Context {libs : DiagramLibs}.
Import ServerlessWorkflowEditor.

Lemma setDiagramOutOfSync_true_degrades :
  preserves swfDegraded (setDiagramOutOfSync true).
Proof. intros s [C _]. split; [exact C | reflexivity]. Qed.

Lemma set_swfMonacoEditorRef_degraded v :
  preserves swfDegraded (set_swfMonacoEditorRef v).
Proof. intros s H. exact H. Qed.

Lemma setInitialContent_degraded v : preserves swfDegraded (setInitialContent v).
Proof. intros s H. exact H. Qed.

Lemma onContentChanged_degraded newContent operation :
  preserves swfDegraded (onContentChanged newContent operation).
Proof.
  unfold onContentChanged. apply preserves_bind.
  - destruct operation as [[| |]|];
      first [apply preserves_call | apply preserves_ret].
  - intros _. apply preserves_try_catch.
    + apply preserves_bind.
      * destruct (fromSource newContent);
          first [apply preserves_throw | apply preserves_ret].
      * intros workflow. apply preserves_bind.
        -- destruct (states workflow); [destruct (sourceCode workflow)|];
             first [apply preserves_throw | apply preserves_ret].
        -- intros code. destruct (Nat.ltb 0 (String.length code));
             apply preserves_behind_null; now intros s [C _].
    + intros e. apply preserves_bind.
      * apply preserves_call.
      * intros _. apply setDiagramOutOfSync_true_degrades.
Qed.

(** The change handler leaves a component without preview container marked
    out of sync, whatever the flag was. *)
Lemma onContentChanged_marks newContent operation s :
  svgContainer s = None ->
  swfDegraded (after (onContentChanged newContent operation s)).
Proof.
  intros C.
  unfold onContentChanged, setInitialContent, setDiagramOutOfSync, set_svgContainer.
  destruct operation as [[| |]|]; step_through;
    repeat match goal with
      | |- context [fromSource ?x] => destruct (fromSource x); simpl
      | |- context [states ?w] => destruct (states w); simpl
      | |- context [sourceCode ?w] => destruct (sourceCode w); simpl
      | |- context [Nat.ltb 0 ?n] => destruct (Nat.ltb 0 n); simpl
      end;
    rewrite ?C; simpl; split; (exact C || reflexivity).
Qed.

Lemma deliver_degraded report : preserves swfDegraded (deliver report).
Proof.
  destruct report as [[newContent operation]|]; simpl.
  - apply onContentChanged_degraded.
  - apply preserves_ret.
Qed.

Lemma effect_degraded : preserves swfDegraded effect.
Proof.
  unfold effect. apply preserves_bind; [apply preserves_call|].
  intros _. apply preserves_bind; [apply preserves_gets|].
  intros ic. apply onContentChanged_degraded.
Qed.

Lemma render_degraded : preserves swfDegraded render.
Proof.
  unfold render. apply preserves_bind; [apply preserves_gets|].
  intros ic. apply preserves_bind; [apply preserves_gets|].
  intros previous. destruct (String.eqb (path ic) "");
    apply set_swfMonacoEditorRef_degraded.
Qed.

Lemma commit_degraded : preserves swfDegraded commit.
Proof.
  unfold commit. apply preserves_bind; [apply render_degraded|].
  intros _. apply effect_degraded.
Qed.

Lemma settled_preserves {A : Type} (inv : State -> Prop) (m : M State A) :
  preserves inv m -> preserves inv (settled m).
Proof. intros H s I. rewrite settled_after. apply H, I. Qed.

Lemma handle_degraded ev : preserves swfDegraded (handle ev).
Proof.
  destruct ev as [p c| | | | | |theme|newContent|]; unfold handle;
    apply settled_preserves.
  - apply preserves_bind; [|intros _; apply commit_degraded].
    unfold setContent. apply preserves_try_catch.
    + apply preserves_bind; [apply setInitialContent_degraded|].
      intros _. apply preserves_ret.
    + intros e. apply preserves_bind; [apply preserves_call|].
      intros _. apply preserves_ret.
  - unfold getContent. apply preserves_bind; [apply preserves_gets|].
    intros current. apply preserves_ret.
  - unfold getPreview. apply preserves_behind_null. now intros s [C _].
  - unfold undo. apply preserves_bind; [apply preserves_gets|].
    intros [w|]; [|apply preserves_ret].
    apply preserves_bind; [apply set_swfMonacoEditorRef_degraded|].
    intros _. apply preserves_bind; [apply deliver_degraded|].
    intros _. apply preserves_ret.
  - unfold redo. apply preserves_bind; [apply preserves_gets|].
    intros [w|]; [|apply preserves_ret].
    apply preserves_bind; [apply set_swfMonacoEditorRef_degraded|].
    intros _. apply preserves_bind; [apply deliver_degraded|].
    intros _. apply preserves_ret.
  - apply preserves_ret.
  - unfold setTheme. apply preserves_bind; [apply preserves_gets|].
    intros [w|]; [|apply preserves_ret].
    apply preserves_bind; [apply set_swfMonacoEditorRef_degraded|].
    intros _. apply preserves_ret.
  - unfold typing. apply preserves_bind; [apply preserves_gets|].
    intros [w|]; [|apply preserves_ret].
    apply preserves_bind; [apply set_swfMonacoEditorRef_degraded|].
    intros _. apply deliver_degraded.
  - apply effect_degraded.
Qed.

Lemma handleAll_preserves (inv : State -> Prop) evs :
  (forall ev, preserves inv (handle ev)) -> preserves inv (handleAll evs).
Proof.
  intros H. induction evs as [|ev rest IH]; simpl.
  - apply preserves_ret.
  - apply preserves_bind; [apply H | intros _; exact IH].
Qed.

Lemma effect_marks s :
  svgContainer s = None -> swfDegraded (after (effect s)).
Proof.
  intros C.
  pose proof (onContentChanged_marks (originalContent (initialContent s)) None s C)
    as K.
  unfold effect, bind, call, gets, after in *. cbv beta iota zeta.
  destruct (onContentChanged (originalContent (initialContent s)) None s)
    as [[r s1] l1]. exact K.
Qed.

Lemma render_initial : render initial = (Normal tt, initial, []).
Proof. reflexivity. Qed.

Lemma mount_degraded : swfDegraded (after (mount initial)).
Proof.
  pose proof (effect_marks initial eq_refl) as K.
  unfold mount, commit, bind, after in *. rewrite render_initial.
  cbv beta iota zeta.
  destruct (effect initial) as [[r s1] l1]. exact K.
Qed.

(** X4: in every state a mounted ServerlessWorkflow editor can be in, the
    diagram is marked out of sync: the flag is raised by the effect of the
    first render and nothing clears it, since the only statement that
    does sits behind the null preview container. *)
Theorem X4_diagram_always_out_of_sync :
  forall evs : list Event, diagramOutOfSync (stateAfter evs) = true.
Proof.
  intros evs. unfold stateAfter.
  pose proof mount_degraded as K.
  pose proof (handleAll_preserves swfDegraded evs handle_degraded) as H.
  assert (P : preserves swfDegraded (fun s => handleAll evs s)) by exact H.
  unfold bind, after in *.
  destruct (mount initial) as [[[r|e] s1] l1]; cbn [fst snd] in *.
  - specialize (H s1 K). unfold after in H.
    destruct (handleAll evs s1) as [[r2 s2] l2]. exact (proj2 H).
  - exact (proj2 K).
Qed.

End SwfKept.

(* ===================================================================== *)
(** * ServerlessWorkflowEditor: whole runs *)
(* ===================================================================== *)

Section Runs.
Context {S : Type}.

Lemma bind_after {A B : Type} (m : M S A) (k : A -> M S B) s a :
  completion (m s) = Normal a ->
  after (bind m k s) = after (k a (after (m s))).
Proof.
  unfold bind, completion, after. destruct (m s) as [[r s1] l1].
  cbn [fst snd]. intros ->. now destruct (k a s1) as [[r2 s2] l2].
Qed.

Lemma bind_calls {A B : Type} (m : M S A) (k : A -> M S B) s a :
  completion (m s) = Normal a ->
  calls (bind m k s) = calls (m s) ++ calls (k a (after (m s))).
Proof.
  unfold bind, completion, after, calls. destruct (m s) as [[r s1] l1].
  cbn [fst snd]. intros ->. now destruct (k a s1) as [[r2 s2] l2].
Qed.

End Runs.

Section SwfRuns.
Context {libs : DiagramLibs}.
Import ServerlessWorkflowEditor.

Lemma settled_calls {A : Type} (m : M State A) s :
  calls (settled m s) = calls (m s).
Proof. unfold settled, calls. now destruct (m s) as [[r s1] l1]. Qed.

Lemma mounted_option_map (f : Monaco.t -> Monaco.t) current :
  mounted (option_map f current) = mounted current.
Proof. now destruct current. Qed.

Lemma silent_counts X log :
  silent log ->
  readySignals (X ++ log) = readySignals X
  /\ newEdits (X ++ log) = newEdits X
  /\ stateControlCommands (X ++ log) = stateControlCommands X.
Proof.
  intros (N & C & R).
  rewrite readySignals_app, newEdits_app, stateControlCommands_app, N, C, R.
  now rewrite Nat.add_0_r, !app_nil_r.
Qed.

Lemma delivered_counts report :
  readySignals (delivered report) = 0
  /\ (forall w, report = snd (Monaco.undo w) -> newEdits (delivered report) = [])
  /\ (forall w, report = snd (Monaco.redo w) -> newEdits (delivered report) = []).
Proof.
  split; [destruct report as [[c [| |]]|]; reflexivity|].
  split; intros w ->.
  - unfold Monaco.undo. now destruct (Monaco.undoStack w).
  - unfold Monaco.redo. now destruct (Monaco.redoStack w).
Qed.

(** One event: what it does to the path and the widget, and what it tells
    the host about readiness and edits. *)
Lemma handle_step ev s :
  path (initialContent (after (handle ev s))) =
    match ev with
    | SetContent p _ => p
    | _ => path (initialContent s)
    end
  /\ mounted (swfMonacoEditorRef (after (handle ev s))) =
       swfOnScreenAfter (mounted (swfMonacoEditorRef s)) ev
  /\ readySignals (calls (handle ev s)) = swfEffectRuns ev
  /\ newEdits (calls (handle ev s)) =
       match ev with
       | Typing newContent =>
           if mounted (swfMonacoEditorRef s) then [mkKogitoEdit newContent] else []
       | _ => []
       end.
Proof.
  destruct ev as [p c| | | | | |theme|newContent|]; unfold handle;
    rewrite settled_after, settled_calls; cbn [swfOnScreenAfter swfEffectRuns].
  - destruct (setContent_commit_spec p c s) as (o & sv & log & E & Sil & _).
    rewrite E. unfold after, calls. cbn [fst snd path initialContent swfMonacoEditorRef].
    destruct (silent_counts [onReady] log Sil) as (R & N & _).
    change (onReady :: log) with ([onReady] ++ log). rewrite R, N.
    repeat split. now destruct (String.eqb p "").
  - rewrite getContent_spec. repeat split.
  - unfold getPreview, bind, deref, after, calls.
    destruct (svgContainer s); repeat split.
  - destruct (undo_spec s) as (o & sv & log & E & Sil & _). rewrite E.
    unfold after, calls. cbn [fst snd path initialContent swfMonacoEditorRef].
    destruct (silent_counts
                (match swfMonacoEditorRef s with
                 | Some w => delivered (snd (Monaco.undo w))
                 | None => []
                 end) log Sil) as (R & N & _).
    rewrite R, N, mounted_option_map.
    destruct (swfMonacoEditorRef s) as [w|]; [|repeat split].
    destruct (delivered_counts (snd (Monaco.undo w))) as (R' & N' & _).
    rewrite R', (N' w eq_refl). repeat split.
  - destruct (redo_spec s) as (o & sv & log & E & Sil & _). rewrite E.
    unfold after, calls. cbn [fst snd path initialContent swfMonacoEditorRef].
    destruct (silent_counts
                (match swfMonacoEditorRef s with
                 | Some w => delivered (snd (Monaco.redo w))
                 | None => []
                 end) log Sil) as (R & N & _).
    rewrite R, N, mounted_option_map.
    destruct (swfMonacoEditorRef s) as [w|]; [|repeat split].
    destruct (delivered_counts (snd (Monaco.redo w))) as (R' & _ & N').
    rewrite R', (N' w eq_refl). repeat split.
  - repeat split.
  - rewrite setTheme_spec. unfold after, calls.
    cbn [fst snd path initialContent swfMonacoEditorRef].
    rewrite mounted_option_map. repeat split.
  - destruct (typing_spec newContent s) as (o & sv & log & E & Sil & _). rewrite E.
    unfold after, calls. cbn [fst snd path initialContent swfMonacoEditorRef].
    destruct (silent_counts
                (if mounted (swfMonacoEditorRef s)
                 then [onNewEdit (mkKogitoEdit newContent)] else []) log Sil)
      as (R & N & _).
    rewrite R, N, mounted_option_map.
    destruct (mounted (swfMonacoEditorRef s)); repeat split.
  - destruct (effect_spec s) as (o & sv & log & E & Sil & _). rewrite E.
    unfold after, calls. cbn [fst snd path initialContent swfMonacoEditorRef].
    destruct (silent_counts [onReady] log Sil) as (R & N & _).
    change (onReady :: log) with ([onReady] ++ log). rewrite R, N.
    repeat split.
Qed.

Lemma handle_follows ev : preserves swfWidgetFollowsPath (handle ev).
Proof.
  intros s H. unfold swfWidgetFollowsPath in *.
  destruct (handle_step ev s) as (P & W & _). rewrite P, W.
  destruct ev; cbn [swfOnScreenAfter]; auto.
Qed.

Lemma handleAll_counts evs : forall s,
  readySignals (calls (handleAll evs s)) = swfEffectRunsIn evs
  /\ newEdits (calls (handleAll evs s)) =
       swfTyped (mounted (swfMonacoEditorRef s)) evs.
Proof.
  induction evs as [|ev rest IH]; intros s; [split; reflexivity|].
  destruct (handle_step ev s) as (_ & W & R & N).
  specialize (IH (after (handle ev s))). destruct IH as (IHR & IHN).
  change (handleAll (ev :: rest)) with (handle ev ;; handleAll rest).
  rewrite (bind_calls _ _ s tt (handle_normal ev s)).
  rewrite readySignals_app, newEdits_app, R, N, IHR, IHN, W.
  split; [reflexivity|].
  destruct ev; cbn [swfTyped swfOnScreenAfter app]; try reflexivity.
Qed.

Lemma mount_normal : completion (mount initial) = Normal tt.
Proof.
  destruct (commit_spec initial) as (o & sv & log & E & _).
  unfold mount. now rewrite E.
Qed.

(** X5: content that does not parse never makes the change handler throw
    and never touches the preview container: the handler reports the
    operation, logs the parser's error and marks the diagram out of sync. *)
Theorem X5_unparsable_content_degrades_preview :
  forall (newContent : string) (operation : option MonacoEditorOperation.t)
         (s : State) (e : JsError),
    fromSource newContent = inl e ->
    onContentChanged newContent operation s =
      (Normal tt,
       mkState (initialContent s) true (svgContainer s) (swfMonacoEditorRef s),
       reported newContent operation ++ [console_error e]).
Proof.
  intros newContent operation s e H.
  unfold onContentChanged, setDiagramOutOfSync.
  destruct operation as [[| |]|]; step_through; rewrite H; reflexivity.
Qed.

(** X7: in every state a mounted ServerlessWorkflow editor can be in, the
    widget is on screen exactly when the stored path is not the empty
    string. *)
Theorem X7_widget_on_screen_iff_path :
  forall evs : list Event,
    mounted (swfMonacoEditorRef (stateAfter evs)) =
      negb (String.eqb (path (initialContent (stateAfter evs))) "").
Proof.
  intros evs. unfold stateAfter.
  rewrite (bind_after _ _ initial tt mount_normal).
  apply (handleAll_preserves swfWidgetFollowsPath evs handle_follows).
  destruct (commit_spec initial) as (o & sv & log & E & _).
  unfold mount. rewrite E. reflexivity.
Qed.

(** X8: the host is told [onReady] once when the editor is mounted and once
    more after every [setContent] and every change of [props], and at no
    other time. *)
Theorem X8_ready_once_per_effect_run :
  forall evs : list Event,
    readySignals (swfLog evs) = 1 + swfEffectRunsIn evs.
Proof.
  intros evs. unfold swfLog.
  rewrite (bind_calls _ _ initial tt mount_normal), readySignals_app.
  destruct (handleAll_counts evs (after (mount initial))) as (R & _). rewrite R.
  destruct (commit_spec initial) as (o & sv & log & E & Sil & _).
  unfold mount. rewrite E. unfold calls. cbn [snd].
  change (onReady :: log) with ([onReady] ++ log).
  destruct (silent_counts [onReady] log Sil) as (R' & _). now rewrite R'.
Qed.

(** X9: over a whole run the new-edit notifications are exactly the texts
    the user typed while the widget was on screen, in order:
    [setContent], [getContent], [getPreview], [undo], [redo], [validate],
    [setTheme] and changes of [props] add none. *)
Theorem X9_edits_are_the_typed_texts :
  forall evs : list Event,
    newEdits (swfLog evs) = swfTyped false evs.
Proof.
  intros evs. unfold swfLog.
  rewrite (bind_calls _ _ initial tt mount_normal), newEdits_app.
  destruct (handleAll_counts evs (after (mount initial))) as (_ & N). rewrite N.
  destruct (commit_spec initial) as (o & sv & log & E & Sil & _).
  unfold mount. rewrite E. unfold calls, after. cbn [fst snd swfMonacoEditorRef].
  change (onReady :: log) with ([onReady] ++ log).
  destruct (silent_counts [onReady] log Sil) as (_ & N' & _). now rewrite N'.
Qed.

End SwfRuns.

Lemma X5_witness :
  ServerlessWorkflowEditor.onContentChanged (libs := braceLibs) "oops"
    (Some MonacoEditorOperation.EDIT) ServerlessWorkflowEditor.initial =
    (Normal tt,
     ServerlessWorkflowEditor.mkState
       (ServerlessWorkflowEditor.mkInitialContent "" "") true None None,
     [onNewEdit (mkKogitoEdit "oops"); console_error (Error "Unexpected token")]).
Proof.
  exact (X5_unparsable_content_degrades_preview (libs := braceLibs) "oops"
           (Some MonacoEditorOperation.EDIT) ServerlessWorkflowEditor.initial
           (Error "Unexpected token") eq_refl).
Defined.

(** X6: in the ServerlessWorkflow editor, content set under a path that is
    not empty comes back from [getContent]; set under the empty path it
    does not, no widget being rendered for it: [getContent] then resolves
    to the empty string. *)
Theorem X6_swf_round_trip_needs_a_path :
  forall (libs : DiagramLibs) (s : ServerlessWorkflowEditor.State)
         (p newContent : string),
    swfRoundTrip s p newContent =
      Normal (Promise.resolve (if String.eqb p "" then "" else newContent))
    /\ swfRoundTrip s "" newContent = Normal (Promise.resolve "").
Proof.
  intros libs s p newContent. now rewrite !swf_round_trip.
Qed.

(* ===================================================================== *)
(** * DashbuilderEditor: the timer and whole runs *)
(* ===================================================================== *)

Section DashbuilderRuns.
Import DashbuilderEditor.

Lemma interval_spec :
  forall s : State,
    let s' := after (interval s) in
    content s' = newContentRef s
    /\ oldContentRef s' = newContentRef s
    /\ newContentRef s' = newContentRef s
    /\ initialContent s' = initialContent s
    /\ dashbuilderMonacoEditorRef s' = dashbuilderMonacoEditorRef s
    /\ calls (interval s) = []
    /\ interval s' = (Normal tt, s', []).
Proof.
  intros s. unfold interval, set_oldContentRef, setContent_state.
  unfold bind, gets, modify, ret, after, calls.
  cbn [fst snd newContentRef oldContentRef content].
  destruct (String.eqb (newContentRef s) (oldContentRef s)) eqn:E1;
    cbn [negb fst snd app newContentRef oldContentRef content
         initialContent dashbuilderMonacoEditorRef].
  - apply String.eqb_eq in E1.
    destruct (String.eqb (content s) (oldContentRef s)) eqn:E2;
      cbn [negb fst snd app newContentRef oldContentRef content
           initialContent dashbuilderMonacoEditorRef].
    + apply String.eqb_eq in E2. rewrite E1, String.eqb_refl.
      cbn [negb]. rewrite E2, String.eqb_refl. cbn [negb].
      repeat split; congruence.
    + rewrite E1, !String.eqb_refl. cbn [negb]. repeat split; congruence.
  - rewrite !String.eqb_refl. cbn [negb]. repeat split.
Qed.


(** X11: whatever the widget reports, with or without an operation, the
    next tick of the timer shows exactly that content in the preview. *)
Theorem X11_reported_content_reaches_preview :
  forall (newContent : string) (operation : option MonacoEditorOperation.t)
         (s : State),
    content (after ((onContentChanged newContent operation ;; interval) s)) =
      newContent.
Proof.
  intros newContent operation s.
  rewrite (bind_after _ _ s tt)
    by now rewrite dashbuilder_onContentChanged_spec.
  destruct (interval_spec
              (after (onContentChanged newContent operation s))) as (C & _).
  rewrite C, dashbuilder_onContentChanged_spec. reflexivity.
Qed.

Lemma dashbuilder_settled_after {A : Type} (m : M State A) s :
  after (settled m s) = after (m s).
Proof. unfold settled, after. now destruct (m s) as [[r s1] l1]. Qed.

Lemma dashbuilder_settled_calls {A : Type} (m : M State A) s :
  calls (settled m s) = calls (m s).
Proof. unfold settled, calls. now destruct (m s) as [[r s1] l1]. Qed.

Lemma dashbuilder_handle_normal ev s : completion (handle ev s) = Normal tt.
Proof.
  destruct ev; unfold handle, settled, completion;
    match goal with |- context [match ?m s with _ => _ end] =>
      now destruct (m s) as [[r s1] l1] end.
Qed.

(** One event of the Dashbuilder editor. *)
Lemma dashbuilder_handle_step ev s :
  path (initialContent (after (handle ev s))) =
    match ev with
    | SetContent p _ => p
    | _ => path (initialContent s)
    end
  /\ originalContent (initialContent (after (handle ev s))) =
       match ev with
       | SetContent _ _ => INITIAL_CONTENT
       | _ => originalContent (initialContent s)
       end
  /\ mounted (dashbuilderMonacoEditorRef (after (handle ev s))) =
       dashbuilderOnScreenAfter (mounted (dashbuilderMonacoEditorRef s)) ev
  /\ readySignals (calls (handle ev s)) = dashbuilderEffectRuns ev
  /\ newEdits (calls (handle ev s)) =
       match ev with
       | Typing newContent =>
           if mounted (dashbuilderMonacoEditorRef s)
           then [mkKogitoEdit newContent] else []
       | _ => []
       end.
Proof.
  destruct ev as [p c| | | | | |theme|newContent| |v|]; unfold handle;
    rewrite dashbuilder_settled_after, dashbuilder_settled_calls;
    cbn [dashbuilderOnScreenAfter dashbuilderEffectRuns].
  - rewrite dashbuilder_setContent_commit_spec. unfold after, calls.
    cbn [fst snd path originalContent initialContent dashbuilderMonacoEditorRef].
    repeat split. now destruct (String.eqb p "").
  - rewrite dashbuilder_getContent_spec. repeat split.
  - repeat split.
  - unfold undo, bind, gets, after, calls.
    destruct (dashbuilderMonacoEditorRef s)
      as [[name buffer [|previous older] redos th]|] eqn:W;
      cbn; rewrite ?W; repeat split.
  - unfold redo, bind, gets, after, calls.
    destruct (dashbuilderMonacoEditorRef s)
      as [[name buffer undos [|next newer] th]|] eqn:W;
      cbn; rewrite ?W; repeat split.
  - repeat split.
  - rewrite dashbuilder_setTheme_spec. unfold after, calls.
    cbn [fst snd path originalContent initialContent dashbuilderMonacoEditorRef].
    now destruct (dashbuilderMonacoEditorRef s).
  - unfold typing, bind, gets, after, calls.
    destruct (dashbuilderMonacoEditorRef s) as [w|] eqn:W;
      cbn; rewrite ?W; repeat split.
  - destruct (interval_spec s) as (_ & _ & _ & I & W & L & _).
    cbv zeta in I, W. rewrite I, W, L. repeat split.
  - unfold onPreviewChange, effect_showPreview, setShowPreview.
    unfold bind, gets, modify, ret, call, after, calls.
    cbn [fst snd showPreview].
    destruct (Bool.eqb (showPreview s) v); cbn; repeat split.
  - unfold effect_showPreview, effect, onContentChanged, set_newContentRef.
    unfold bind, gets, modify, ret, call, after, calls. cbn. repeat split.
Qed.

Lemma dashbuilder_handleAll_preserves (inv : State -> Prop) evs :
  (forall ev, preserves inv (handle ev)) -> preserves inv (handleAll evs).
Proof.
  intros H. induction evs as [|ev rest IH]; simpl.
  - apply preserves_ret.
  - apply preserves_bind; [apply H | intros _; exact IH].
Qed.

Lemma dashbuilder_handle_kept ev : preserves dashbuilderKept (handle ev).
Proof.
  intros s [W O]. unfold dashbuilderKept.
  destruct (dashbuilder_handle_step ev s) as (P & O' & W' & _).
  rewrite P, O', W'.
  destruct ev; cbn [dashbuilderOnScreenAfter]; auto.
Qed.

Lemma dashbuilder_handleAll_counts evs : forall s,
  readySignals (calls (handleAll evs s)) = dashbuilderEffectRunsIn evs
  /\ newEdits (calls (handleAll evs s)) =
       dashbuilderTyped (mounted (dashbuilderMonacoEditorRef s)) evs.
Proof.
  induction evs as [|ev rest IH]; intros s; [split; reflexivity|].
  destruct (dashbuilder_handle_step ev s) as (_ & _ & W & R & N).
  specialize (IH (after (handle ev s))). destruct IH as (IHR & IHN).
  change (handleAll (ev :: rest)) with (handle ev ;; handleAll rest).
  rewrite (bind_calls _ _ s tt (dashbuilder_handle_normal ev s)).
  rewrite readySignals_app, newEdits_app, R, N, IHR, IHN, W.
  split; [reflexivity|].
  destruct ev; cbn [dashbuilderTyped dashbuilderOnScreenAfter app]; try reflexivity.
Qed.

Lemma dashbuilder_mount_spec showEditor :
  mount (initial showEditor) =
    (Normal tt,
     mkState (mkInitialContent INITIAL_CONTENT "") "" showEditor INITIAL_CONTENT ""
             None,
     [onShowPreviewChange showEditor; onReady]).
Proof. reflexivity. Qed.

(** X12: over a whole run of the Dashbuilder editor the host is told
    [onReady] once at mount and once more after every [setContent] and
    every change of [props]; and the new-edit notifications are exactly the
    texts the user typed while the widget was on screen, in order. *)
Theorem X12_dashbuilder_ready_and_edits_of_a_run :
  forall (showEditor : bool) (evs : list Event),
    readySignals (dashbuilderLog showEditor evs) = 1 + dashbuilderEffectRunsIn evs
    /\ newEdits (dashbuilderLog showEditor evs) = dashbuilderTyped false evs.
Proof.
  intros showEditor evs. unfold dashbuilderLog.
  assert (N : completion (mount (initial showEditor)) = Normal tt)
    by now rewrite dashbuilder_mount_spec.
  rewrite (bind_calls _ _ _ tt N), readySignals_app, newEdits_app.
  destruct (dashbuilder_handleAll_counts evs (after (mount (initial showEditor))))
    as (R & E).
  rewrite R, E, dashbuilder_mount_spec. split; reflexivity.
Qed.

(** X13: in every state a mounted Dashbuilder editor can be in, the widget
    is on screen exactly when the stored path is not the empty string, and
    the content stored for it is the built-in sample [INITIAL_CONTENT]. *)
Theorem X13_dashbuilder_only_loads_the_sample :
  forall (showEditor : bool) (evs : list Event),
    mounted (dashbuilderMonacoEditorRef (stateAfter showEditor evs)) =
      negb (String.eqb (path (initialContent (stateAfter showEditor evs))) "")
    /\ originalContent (initialContent (stateAfter showEditor evs)) =
         INITIAL_CONTENT.
Proof.
  intros showEditor evs. unfold stateAfter.
  assert (N : completion (mount (initial showEditor)) = Normal tt)
    by now rewrite dashbuilder_mount_spec.
  rewrite (bind_after _ _ _ tt N).
  apply (dashbuilder_handleAll_preserves dashbuilderKept evs dashbuilder_handle_kept).
  rewrite dashbuilder_mount_spec. split; reflexivity.
Qed.

Lemma dashbuilder_handleAll_app evs more : forall s,
  after (handleAll (evs ++ more) s) = after (handleAll more (after (handleAll evs s))).
Proof.
  induction evs as [|ev rest IH]; intros s; [reflexivity|].
  cbn [app]. change (handleAll (ev :: rest ++ more))
    with (handle ev ;; handleAll (rest ++ more)).
  change (handleAll (ev :: rest)) with (handle ev ;; handleAll rest).
  rewrite !(bind_after _ _ s tt (dashbuilder_handle_normal ev s)). apply IH.
Qed.

Lemma dashbuilder_stateAfter_app showEditor evs more :
  stateAfter showEditor (evs ++ more) =
    after (handleAll more (stateAfter showEditor evs)).
Proof.
  unfold stateAfter.
  assert (N : completion (mount (initial showEditor)) = Normal tt)
    by now rewrite dashbuilder_mount_spec.
  rewrite !(bind_after _ _ _ tt N). apply dashbuilder_handleAll_app.
Qed.

Lemma dashbuilder_newProps_spec s :
  after (handle NewProps s) =
    mkState (initialContent s) (content s) (showPreview s)
            (originalContent (initialContent s)) (oldContentRef s)
            (dashbuilderMonacoEditorRef s).
Proof. reflexivity. Qed.

Lemma dashbuilder_newProps_then_interval s :
  after (handleAll [NewProps; Interval] s) =
    after (interval (after (handle NewProps s))).
Proof.
  change (handleAll [NewProps; Interval])
    with (handle NewProps ;; (settled interval ;; ret tt)).
  rewrite (bind_after _ _ s tt (dashbuilder_handle_normal NewProps s)).
  set (s1 := after (handle NewProps s)).
  unfold bind, settled, ret, after. now destruct (interval s1) as [[r s2] l2].
Qed.

(** X25: when the parent passes new [props] to the Dashbuilder editor, its
    effect runs again and hands the stored sample to the change handler, so
    at the next tick of the timer the preview shows [INITIAL_CONTENT] again,
    whatever the user has typed; the widget and its text are left as they
    were. *)
Theorem X25_new_props_reset_the_preview :
  forall (showEditor : bool) (evs : list Event),
    content (stateAfter showEditor (evs ++ [NewProps; Interval])) = INITIAL_CONTENT
    /\ dashbuilderMonacoEditorRef (stateAfter showEditor (evs ++ [NewProps; Interval]))
       = dashbuilderMonacoEditorRef (stateAfter showEditor evs).
Proof.
  intros showEditor evs. rewrite dashbuilder_stateAfter_app.
  set (s0 := stateAfter showEditor evs).
  assert (K : dashbuilderKept s0).
  { unfold s0, stateAfter.
    assert (N : completion (mount (initial showEditor)) = Normal tt)
      by now rewrite dashbuilder_mount_spec.
    rewrite (bind_after _ _ _ tt N).
    apply (dashbuilder_handleAll_preserves dashbuilderKept evs dashbuilder_handle_kept).
    rewrite dashbuilder_mount_spec. split; reflexivity. }
  destruct K as (_ & O).
  rewrite dashbuilder_newProps_then_interval.
  destruct (interval_spec (after (handle NewProps s0))) as (C & _ & _ & _ & W & _).
  cbv zeta in C, W. rewrite C, W, dashbuilder_newProps_spec.
  cbn [newContentRef dashbuilderMonacoEditorRef]. now rewrite O.
Qed.

End DashbuilderRuns.

(* ===================================================================== *)
(** * App.tsx: the dev webapp *)
(* ===================================================================== *)

Section AppFacts.
Import App.
Variable stringify : list Notification -> string.

Lemma classList_add_has token classes :
  existsb (String.eqb token) (classList_add token classes) = true.
Proof.
  unfold classList_add.
  destruct (existsb (String.eqb token) classes) eqn:E; [exact E|].
  rewrite existsb_app. cbn. rewrite String.eqb_refl. now rewrite orb_true_r.
Qed.

Lemma classList_add_other token other classes :
  other <> token ->
  existsb (String.eqb other) (classList_add token classes) =
    existsb (String.eqb other) classes.
Proof.
  intros N. unfold classList_add.
  destruct (existsb (String.eqb token) classes); [reflexivity|].
  rewrite existsb_app. cbn.
  destruct (String.eqb_spec other token); [contradiction|].
  now rewrite !orb_false_r.
Qed.

Lemma classList_remove_has token classes :
  existsb (String.eqb token) (classList_remove token classes) = false.
Proof.
  unfold classList_remove. induction classes as [|c rest IH]; [reflexivity|].
  cbn. destruct (String.eqb token c) eqn:E; cbn; [exact IH|].
  now rewrite E, IH.
Qed.

Lemma classList_remove_other token other classes :
  other <> token ->
  existsb (String.eqb other) (classList_remove token classes) =
    existsb (String.eqb other) classes.
Proof.
  intros N. unfold classList_remove.
  induction classes as [|c rest IH]; [reflexivity|].
  cbn. destruct (String.eqb_spec token c) as [<-|D]; cbn.
  - destruct (String.eqb_spec other token); [contradiction|]. exact IH.
  - now rewrite IH.
Qed.

Lemma render_kept s :
  fileContent s = None -> editor s = None ->
  (forall classes, container s = Some classes ->
                   existsb (String.eqb "editor-container") classes = true) ->
  appKept (render s).
Proof.
  intros F E C. unfold appKept, render. cbn [fileContent editor swfTextEditorRef container].
  rewrite F. repeat split; auto.
  destruct (container s) as [classes|]; eexists; split; eauto.
Qed.

Lemma handle_keeps ev s :
  let s1 := snd (fst (handle stringify ev s)) in
  fileContent s1 = fileContent s
  /\ editor s1 = editor s
  /\ ((forall cl, container s = Some cl ->
                  existsb (String.eqb "editor-container") cl = true) ->
      forall cl, container s1 = Some cl ->
                 existsb (String.eqb "editor-container") cl = true).
Proof.
  destruct s as [fc [text0|] [e|] [t|] [classes|]];
    destruct ev as [type|p text| | | | |[|]|text operation];
    cbn -[classList_add classList_remove existsb String.eqb];
    (split; [reflexivity | split; [reflexivity|]]); intros K cl H;
    try (apply K; exact H); injection H as <-;
    first [rewrite classList_remove_other by discriminate
          | rewrite classList_add_other by discriminate];
    now apply K.
Qed.

Lemma step_kept ev s : appKept s -> appKept (fst (step stringify ev s)).
Proof.
  intros (F & E & T & classes & C & K).
  destruct (handle_keeps ev s) as (F1 & E1 & C1).
  unfold step. destruct (handle stringify ev s) as [[c s1] log].
  cbn [fst snd] in *. apply render_kept; [congruence | congruence |].
  apply C1. intros cl H. rewrite C in H. now injection H as <-.
Qed.

Lemma stepAll_kept evs : forall s,
  appKept s -> appKept (fst (stepAll stringify evs s)).
Proof.
  induction evs as [|ev rest IH]; intros s K; [exact K|].
  cbn [stepAll]. pose proof (step_kept ev s K) as K1.
  destruct (step stringify ev s) as [s1 log1]. cbn [fst] in K1.
  specialize (IH s1 K1). destruct (stepAll stringify rest s1) as [s2 log2].
  exact IH.
Qed.

Lemma stateAfter_kept evs : appKept (stateAfter stringify evs).
Proof.
  apply stepAll_kept. apply render_kept; try reflexivity. discriminate.
Qed.

(** X14: whatever happens to the mounted [App], [fileContent] stays
    undefined, so the text editor is never rendered and
    [swfTextEditorRef.current] stays null; and no element carries
    [ref={editor}], so [editor.current] stays undefined. *)
Theorem X14_app_never_renders_the_text_editor :
  forall evs : list Event,
    fileContent (stateAfter stringify evs) = None
    /\ swfTextEditorRef (stateAfter stringify evs) = None
    /\ editor (stateAfter stringify evs) = None.
Proof.
  intros evs. destruct (stateAfter_kept evs) as (F & E & T & _). auto.
Qed.

(** X15: in every state the mounted [App] can be in, the handlers behind
    the history buttons ([undo], [redo], [validate], [get]) throw a
    TypeError and reach no editor. *)
Theorem X15_app_history_buttons_throw :
  forall evs : list Event,
    let s := stateAfter stringify evs in
    undo s = (Throw undefined_error, s, [])
    /\ redo s = (Throw undefined_error, s, [])
    /\ validate stringify s = (Throw undefined_error, s, [])
    /\ get s = (Throw undefined_error, s, []).
Proof.
  intros evs s. destruct (stateAfter_kept evs) as (_ & E & _).
  fold s in E. unfold undo, redo, validate, get. rewrite E. repeat split.
Qed.

Lemma step_content ev s :
  content (fst (step stringify ev s)) =
    match content s with
    | Some text => Some text
    | None =>
        match ev with
        | NewDocument _ => Some ""
        | OpenDocument _ text => Some text
        | _ => None
        end
    end.
Proof.
  destruct s as [fc [text0|] [e|] [t|] [classes|]];
    destruct ev as [type|p text| | | | |[|]|text operation]; reflexivity.
Qed.

Lemma stepAll_content evs : forall s,
  displayServerlessWorkflowEditor (fst (stepAll stringify evs s)) =
    match content s with
    | Some _ => block
    | None => if existsb opensDocument evs then block else none
    end.
Proof.
  induction evs as [|ev rest IH]; intros s.
  - unfold displayServerlessWorkflowEditor. cbn. now destruct (content s).
  - cbn [stepAll]. pose proof (step_content ev s) as C.
    destruct (step stringify ev s) as [s1 log1]. cbn [fst] in C.
    specialize (IH s1). destruct (stepAll stringify rest s1) as [s2 log2].
    cbn [fst] in *. rewrite IH, C.
    destruct (content s); [reflexivity|].
    destruct ev; cbn [opensDocument existsb orb]; reflexivity.
Qed.

Lemma stepAll_app evs1 evs2 s :
  fst (stepAll stringify (evs1 ++ evs2) s) =
    fst (stepAll stringify evs2 (fst (stepAll stringify evs1 s))).
Proof.
  revert s. induction evs1 as [|ev rest IH]; intros s; [reflexivity|].
  cbn [app stepAll]. destruct (step stringify ev s) as [s1 log1].
  specialize (IH s1).
  destruct (stepAll stringify (rest ++ evs2) s1) as [s2 log2].
  destruct (stepAll stringify rest s1) as [s3 log3]. exact IH.
Qed.

(** X16: the editor page of [App] is hidden until the first document is
    created or opened and shown ever after; and it is shown although the
    handler that creates the document throws before any editor is told to
    load it. *)
Theorem X16_app_display_follows_first_document :
  forall (evs : list Event) (type : string),
    displayServerlessWorkflowEditor (stateAfter stringify evs) =
      (if existsb opensDocument evs then block else none)
    /\ fst (fst (newContent type (stateAfter stringify evs))) =
         Throw undefined_error
    /\ displayServerlessWorkflowEditor
         (snd (fst (newContent type (stateAfter stringify evs)))) = block
    /\ (forall c, In (onEditor c) (snd (newContent type (stateAfter stringify evs)))
                  -> False).
Proof.
  intros evs type. split.
  - unfold stateAfter. now rewrite stepAll_content.
  - destruct (stateAfter_kept evs) as (_ & E & _).
    unfold newContent. rewrite E. cbn.
    repeat split. intros c [H|[H|[H|[]]]]; discriminate.
Qed.

Lemma classList_add_twice token classes :
  classList_add token (classList_add token classes) = classList_add token classes.
Proof.
  unfold classList_add at 1. now rewrite classList_add_has.
Qed.

Lemma classList_remove_twice token classes :
  classList_remove token (classList_remove token classes) =
    classList_remove token classes.
Proof.
  unfold classList_remove. induction classes as [|c rest IH]; [reflexivity|].
  cbn. destruct (String.eqb token c) eqn:E; cbn; [exact IH|].
  now rewrite E, IH.
Qed.

(** X17: picking a theme in [App] leaves the container with the class
    [vscode-dark] exactly when the theme is dark, never drops its class
    [editor-container], and picking the same theme twice is the same as
    picking it once. *)
Theorem X17_app_theme_class :
  forall (evs : list Event) (theme : Theme),
    let s := stateAfter stringify (evs ++ [PickTheme theme]) in
    hasClass "vscode-dark" s = match theme with DARK => true | LIGHT => false end
    /\ hasClass "editor-container" s = true
    /\ stateAfter stringify (evs ++ [PickTheme theme; PickTheme theme]) = s.
Proof.
  intros evs theme s. subst s. unfold stateAfter.
  change [PickTheme theme; PickTheme theme]
    with ([PickTheme theme] ++ [PickTheme theme]).
  rewrite app_assoc, !stepAll_app.
  change (fst (stepAll stringify evs (render initial)))
    with (stateAfter stringify evs).
  destruct (stateAfter_kept evs) as (F & E & T & classes & C & K).
  destruct (stateAfter stringify evs) as [fc ct ed tr cn].
  cbn [fileContent editor swfTextEditorRef container] in *. subst.
  unfold hasClass. destruct theme;
    cbn -[classList_add classList_remove existsb String.eqb].
  - rewrite classList_remove_has, classList_remove_other by discriminate.
    now rewrite classList_remove_twice.
  - rewrite classList_add_has, classList_add_other by discriminate.
    now rewrite classList_add_twice.
Qed.

End AppFacts.

(* ===================================================================== *)
(** * EnvUtil: interfaces and super types *)
(* ===================================================================== *)

Section FillIn.
Import EnvUtil.

(** Induction over a class with its interfaces and its superclass. *)
Lemma MetaClass_hierarchy_ind (P : MetaClass -> Prop) :
  (forall name ifaces super declared synth,
      Forall P ifaces ->
      match super with Some c => P c | None => True end ->
      P (metaClass name ifaces super declared synth)) ->
  forall c, P c.
Proof.
  intros H. fix IH 1. intros [name ifaces super declared synth].
  apply H.
  - induction ifaces as [|i rest IHl]; constructor; [apply IH | exact IHl].
  - destruct super as [c|]; [apply IH | exact I].
Qed.

Lemma contains_app set1 set2 c :
  contains (set1 ++ set2) c = contains set1 c || contains set2 c.
Proof. unfold contains. apply existsb_app. Qed.

Lemma contains_add set x c :
  contains (add set x) c =
    contains set c || String.eqb (getFullyQualifiedName x) (getFullyQualifiedName c).
Proof.
  unfold add. destruct (contains set x) eqn:E.
  - destruct (String.eqb_spec (getFullyQualifiedName x) (getFullyQualifiedName c))
      as [Q|Q]; [|now rewrite orb_false_r].
    unfold contains in *. rewrite Q in E. now rewrite E.
  - rewrite contains_app. cbn. now rewrite orb_false_r.
Qed.

Lemma fillIn_unfold name ifaces super declared synth set :
  fillInInterfacesAndSuperTypes set (metaClass name ifaces super declared synth) =
    let set1 :=
      fold_left (fun acc iface => fillInInterfacesAndSuperTypes (add acc iface) iface)
                ifaces set in
    match super with
    | Some c => fillInInterfacesAndSuperTypes set1 c
    | None => set1
    end.
Proof.
  cbn [fillInInterfacesAndSuperTypes].
  assert (E : forall l acc,
             (fix each (ifaces0 : list MetaClass) (set0 : ClassSet) : ClassSet :=
                match ifaces0 with
                | [] => set0
                | iface :: rest =>
                    each rest (fillInInterfacesAndSuperTypes (add set0 iface) iface)
                end) l acc =
             fold_left (fun acc iface =>
                          fillInInterfacesAndSuperTypes (add acc iface) iface) l acc).
  { induction l as [|i rest IHl]; intros acc; [reflexivity|]. cbn. apply IHl. }
  now rewrite E.
Qed.

(** X18: after [fillInInterfacesAndSuperTypes(set, type)] the set holds
    what it held before and, besides, exactly the interfaces of [type], of
    its interfaces and of its superclasses, all the way up; the
    superclasses themselves are walked through but not added. *)
Theorem X18_fillIn_adds_the_interfaces :
  forall (type : MetaClass) (set : ClassSet) (c : MetaClass),
    contains (fillInInterfacesAndSuperTypes set type) c = true <->
    contains set c = true \/ exists i, SuperInterface type i /\ sameClass i c.
Proof.
  induction type as [name ifaces super declared synth IHi IHs]
    using MetaClass_hierarchy_ind.
  intros set c. rewrite fillIn_unfold. cbv zeta.
  set (step := fun acc iface => fillInInterfacesAndSuperTypes (add acc iface) iface).
  assert (L : forall l acc,
             Forall (fun t => forall set c,
                       contains (fillInInterfacesAndSuperTypes set t) c = true <->
                       contains set c = true \/
                       exists i, SuperInterface t i /\ sameClass i c) l ->
             (contains (fold_left step l acc) c = true <->
              contains acc c = true \/
              exists j, In j l /\
                        (sameClass j c \/ exists i, SuperInterface j i /\ sameClass i c))).
  { induction l as [|j rest IHl]; intros acc F.
    - cbn. split; [auto | intros [H|(j & [] & _)]; exact H].
    - inversion F as [|? ? Fj Fr]; subst. cbn [fold_left].
      rewrite (IHl _ Fr). unfold step. rewrite (Fj (add acc j) c).
      rewrite contains_add, orb_true_iff, String.eqb_eq. fold (sameClass j c).
      split.
      + intros [[[H|H]|H]|(k & K & H)]; auto.
        * right. exists j. split; [now left | now left].
        * right. exists j. split; [now left | now right].
        * right. exists k. split; [now right | exact H].
      + intros [H|(k & [<-|K] & [H|H])]; auto.
        * right. exists k. auto.
        * right. exists k. auto. }
  specialize (L ifaces set IHi).
  assert (Own : (exists j, In j ifaces /\
                   (sameClass j c \/ exists i, SuperInterface j i /\ sameClass i c)) <->
                exists i, (In i ifaces \/ exists j, In j ifaces /\ SuperInterface j i)
                          /\ sameClass i c).
  { split.
    - intros (j & J & [H|(i & S & H)]); [exists j | exists i]; eauto.
    - intros (i & [J|(j & J & S)] & H); [exists i | exists j]; eauto. }
  destruct super as [sup|].
  - rewrite (IHs _ c), L, Own. split.
    + intros [[H|(i & [J|(j & J & S)] & H)]|(i & S & H)]; auto; right; exists i;
        split; auto.
      * now apply own_interface.
      * now apply (inherited_interface _ j).
      * now apply (superclass_interface _ sup).
    + intros [H|(i & S & H)]; auto.
      inversion S as [? ? J|? j ? J S'|? sup' ? E S']; subst; cbn in *.
      * left. right. exists i. auto.
      * left. right. exists i. eauto.
      * injection E as <-. right. exists i. auto.
  - rewrite L, Own. split.
    + intros [H|(i & [J|(j & J & S)] & H)]; auto; right; exists i; split; auto.
      * now apply own_interface.
      * now apply (inherited_interface _ j).
    + intros [H|(i & S & H)]; auto.
      inversion S as [? ? J|? j ? J S'|? sup' ? E S']; subst; cbn in *.
      * right. exists i. auto.
      * right. exists i. eauto.
      * discriminate.
Qed.

End FillIn.

(* ===================================================================== *)
(** * EnvUtil: loading the configured portable types *)
(* ===================================================================== *)

Section Loading.
Import EnvUtil.

Lemma contains_same set a b :
  sameClass a b -> contains set a = contains set b.
Proof. unfold contains, sameClass. now intros ->. Qed.

Lemma contains_add_keeps set x c :
  contains set c = true -> contains (add set x) c = true.
Proof. intros H. now rewrite contains_add, H. Qed.

Lemma contains_add_self set x : contains (add set x) x = true.
Proof. rewrite contains_add, String.eqb_refl. apply orb_true_r. Qed.

Lemma contains_addAll_keeps cs : forall set c,
  contains set c = true -> contains (addAll set cs) c = true.
Proof.
  induction cs as [|x rest IH]; intros set c H; [exact H|].
  cbn. apply IH. now apply contains_add_keeps.
Qed.

Lemma contains_addAll cs : forall set c,
  In c cs -> contains (addAll set cs) c = true.
Proof.
  induction cs as [|x rest IH]; intros set c [].
  - subst. cbn. apply contains_addAll_keeps, contains_add_self.
  - cbn. now apply IH.
Qed.

Lemma contains_cons x rest c :
  contains (x :: rest) c =
    String.eqb (getFullyQualifiedName x) (getFullyQualifiedName c) || contains rest c.
Proof. reflexivity. Qed.

Lemma contains_removeAll set other c :
  contains (removeAll set other) c = contains set c && negb (contains other c).
Proof.
  unfold removeAll. induction set as [|x rest IH]; [reflexivity|].
  cbn [filter]. rewrite (contains_cons x rest c).
  destruct (String.eqb (getFullyQualifiedName x) (getFullyQualifiedName c)) eqn:Q.
  - apply String.eqb_eq in Q. rewrite (contains_same other x c Q).
    destruct (contains other c) eqn:O; cbn [negb orb andb].
    + rewrite IH. apply andb_false_r.
    + rewrite contains_cons. apply String.eqb_eq in Q. now rewrite Q.
  - cbn [orb]. destruct (negb (contains other x)).
    + rewrite contains_cons, Q. exact IH.
    + exact IH.
Qed.

Lemma addConfigured_keeps env message names : forall set set' c,
  addConfigured env message names set = inr set' ->
  contains set c = true -> contains set' c = true.
Proof.
  induction names as [|s rest IH]; intros set set' c H K; cbn in H.
  - now injection H as <-.
  - destruct (metaClassOf env (trim s)); [|discriminate].
    apply (IH _ _ _ H). now apply contains_add_keeps.
Qed.

Lemma readKeys_keeps_nonportable env entries : forall st st' c,
  readKeys env entries st = inr st' ->
  contains (nonportableClasses st) c = true ->
  contains (nonportableClasses st') c = true.
Proof.
  induction entries as [|[key value] rest IH]; intros st st' c H K; cbn in H.
  - now injection H as <-.
  - destruct (String.eqb key CONFIG_ERRAI_SERIALIZABLE_TYPE).
    { destruct (addConfigured env _ _ (exposedClasses st)); [discriminate|].
      injection H as <-. exact K. }
    destruct (String.eqb key CONFIG_ERRAI_NONSERIALIZABLE_TYPE).
    { destruct (addConfigured env _ _ (nonportableClasses st)) eqn:A; [discriminate|].
      injection H as <-. cbn. apply (addConfigured_keeps _ _ _ _ _ _ A K). }
    destruct (String.eqb key CONFIG_ERRAI_MAPPING_ALIASES).
    { destruct (addAliases env _ _); [discriminate|]. injection H as <-. exact K. }
    apply (IH _ _ _ H). exact K.
Qed.

Lemma readBundles_keeps_nonportable env bundles : forall st st' c,
  readBundles env bundles st = inr st' ->
  contains (nonportableClasses st) c = true ->
  contains (nonportableClasses st') c = true.
Proof.
  induction bundles as [|[entries|] rest IH]; intros st st' c H K; cbn in H.
  - now injection H as <-.
  - destruct (readKeys env entries st) as [|st1] eqn:R; [discriminate|].
    apply (IH _ _ _ H). apply (readKeys_keeps_nonportable _ _ _ _ _ R K).
  - discriminate.
Qed.

(** X19: a class annotated [@NonPortable] is never among the exposed
    classes of a configuration that [loadConfiguredPortableTypes] returns,
    whether or not it is also annotated [@Portable], declared inside a
    portable class or listed as serializable in [ErraiApp.properties]. *)
Theorem X19_nonportable_classes_are_not_exposed :
  forall (env : Environment) (config : EnviromentConfig) (c : MetaClass),
    loadConfiguredPortableTypes env = inr config ->
    In c (nonPortableTypes env) ->
    contains (getExposedClasses config) c = false.
Proof.
  intros env config c H N. unfold loadConfiguredPortableTypes in H.
  destruct (resources env) as [bundles|]; [|discriminate].
  destruct (readBundles env bundles _) as [|st] eqn:R; [discriminate|].
  injection H as <-. cbn [getExposedClasses].
  rewrite contains_removeAll.
  rewrite (readBundles_keeps_nonportable _ _ _ _ c R).
  - apply andb_false_r.
  - cbn [nonportableClasses]. now apply contains_addAll.
Qed.

Lemma X19_witness :
  contains
    (getExposedClasses
       (mkEnviromentConfig [] [] [] []))
    (metaClass "org.acme.Both" [] None [] false) = false.
Proof.
  exact (X19_nonportable_classes_are_not_exposed
           (mkEnvironment [metaClass "org.acme.Both" [] None [] false]
                          [metaClass "org.acme.Both" [] None [] false]
                          (Some []) (fun _ => None) (fun _ => None))
           (mkEnviromentConfig [] [] [] [])
           (metaClass "org.acme.Both" [] None [] false)
           eq_refl (or_introl eq_refl)).
Defined.

Lemma addConfigured_message env message names : forall set thrown,
  addConfigured env message names set = inl thrown ->
  exists s, thrown = (message ++ s)%string.
Proof.
  induction names as [|s rest IH]; intros set thrown H; cbn in H; [discriminate|].
  destruct (metaClassOf env (trim s)).
  - apply (IH _ _ H).
  - injection H as <-. now exists s.
Qed.

Lemma addAliases_message env entries : forall aliases thrown,
  addAliases env entries aliases = inl thrown ->
  exists s,
    thrown =
      ("could not find class defined in ErraiApp.properties for mapping: " ++ s)%string.
Proof.
  induction entries as [|s rest IH]; intros aliases thrown H; cbn in H; [discriminate|].
  destruct (aliasOf env s) as [e|[fromMapping toMapping]].
  - injection H as <-. now exists s.
  - apply (IH _ _ H).
Qed.

Lemma readKeys_message env entries : forall st thrown,
  readKeys env entries st = inl thrown ->
  String.prefix "syntax error" thrown = false.
Proof.
  induction entries as [|[key value] rest IH]; intros st thrown H; cbn in H;
    [discriminate|].
  destruct (String.eqb key CONFIG_ERRAI_SERIALIZABLE_TYPE).
  { destruct (addConfigured env _ _ (exposedClasses st)) eqn:A; [|discriminate].
    injection H as <-. destruct (addConfigured_message _ _ _ _ _ A) as (x & ->).
    reflexivity. }
  destruct (String.eqb key CONFIG_ERRAI_NONSERIALIZABLE_TYPE).
  { destruct (addConfigured env _ _ (nonportableClasses st)) eqn:A; [|discriminate].
    injection H as <-. destruct (addConfigured_message _ _ _ _ _ A) as (x & ->).
    reflexivity. }
  destruct (String.eqb key CONFIG_ERRAI_MAPPING_ALIASES).
  { destruct (addAliases env _ _) eqn:A; [|discriminate].
    injection H as <-. destruct (addAliases_message _ _ _ _ A) as (x & ->).
    reflexivity. }
  apply (IH _ _ H).
Qed.

Lemma readBundles_message env bundles : forall st thrown,
  readBundles env bundles st = inl thrown ->
  String.prefix "syntax error" thrown = false.
Proof.
  induction bundles as [|[entries|] rest IH]; intros st thrown H; cbn in H.
  - discriminate.
  - destruct (readKeys env entries st) as [m|st1] eqn:R.
    + injection H as <-. apply (readKeys_message _ _ _ _ R).
    + apply (IH _ _ H).
  - now injection H as <-.
Qed.

(** X20: an alias that is not of the form [from->to] raises a syntax error
    inside the loop over the aliases, but the [catch (Exception e)] around
    it replaces that by the message about a class that could not be found;
    so no [RuntimeException] that [loadConfiguredPortableTypes] throws
    carries the syntax error message. *)
Theorem X20_alias_syntax_error_is_masked :
  forall (env : Environment) (s : string) (rest : list string)
         (aliases : StringMap) (thrown : string),
    List.length (split s "->") <> 2 ->
    loadConfiguredPortableTypes env = inl thrown ->
    aliasOf env s = inl ("syntax error: mapping for marshalling alias: " ++ s)%string
    /\ addAliases env (s :: rest) aliases =
         inl ("could not find class defined in ErraiApp.properties for mapping: "
                ++ s)%string
    /\ String.prefix "syntax error" thrown = false.
Proof.
  intros env s rest aliases thrown L H.
  assert (A : aliasOf env s =
              inl ("syntax error: mapping for marshalling alias: " ++ s)%string).
  { unfold aliasOf. destruct (split s "->") as [|a [|b [|c more]]]; try reflexivity.
    now contradiction L. }
  split; [exact A|]. split.
  - cbn [addAliases]. now rewrite A.
  - unfold loadConfiguredPortableTypes in H.
    destruct (resources env) as [bundles|]; [|now injection H as <-].
    destruct (readBundles env bundles _) as [m|st] eqn:R; [|discriminate].
    injection H as <-. apply (readBundles_message _ _ _ _ R).
Qed.

Lemma X20_witness :
  addAliases
    (mkEnvironment [] []
       (Some [Some [(CONFIG_ERRAI_MAPPING_ALIASES, "java.util.List")]])
       (fun _ => None) (fun name => Some name))
    ["java.util.List"] [] =
    inl "could not find class defined in ErraiApp.properties for mapping: java.util.List"
  /\ loadConfiguredPortableTypes
       (mkEnvironment [] []
          (Some [Some [(CONFIG_ERRAI_MAPPING_ALIASES, "java.util.List")]])
          (fun _ => None) (fun name => Some name)) =
     inl "could not find class defined in ErraiApp.properties for mapping: java.util.List".
Proof.
  split; [|reflexivity].
  refine (proj1 (proj2 (X20_alias_syntax_error_is_masked
            (mkEnvironment [] []
               (Some [Some [(CONFIG_ERRAI_MAPPING_ALIASES, "java.util.List")]])
               (fun _ => None) (fun name => Some name))
            "java.util.List" [] []
            "could not find class defined in ErraiApp.properties for mapping: java.util.List"
            _ eq_refl))).
  vm_compute. discriminate.
Defined.

Lemma readKeys_cut env entries : forall st,
  readKeys env (upToConfigKey entries) st = readKeys env entries st.
Proof.
  induction entries as [|[key value] rest IH]; intros st; [reflexivity|].
  cbn [upToConfigKey]. unfold isConfigKey.
  destruct (String.eqb key CONFIG_ERRAI_SERIALIZABLE_TYPE) eqn:E1; cbn [orb].
  { cbn [readKeys]. now rewrite E1. }
  destruct (String.eqb key CONFIG_ERRAI_NONSERIALIZABLE_TYPE) eqn:E2; cbn [orb].
  { cbn [readKeys]. now rewrite E1, E2. }
  destruct (String.eqb key CONFIG_ERRAI_MAPPING_ALIASES) eqn:E3.
  { cbn [readKeys]. now rewrite E1, E2, E3. }
  cbn [readKeys]. rewrite E1, E2, E3. apply IH.
Qed.

Lemma readBundles_cut env env' bundles : forall st,
  metaClassOf env' = metaClassOf env -> classForName env' = classForName env ->
  readBundles env' (map (option_map upToConfigKey) bundles) st =
    readBundles env bundles st.
Proof.
  intros st M F.
  assert (K : forall entries st, readKeys env' entries st = readKeys env entries st).
  { assert (C : forall message names set,
               addConfigured env' message names set =
               addConfigured env message names set).
    { intros message names. induction names as [|s rest IH]; intros set;
        [reflexivity|]. cbn. rewrite M. destruct (metaClassOf env (trim s)); auto. }
    assert (A : forall entries aliases,
               addAliases env' entries aliases = addAliases env entries aliases).
    { induction entries as [|s rest IH]; intros aliases; [reflexivity|].
      cbn. unfold aliasOf. rewrite F.
      destruct (split s "->") as [|a [|b [|c more]]]; try reflexivity.
      destruct (classForName env (trim a)); [|reflexivity].
      destruct (classForName env (trim b)); [|reflexivity]. apply IH. }
    induction entries as [|[key value] rest IH]; intros st0; [reflexivity|].
    cbn [readKeys]. rewrite !C, A, IH. reflexivity. }
  revert st. induction bundles as [|[entries|] rest IH]; intros st; [reflexivity| |].
  - cbn [map option_map readBundles]. rewrite K, readKeys_cut.
    destruct (readKeys env entries st); [reflexivity | apply IH].
  - reflexivity.
Qed.

(** X21: in each [ErraiApp.properties] the loop over the keys ends at the
    first of the three configuration keys it meets: whatever follows that
    key in the order of [keySet()], other configuration keys and plain
    framework properties alike, has no effect on what
    [loadConfiguredPortableTypes] returns or throws. *)
Theorem X21_keys_after_a_configuration_key_are_ignored :
  forall env : Environment,
    loadConfiguredPortableTypes (cutBundles env) = loadConfiguredPortableTypes env.
Proof.
  intros env. unfold loadConfiguredPortableTypes, cutBundles.
  cbn [portableTypes nonPortableTypes resources].
  destruct (resources env) as [bundles|]; [|reflexivity].
  cbn [option_map].
  now rewrite (readBundles_cut env
                 (mkEnvironment (portableTypes env) (nonPortableTypes env)
                    (Some (map (option_map upToConfigKey) bundles))
                    (metaClassOf env) (classForName env))
                 bundles _ eq_refl eq_refl).
Qed.

End Loading.

(* ===================================================================== *)
(** * EnvUtil: portable types *)
(* ===================================================================== *)

Section Portable.
Import EnvUtil.
Variable getSubTypesOf : JavaClass -> list JavaClass.

Lemma addPortableOrAll_interface env clazz subTypes : forall acc cache,
  isInterface clazz = true ->
  addPortableOrAll env clazz subTypes acc cache =
    (inr (fold_left addClass subTypes acc), cache).
Proof.
  induction subTypes as [|subType rest IH]; intros acc cache I; [reflexivity|].
  cbn [addPortableOrAll fold_left]. rewrite I. now apply IH.
Qed.

(** X22: for an interface, [getAllPortableSubtypes] returns the interface
    and every subtype the scanner knows, portable or not, and never asks
    for the configuration: the cache is left as it was and nothing is
    thrown, even where [ErraiApp.properties] cannot be loaded. *)
Theorem X22_interface_collects_every_subtype :
  forall (env : Environment) (clazz : JavaClass) (cache : option EnviromentConfig),
    isInterface clazz = true ->
    getAllPortableSubtypes getSubTypesOf env clazz cache =
      (inr (fold_left addClass (getSubTypesOf clazz) [clazz]), cache).
Proof.
  intros env clazz cache I. unfold getAllPortableSubtypes. rewrite I.
  now apply addPortableOrAll_interface.
Qed.

(** X23: a class annotated both [@Portable] and [@NonPortable] is reported
    portable by [isPortableType], on the annotation alone and without the
    configuration being read, although the configuration that
    [loadConfiguredPortableTypes] returns does not expose it. *)
Theorem X23_portable_annotation_wins_in_isPortableType :
  forall (env : Environment) (cls : JavaClass) (cache : option EnviromentConfig)
         (config : EnviromentConfig),
    isPortableAnnotated cls = true ->
    In (toMetaClass cls) (nonPortableTypes env) ->
    loadConfiguredPortableTypes env = inr config ->
    isPortableType env cls cache = (inr true, cache)
    /\ contains (getExposedClasses config) (toMetaClass cls) = false.
Proof.
  intros env cls cache config A N L. split.
  - unfold isPortableType. now rewrite A.
  - unfold loadConfiguredPortableTypes in L.
    destruct (resources env) as [bundles|]; [|discriminate].
    destruct (readBundles env bundles _) as [|st] eqn:R; [discriminate|].
    injection L as <-. cbn [getExposedClasses].
    rewrite contains_removeAll.
    rewrite (readBundles_keeps_nonportable _ _ _ _ (toMetaClass cls) R).
    + apply andb_false_r.
    + cbn [nonportableClasses]. now apply contains_addAll.
Qed.

Lemma X23_witness :
  isPortableType
    (mkEnvironment [metaClass "org.acme.Both" [] None [] false]
                   [metaClass "org.acme.Both" [] None [] false]
                   (Some []) (fun _ => None) (fun _ => None))
    (mkJavaClass "org.acme.Both" false true false
       (metaClass "org.acme.Both" [] None [] false))
    None = (inr true, None)
  /\ contains (getExposedClasses (mkEnviromentConfig [] [] [] []))
       (metaClass "org.acme.Both" [] None [] false) = false.
Proof.
  exact (X23_portable_annotation_wins_in_isPortableType
           (mkEnvironment [metaClass "org.acme.Both" [] None [] false]
                          [metaClass "org.acme.Both" [] None [] false]
                          (Some []) (fun _ => None) (fun _ => None))
           (mkJavaClass "org.acme.Both" false true false
              (metaClass "org.acme.Both" [] None [] false))
           None (mkEnviromentConfig [] [] [] [])
           eq_refl (or_introl eq_refl) eq_refl).
Defined.

(** The cache, once filled, stays as it is. *)
Lemma isPortableType_filled env cls config r cache1 :
  isPortableType env cls (Some config) = (r, cache1) -> cache1 = Some config.
Proof.
  unfold isPortableType, getEnvironmentConfig.
  destruct (isPortableAnnotated cls); [now intros [= _ <-]|].
  destruct (contains (getExposedClasses config) (toMetaClass cls));
    [now intros [= _ <-]|].
  destruct (contains (getPortableSuperTypes config) (toMetaClass cls));
    [now intros [= _ <-]|].
  destruct (isStringClass cls || hasTypeHandler cls); now intros [= _ <-].
Qed.

(** An answer of [isPortableType] is the answer it gives again under the
    cache it leaves; and an answer that leaves the cache empty is a yes on
    the annotation. *)
Lemma isPortableType_again env cls cache b cache1 :
  isPortableType env cls cache = (inr b, cache1) ->
  isPortableType env cls cache1 = (inr b, cache1)
  /\ (cache1 = None -> isPortableAnnotated cls = true).
Proof.
  unfold isPortableType, getEnvironmentConfig.
  destruct (isPortableAnnotated cls) eqn:A.
  { intros [= <- <-]. auto. }
  destruct cache as [config|].
  - destruct (contains (getExposedClasses config) (toMetaClass cls)) eqn:E.
    { intros [= <- <-]. rewrite E. split; [reflexivity | discriminate]. }
    destruct (contains (getPortableSuperTypes config) (toMetaClass cls)) eqn:P.
    { intros [= <- <-]. rewrite E, P. split; [reflexivity | discriminate]. }
    destruct (isStringClass cls || hasTypeHandler cls) eqn:S;
      intros [= <- <-]; rewrite E, P, ?S; (split; [reflexivity | discriminate]).
  - destruct (loadConfiguredPortableTypes env) as [m|config]; [discriminate|].
    destruct (contains (getExposedClasses config) (toMetaClass cls)) eqn:E.
    { intros [= <- <-]. rewrite E. split; [reflexivity | discriminate]. }
    destruct (contains (getPortableSuperTypes config) (toMetaClass cls)) eqn:P.
    { intros [= <- <-]. rewrite E, P. split; [reflexivity | discriminate]. }
    destruct (isStringClass cls || hasTypeHandler cls) eqn:S;
      intros [= <- <-]; rewrite E, P, ?S; (split; [reflexivity | discriminate]).
Qed.

Lemma In_addClass acc x c : In c (addClass acc x) -> In c acc \/ c = x.
Proof.
  unfold addClass. destruct (existsb _ acc); [auto|].
  rewrite in_app_iff. cbn. intuition.
Qed.

Lemma addPortable_filled env subTypes : forall acc config r cache1,
  addPortable env subTypes acc (Some config) = (r, cache1) -> cache1 = Some config.
Proof.
  induction subTypes as [|x rest IH]; intros acc config r cache1 H; cbn in H.
  - now injection H as _ <-.
  - destruct (isPortableType env x (Some config)) as [[m|[|]] c1] eqn:P;
      pose proof (isPortableType_filled _ _ _ _ _ P) as ->.
    + now injection H as _ <-.
    + apply (IH _ _ _ _ H).
    + apply (IH _ _ _ _ H).
Qed.

(** A yes of [isPortableType] outlives what the loop does to the cache. *)
Lemma portable_outlives env subTypes cls : forall acc cache result cache',
  isPortableType env cls cache = (inr true, cache) ->
  (cache = None -> isPortableAnnotated cls = true) ->
  addPortable env subTypes acc cache = (inr result, cache') ->
  isPortableType env cls cache' = (inr true, cache').
Proof.
  intros acc cache result cache' Y A H. destruct cache as [config|].
  - now rewrite (addPortable_filled _ _ _ _ _ _ H).
  - unfold isPortableType. now rewrite (A eq_refl).
Qed.

Lemma addPortable_sound env subTypes : forall acc cache result cache',
  addPortable env subTypes acc cache = (inr result, cache') ->
  forall c, In c result ->
    In c acc \/ (In c subTypes /\ isPortableType env c cache' = (inr true, cache')).
Proof.
  induction subTypes as [|x rest IH]; intros acc cache result cache' H c I;
    cbn in H.
  - injection H as <- <-. now left.
  - destruct (isPortableType env x cache) as [[m|[|]] cache1] eqn:P;
      [discriminate| |].
    + destruct (IH _ _ _ _ H c I) as [K|[K Y]].
      * destruct (In_addClass _ _ _ K) as [K'| ->]; [now left|].
        right. split; [now left|].
        destruct (isPortableType_again _ _ _ _ _ P) as (Y & A).
        apply (portable_outlives _ _ _ _ _ _ _ Y A H).
      * right. split; [now right | exact Y].
    + destruct (IH _ _ _ _ H c I) as [K|[K Y]]; [now left|].
      right. split; [now right | exact Y].
Qed.

(** X24: whatever [getAllPortableConcreteSubtypes] returns holds only the
    class itself and subtypes the scanner knows, and each of them is a
    class for which [isPortableType] answers true under the configuration
    cache the call leaves behind. *)
Theorem X24_concrete_subtypes_are_portable :
  forall (env : Environment) (clazz : JavaClass)
         (cache cache' : option EnviromentConfig) (result : list JavaClass)
         (c : JavaClass),
    getAllPortableConcreteSubtypes getSubTypesOf env clazz cache =
      (inr result, cache') ->
    In c result ->
    (c = clazz \/ In c (getSubTypesOf clazz))
    /\ isPortableType env c cache' = (inr true, cache').
Proof.
  intros env clazz cache cache' result c H I.
  unfold getAllPortableConcreteSubtypes in H.
  destruct (isPortableType env clazz cache) as [[m|[|]] cache1] eqn:P;
    [discriminate| |].
  - destruct (addPortable_sound _ _ _ _ _ _ H c I) as [[<-|[]]|[K Y]].
    + split; [now left|].
      destruct (isPortableType_again _ _ _ _ _ P) as (Y & A).
      apply (portable_outlives _ _ _ _ _ _ _ Y A H).
    + split; [now right | exact Y].
  - destruct (addPortable_sound _ _ _ _ _ _ H c I) as [[]|[K Y]].
    split; [now right | exact Y].
Qed.

End Portable.

Section PortableWitnesses.
Import EnvUtil.

Lemma X22_witness :
  getAllPortableSubtypes
    (fun _ => [mkJavaClass "org.acme.Impl" false false false
                 (metaClass "org.acme.Impl" [] None [] false)])
    (mkEnvironment [] [] None (fun _ => None) (fun _ => None))
    (mkJavaClass "org.acme.Api" true false false
       (metaClass "org.acme.Api" [] None [] false))
    None =
    (inr [mkJavaClass "org.acme.Api" true false false
            (metaClass "org.acme.Api" [] None [] false);
          mkJavaClass "org.acme.Impl" false false false
            (metaClass "org.acme.Impl" [] None [] false)],
     None).
Proof.
  exact (X22_interface_collects_every_subtype
           (fun _ => [mkJavaClass "org.acme.Impl" false false false
                        (metaClass "org.acme.Impl" [] None [] false)])
           (mkEnvironment [] [] None (fun _ => None) (fun _ => None))
           (mkJavaClass "org.acme.Api" true false false
              (metaClass "org.acme.Api" [] None [] false))
           None eq_refl).
Defined.

Lemma X24_witness :
  isPortableType
    (mkEnvironment [] [] (Some []) (fun _ => None) (fun _ => None))
    (mkJavaClass "java.lang.String" false false false
       (metaClass "java.lang.String" [] None [] false))
    (Some (mkEnviromentConfig [] [] [] [])) =
    (inr true, Some (mkEnviromentConfig [] [] [] [])).
Proof.
  exact (proj2 (X24_concrete_subtypes_are_portable
           (fun _ => [])
           (mkEnvironment [] [] (Some []) (fun _ => None) (fun _ => None))
           (mkJavaClass "java.lang.String" false false false
              (metaClass "java.lang.String" [] None [] false))
           None (Some (mkEnviromentConfig [] [] [] []))
           [mkJavaClass "java.lang.String" false false false
              (metaClass "java.lang.String" [] None [] false)]
           (mkJavaClass "java.lang.String" false false false
              (metaClass "java.lang.String" [] None [] false))
           eq_refl (or_introl eq_refl))).
Defined.

End PortableWitnesses.

(* ===================================================================== *)
(** * VsCodeServerlessWorkflowEditorFactory: window.envelope *)
(* ===================================================================== *)

Section VsCodeFactory.
Import VsCodeServerlessWorkflowEditorFactory.

Lemma lookup_define_same key value obj :
  lookup key (define key value obj) = Some value.
Proof.
  induction obj as [|[k v] rest IH]; cbn.
  - now rewrite String.eqb_refl.
  - destruct (String.eqb k key) eqn:E; cbn; now rewrite E.
Qed.

Lemma lookup_define_other key key' value obj :
  key' <> key -> lookup key' (define key value obj) = lookup key' obj.
Proof.
  intros N. induction obj as [|[k v] rest IH]; cbn.
  - destruct (String.eqb_spec key key'); [congruence | reflexivity].
  - destruct (String.eqb_spec k key) as [->|D]; cbn.
    + destruct (String.eqb_spec key key'); [congruence | reflexivity].
    + destruct (String.eqb k key'); [reflexivity | exact IH].
Qed.

(** X26: [createEditor] leaves on [window.envelope] a code-completion
    service bound to the context it was called with, whether or not
    [window.envelope] existed and whatever service it held, and keeps every
    other property of it; the service sends its requests to that context;
    and the inner factory is given the same configuration, context and
    arguments. *)
Theorem X26_createEditor_installs_the_service :
  forall (config : GwtEditorEnvelopeConfig) (ctx : Context)
         (initArgs : EditorInitArgs) (envelope : option JsObject)
         (key query : string),
    key <> "javaCodeCompletionService" ->
    let after := orEmpty (fst (createEditor config ctx initArgs envelope)) in
    lookup "javaCodeCompletionService" after = Some (service (mkService ctx))
    /\ lookup key after = lookup key (orEmpty envelope)
    /\ fst (getClasses (mkService ctx) query) = ctx
    /\ snd (createEditor config ctx initArgs envelope) =
         mkDelegated config ctx initArgs.
Proof.
  intros config ctx initArgs envelope key query N. cbn.
  rewrite lookup_define_same. now rewrite lookup_define_other.
Qed.

Lemma X26_witness :
  lookup "theme"
    (orEmpty (fst (createEditor (mkConfig true) "second" (mkInitArgs "")
                     (Some [("javaCodeCompletionService",
                             service (mkService "first"));
                            ("theme", other "dark")]))))
    = Some (other "dark")
  /\ lookup "javaCodeCompletionService"
       (orEmpty (fst (createEditor (mkConfig true) "second" (mkInitArgs "")
                        (Some [("javaCodeCompletionService",
                                service (mkService "first"));
                               ("theme", other "dark")]))))
     = Some (service (mkService "second")).
Proof.
  assert (N : "theme" <> "javaCodeCompletionService") by discriminate.
  destruct (X26_createEditor_installs_the_service (mkConfig true) "second"
              (mkInitArgs "")
              (Some [("javaCodeCompletionService", service (mkService "first"));
                     ("theme", other "dark")])
              "theme" "" N) as (S & K & _).
  split; [exact K | exact S].
Defined.

End VsCodeFactory.
